(** * Donnees-Agricoles: the data-preparation pipeline of [data_manager.py]

    A shallow embedding of [AgriculturalDataManager] and of the fragment of
    pandas / scikit-learn it calls, followed by the properties of the
    pipeline.  Numbers are rationals ([Q]); a missing value (NaN, NaT, None)
    is the cell [NA]; timestamps are nanoseconds since the epoch ([Z]). *)

From Stdlib Require Import ZArith QArith Qabs List String Ascii Bool Lia Lqa.
From Stdlib Require Import Permutation Sorted.
Import ListNotations.

Local Open Scope string_scope.
Local Open Scope list_scope.

(** ** Exceptions and results *)

Inductive exn : Type :=
| FileNotFoundError (path : string)
| KeyError (key : string)
| ValueError (msg : string)
| TypeError (msg : string)
| AttributeError (msg : string)
| OtherError (msg : string).

Definition show_exn (e : exn) : string :=
  match e with
  | FileNotFoundError p => "No such file or directory: " ++ p
  | KeyError k => k
  | ValueError m => m
  | TypeError m => m
  | AttributeError m => m
  | OtherError m => m
  end.

Definition is_file_not_found (e : exn) : bool :=
  match e with FileNotFoundError _ => true | _ => false end.

Inductive result (A : Type) : Type :=
| Ok (a : A)
| Raise (e : exn).
Arguments Ok {A} a.
Arguments Raise {A} e.

Definition bind {A B} (m : result A) (k : A -> result B) : result B :=
  match m with
  | Ok a => k a
  | Raise e => Raise e
  end.

Notation "x <- m ;; k" := (bind m (fun x => k))
  (at level 61, m at next level, right associativity).

Fixpoint mapM {A B} (f : A -> result B) (l : list A) : result (list B) :=
  match l with
  | [] => Ok []
  | a :: l' => b <- f a ;; bs <- mapM f l' ;; Ok (b :: bs)
  end.

(** ** Cells, rows and data frames *)

Inductive cell : Type :=
| NA
| Num (q : Q)
| Str (s : string)
| Date (t : Z).

Definition isna (c : cell) : bool :=
  match c with NA => true | _ => false end.

Definition notna (c : cell) : bool := negb (isna c).

(** A row maps column names to cells, in column order. *)
Definition row : Type := list (string * cell).

Fixpoint get (r : row) (c : string) : cell :=
  match r with
  | [] => NA
  | (k, v) :: r' => if String.eqb k c then v else get r' c
  end.

Fixpoint set (r : row) (c : string) (v : cell) : row :=
  match r with
  | [] => [(c, v)]
  | (k, w) :: r' => if String.eqb k c then (k, v) :: r' else (k, w) :: set r' c v
  end.

Record DataFrame : Type := mkDF {
  columns : list string;
  rows : list row
}.

Definition has_column (df : DataFrame) (c : string) : bool :=
  existsb (String.eqb c) (columns df).

(** [df[c]]: the cells of one column, [KeyError] when it is absent. *)
Definition getitem (df : DataFrame) (c : string) : result (list cell) :=
  if has_column df c then Ok (map (fun r => get r c) (rows df))
  else Raise (KeyError c).

(** [df[c] = vals]: replaces the column, or appends it when it is new. *)
Definition setitem (df : DataFrame) (c : string) (vals : list cell) : DataFrame :=
  {| columns := if has_column df c then columns df else columns df ++ [c];
     rows := map (fun rv => set (fst rv) c (snd rv)) (combine (rows df) vals) |}.

(** [df.dropna(subset=cols)]: keeps the rows with a value in every column
    of [cols]. *)
Definition dropna (subset : list string) (df : DataFrame) : DataFrame :=
  {| columns := columns df;
     rows := filter (fun r => forallb (fun c => notna (get r c)) subset) (rows df) |}.

(** ** [pd.cut] *)

(** Bin edges: rationals and the two infinities of [np.inf]. *)
Inductive edge : Type :=
| NegInf
| Fin (q : Q)
| PosInf.

(** [e < x] for a finite [x]. *)
Definition edge_ltb (e : edge) (x : Q) : bool :=
  match e with
  | NegInf => true
  | Fin q => negb (Qle_bool x q)
  | PosInf => false
  end.

(** [bins.searchsorted(x, side="left")] on sorted [bins]: the number of
    edges strictly below [x]. *)
Fixpoint searchsorted_left (bins : list edge) (x : Q) : nat :=
  match bins with
  | [] => 0
  | e :: bins' => if edge_ltb e x then S (searchsorted_left bins' x) else 0
  end.

(** [pd.cut(x, bins, labels)] with the defaults [right=True] and
    [include_lowest=False]: bin [i] is [(bins[i-1], bins[i]]]; a value in no
    bin, or a missing value, is [NA]. *)
Definition cut_value (bins : list edge) (labels : list string) (x : Q) : cell :=
  let ids := searchsorted_left bins x in
  if orb (Nat.eqb ids 0) (Nat.eqb ids (List.length bins)) then NA
  else match nth_error labels (ids - 1) with
       | Some l => Str l
       | None => NA
       end.

Definition cut (bins : list edge) (labels : list string) (c : cell) : cell :=
  match c with
  | Num x => cut_value bins labels x
  | _ => NA
  end.

Definition risk_bins : list edge := [NegInf; Fin (-1); Fin 0; Fin 1; PosInf].

Definition risk_labels : list string := ["Très Bas"; "Bas"; "Modéré"; "Élevé"].

Definition risk_category_of (c : cell) : cell := cut risk_bins risk_labels c.

(** ** [StandardScaler] *)

Definition Qsum (l : list Q) : Q := fold_right Qplus 0%Q l.

Definition Qlen (l : list Q) : Q := inject_Z (Z.of_nat (List.length l)).

Definition Qmean (l : list Q) : Q := (Qsum l / Qlen l)%Q.

(** Population variance ([ddof = 0]), as [StandardScaler] computes it. *)
Definition Qvar (l : list Q) : Q :=
  let m := Qmean l in
  (Qsum (map (fun x => (x - m) * (x - m)) l) / Qlen l)%Q.

Definition as_float (c : cell) : result Q :=
  match c with
  | Num q => Ok q
  | NA => Raise (ValueError "Input contains NaN")
  | Str s => Raise (ValueError ("could not convert string to float: " ++ s))
  | Date _ => Raise (TypeError "float() argument must be a string or a real number")
  end.

Section Scaler.

(** The square root of the floating-point unit, on the rationals. *)
Variable fsqrt : Q -> Q.

(** One column of [fit_transform]: centre on the mean and divide by the
    standard deviation; a zero deviation is replaced by 1. *)
Definition scale_column (xs : list Q) : list Q :=
  let m := Qmean xs in
  let s := fsqrt (Qvar xs) in
  let s' := if Qeq_bool s 0 then 1%Q else s in
  map (fun x => ((x - m) / s')%Q) xs.

(** [StandardScaler().fit_transform(X)] on the three columns of [X]:
    needs at least one sample and numeric cells. *)
Definition fit_transform (X : list (cell * cell * cell))
  : result (list (Q * Q * Q)) :=
  match X with
  | [] => Raise (ValueError "Found array with 0 sample(s) while a minimum of 1 is required by StandardScaler.")
  | _ =>
    c0 <- mapM (fun x => as_float (fst (fst x))) X ;;
    c1 <- mapM (fun x => as_float (snd (fst x))) X ;;
    c2 <- mapM (fun x => as_float (snd x)) X ;;
    Ok (combine (combine (scale_column c0) (scale_column c1)) (scale_column c2))
  end.

(** ** [calculate_risk_metrics] *)

Definition required_columns : list string :=
  ["parcelle_id"; "culture"; "rendement"; "ph"; "matiere_organique"].

Definition risk_index_of (z : Q * Q * Q) : Q :=
  ((5 # 10) * fst (fst z) + (3 # 10) * snd (fst z) + (2 # 10) * snd z)%Q.

(** The [try] block.  The local variable [data] is rebound by [dropna];
    the first component is its value when the block is left. *)
Definition risk_metrics_body (data : DataFrame) : DataFrame * result DataFrame :=
  match find (fun col => negb (has_column data col)) required_columns with
  | Some col =>
      (data, Raise (KeyError ("Required column '" ++ col ++ "' is missing from the data.")))
  | None =>
      let data := dropna required_columns data in
      match fit_transform
              (map (fun r => (get r "rendement", get r "ph", get r "matiere_organique"))
                   (rows data)) with
      | Raise e => (data, Raise e)
      | Ok normalized_data =>
          let risk_index := map (fun z => Num (risk_index_of z)) normalized_data in
          let data := setitem data "risk_index" risk_index in
          let data := setitem data "risk_category" (map risk_category_of risk_index) in
          (data, Ok data)
      end
  end.

(** The value returned and the lines printed. *)
Definition calculate_risk_metrics (data : DataFrame) : DataFrame * list string :=
  match risk_metrics_body data with
  | (_, Ok scored) => (scored, ["Risk metrics added to the dataset successfully."])
  | (data', Raise e) => (data', [("Error calculating risk metrics: " ++ show_exn e)%string])
  end.

End Scaler.

(** ** Calendar *)

Definition day_ns : Z := 86400000000000.

(** The calendar day of a timestamp: days since 1970-01-01. *)
Definition day_of (t : Z) : Z := (t / day_ns)%Z.

Definition midnight (d : Z) : Z := (d * day_ns)%Z.

(** The proleptic Gregorian year of a day number ([.dt.year]). *)
Definition year_of_day (d : Z) : Z :=
  let z := (d + 719468)%Z in
  let era := (z / 146097)%Z in
  let doe := (z - era * 146097)%Z in
  let yoe := ((doe - doe / 1460 + doe / 36524 - doe / 146096) / 365)%Z in
  let doy := (doe - (365 * yoe + yoe / 4 - yoe / 100))%Z in
  let mp := ((5 * doy + 2) / 153)%Z in
  let y := (yoe + era * 400)%Z in
  if (mp <? 10)%Z then y else (y + 1)%Z.

Definition dt_year (t : Z) : Z := year_of_day (day_of t).

(** Days from 1970-01-01 to the first of January of year [y]. *)
Definition year_start_day (y : Z) : Z :=
  let p := (y - 1)%Z in
  (365 * p + p / 4 - p / 100 + p / 400 - 719162)%Z.

(** [datetime.toordinal]: day 1 is 0001-01-01. *)
Definition toordinal (t : Z) : Z := (day_of t + 719163)%Z.

(** [series.dt.year == y], cell by cell: the accessor needs datetimes, and
    a missing date compares unequal. *)
Definition year_is (y : Z) (c : cell) : result bool :=
  match c with
  | Date t => Ok (Z.eqb (dt_year t) y)
  | NA => Ok false
  | _ => Raise (AttributeError "Can only use .dt accessor with datetimelike values")
  end.

(** [df[df[c].dt.year == y]] *)
Definition filter_year (df : DataFrame) (c : string) (y : Z) : result DataFrame :=
  col <- getitem df c ;;
  mask <- mapM (year_is y) col ;;
  Ok {| columns := columns df;
        rows := map fst (filter snd (combine (rows df) mask)) |}.

(** [series.abs()] *)
Definition abs_cell (c : cell) : result cell :=
  match c with
  | Num q => Ok (Num (Qabs q))
  | NA => Ok NA
  | _ => Raise (TypeError "bad operand type for abs()")
  end.

(** ** Files *)

(** A CSV file is modelled by the frame [pd.read_csv] builds from it: a
    cell of a column listed in [parse_dates] whose text is a date is a
    [Date]; text that is not stays a [Str], as pandas leaves it. *)
Inductive file : Type :=
| CsvFile (df : DataFrame)
| Unreadable (msg : string).

Definition filesystem : Type := string -> option file.

Definition fs_write (disk : filesystem) (path : string) (f : file) : filesystem :=
  fun p => if String.eqb p path then Some f else disk p.

Definition read_csv (disk : filesystem) (path : string) (parse_dates : list string)
  : result DataFrame :=
  match disk path with
  | None => Raise (FileNotFoundError path)
  | Some (Unreadable msg) => Raise (OtherError msg)
  | Some (CsvFile df) =>
      match find (fun c => negb (has_column df c)) parse_dates with
      | Some c => Raise (ValueError ("Missing column provided to 'parse_dates': " ++ c))
      | None => Ok df
      end
  end.

(** ** The manager and its world *)

Record manager : Type := mkManager {
  monitoring_data : option DataFrame;
  weather_data : option DataFrame;
  soil_data : option DataFrame;
  yield_history : option DataFrame
}.

(** [AgriculturalDataManager()] *)
Definition init : manager :=
  {| monitoring_data := None; weather_data := None;
     soil_data := None; yield_history := None |}.

Record world : Type := mkWorld {
  self : manager;
  disk : filesystem;
  stdout : list string
}.

(** A method runs in a world and either returns or raises. *)
Definition M (A : Type) : Type := world -> result A * world.

Definition ret {A} (a : A) : M A := fun w => (Ok a, w).

Definition raise {A} (e : exn) : M A := fun w => (Raise e, w).

Definition bindM {A B} (m : M A) (k : A -> M B) : M B :=
  fun w => match m w with
           | (Ok a, w') => k a w'
           | (Raise e, w') => (Raise e, w')
           end.

Definition lift {A} (r : result A) : M A := fun w => (r, w).

(** [try: m except Exception as e: h e] *)
Definition try_except {A} (m : M A) (h : exn -> M A) : M A :=
  fun w => match m w with
           | (Ok a, w') => (Ok a, w')
           | (Raise e, w') => h e w'
           end.

Notation "'let*' x ':=' m 'in' k" := (bindM m (fun x => k))
  (at level 10, x name, m at level 100, k at level 200).
Notation "m ';;;' k" := (bindM m (fun _ => k))
  (at level 62, right associativity).

Definition print (line : string) : M unit :=
  fun w => (Ok tt, {| self := self w; disk := disk w; stdout := stdout w ++ [line] |}).

Definition get_self : M manager := fun w => (Ok (self w), w).

Definition put_self (m : manager) : M unit :=
  fun w => (Ok tt, {| self := m; disk := disk w; stdout := stdout w |}).

Definition get_disk : M filesystem := fun w => (Ok (disk w), w).

Definition put_disk (d : filesystem) : M unit :=
  fun w => (Ok tt, {| self := self w; disk := d; stdout := stdout w |}).

Definition set_monitoring_data (v : option DataFrame) : M unit :=
  let* m := get_self in
  put_self {| monitoring_data := v; weather_data := weather_data m;
              soil_data := soil_data m; yield_history := yield_history m |}.

Definition set_weather_data (v : option DataFrame) : M unit :=
  let* m := get_self in
  put_self {| monitoring_data := monitoring_data m; weather_data := v;
              soil_data := soil_data m; yield_history := yield_history m |}.

Definition set_soil_data (v : option DataFrame) : M unit :=
  let* m := get_self in
  put_self {| monitoring_data := monitoring_data m; weather_data := weather_data m;
              soil_data := v; yield_history := yield_history m |}.

Definition set_yield_history (v : option DataFrame) : M unit :=
  let* m := get_self in
  put_self {| monitoring_data := monitoring_data m; weather_data := weather_data m;
              soil_data := soil_data m; yield_history := v |}.

(** Using an attribute that is still [None] as a frame. *)
Definition the_frame (what : string) (v : option DataFrame) : M DataFrame :=
  match v with
  | Some df => ret df
  | None => raise (TypeError ("'NoneType' object is not subscriptable: " ++ what))
  end.

Definition pd_read_csv (path : string) (parse_dates : list string) : M DataFrame :=
  let* d := get_disk in lift (read_csv d path parse_dates).

(** ** [load_data] *)

Definition load_data : M unit :=
  try_except
    (let* monitoring := pd_read_csv "data/monitoring_cultures.csv" ["date"] in
     set_monitoring_data (Some monitoring) ;;;
     let* weather := pd_read_csv "data/meteo_detaillee.csv" ["date"] in
     set_weather_data (Some weather) ;;;
     let* soil := pd_read_csv "data/sols.csv" [] in
     set_soil_data (Some soil) ;;;
     let* yields := pd_read_csv "data/historique_rendements.csv" ["annee"] in
     set_yield_history (Some yields))
    (fun e =>
       if is_file_not_found e
       then print ("erreur: fichier introuvable. " ++ show_exn e)
       else print ("error loading data " ++ show_exn e)).

(** ** [clean_data] *)

(** No handler here: a failure reaches the caller. *)
Definition clean_data : M unit :=
  let* m := get_self in
  let* weather := the_frame "weather_data" (weather_data m) in
  let* kept := lift (filter_year weather "date" 2024) in
  set_weather_data (Some kept) ;;;
  let* col := lift (getitem kept "rayonnement_solaire") in
  let* fixed := lift (mapM abs_cell col) in
  set_weather_data (Some (setitem kept "rayonnement_solaire" fixed)).

(** ** [pd.to_datetime] *)

Definition is_digit (a : ascii) : bool :=
  let n := nat_of_ascii a in andb (Nat.leb 48 n) (Nat.leb n 57).

Definition digit_value (a : ascii) : Z := (Z.of_nat (nat_of_ascii a) - 48)%Z.

(** [format="%Y"]: exactly four digits. *)
Definition parse_year (s : string) : option Z :=
  match s with
  | String a (String b (String c (String d EmptyString))) =>
      if forallb is_digit [a; b; c; d]
      then Some (1000 * digit_value a + 100 * digit_value b
                 + 10 * digit_value c + digit_value d)%Z
      else None
  | _ => None
  end.

(** Truncation of a float to an integer. *)
Definition Qtrunc (q : Q) : Z := Z.quot (Qnum q) (Zpos (Qden q)).

Definition is_integral (q : Q) : bool := Qeq_bool q (inject_Z (Qtrunc q)).

(** [pd.to_datetime(series, format="%Y")], cell by cell: datetimes are kept,
    a year (number or text) becomes its first of January, anything else is
    an error. *)
Definition to_datetime_year (c : cell) : result cell :=
  match c with
  | Date t => Ok (Date t)
  | NA => Ok NA
  | Num q =>
      if andb (is_integral q) (andb (0 <=? Qtrunc q)%Z (Qtrunc q <=? 9999)%Z)
      then Ok (Date (midnight (year_start_day (Qtrunc q))))
      else Raise (ValueError "time data doesn't match format %Y")
  | Str s =>
      match parse_year s with
      | Some y => Ok (Date (midnight (year_start_day y)))
      | None => Raise (ValueError "time data doesn't match format %Y")
      end
  end.

(** [pd.to_datetime(series, errors="coerce")], cell by cell; [parse] reads
    a date text, a number counts nanoseconds. *)
Definition to_datetime_coerce (parse : string -> option Z) (c : cell) : cell :=
  match c with
  | Date t => Date t
  | NA => NA
  | Num q => Date (Qtrunc q)
  | Str s => match parse s with Some t => Date t | None => NA end
  end.

(** ** Resampling to days *)

Fixpoint nums (cs : list cell) : list Q :=
  match cs with
  | [] => []
  | Num q :: cs' => q :: nums cs'
  | _ :: cs' => nums cs'
  end.

(** The mean of a group, missing values skipped; missing when the group
    has no value. *)
Definition mean_cells (cs : list cell) : cell :=
  match nums cs with
  | [] => NA
  | xs => Num (Qmean xs)
  end.

Definition is_numeric (c : cell) : bool :=
  match c with NA | Num _ => true | _ => false end.

Definition is_datetime (c : cell) : bool :=
  match c with NA | Date _ => true | _ => false end.

(** The rows with a date, each with its calendar day. *)
Definition dated_rows (rs : list row) : list (Z * row) :=
  flat_map (fun r => match get r "date" with
                     | Date t => [(day_of t, r)]
                     | _ => []
                     end) rs.

Definition rows_of_day (d : Z) (drs : list (Z * row)) : list row :=
  map snd (filter (fun dr => Z.eqb (fst dr) d) drs).

(** The days [lo], [lo + 1], ..., [hi]. *)
Definition day_range (lo hi : Z) : list Z :=
  map (fun i => (lo + Z.of_nat i)%Z) (seq 0 (Z.to_nat (hi - lo + 1))).

Definition daily_row (value_columns : list string) (drs : list (Z * row)) (d : Z) : row :=
  ("date", Date (midnight d))
  :: map (fun c => (c, mean_cells (map (fun r => get r c) (rows_of_day d drs))))
         value_columns.

(** [df.set_index("date").resample("D").mean().reset_index()]: one bin per
    day from the first to the last dated row, empty bins included; rows
    without a date fall in no bin; a column that is not numeric makes
    [mean] fail. *)
Definition resample_D_mean (df : DataFrame) : result DataFrame :=
  index <- getitem df "date" ;;
  if negb (forallb is_datetime index)
  then Raise (TypeError "Only valid with DatetimeIndex, TimedeltaIndex or PeriodIndex")
  else
    let value_columns := filter (fun c => negb (String.eqb c "date")) (columns df) in
    if negb (forallb (fun c => forallb (fun r => is_numeric (get r c)) (rows df))
                     value_columns)
    then Raise (TypeError "agg function failed [how->mean,dtype->object]")
    else
      let drs := dated_rows (rows df) in
      let days :=
        match map fst drs with
        | [] => []
        | d :: ds => day_range (fold_right Z.min d ds) (fold_right Z.max d ds)
        end in
      Ok {| columns := "date" :: value_columns;
            rows := map (daily_row value_columns drs) days |}.

(** ** Sorting *)

Definition kind (c : cell) : nat :=
  match c with NA => 0 | Num _ => 1 | Str _ => 2 | Date _ => 3 end.

(** The order of [sort_values]: missing values last. *)
Definition cell_leb (a b : cell) : bool :=
  match a, b with
  | _, NA => true
  | NA, _ => false
  | Num x, Num y => Qle_bool x y
  | Date s, Date t => Z.leb s t
  | Str s, Str t => String.leb s t
  | _, _ => Nat.leb (kind a) (kind b)
  end.

(** Cells that can be compared with each other: of one kind, missing
    values apart. *)
Definition comparable (cs : list cell) : bool :=
  match filter notna cs with
  | [] => true
  | c :: cs' => forallb (fun c' => Nat.eqb (kind c') (kind c)) cs'
  end.

Definition orderable (cs : list cell) : bool :=
  orb (forallb is_numeric cs) (forallb is_datetime cs).

(** [sort_values] runs the library's default sort (an unstable quicksort).
    What is known of it: the rows come back permuted, in key order; the
    order of rows with equal keys is the algorithm's business. *)
Record Sorter : Type := mkSorter {
  sort_rows : (row -> cell) -> list row -> list row;
  sort_rows_perm : forall key l, Permutation l (sort_rows key l);
  sort_rows_sorted : forall key l,
    orderable (map key l) = true ->
    StronglySorted (fun a b => cell_leb (key a) (key b) = true) (sort_rows key l)
}.

(** [df.sort_values(by=c)] *)
Definition sort_values (S : Sorter) (df : DataFrame) (c : string) : result DataFrame :=
  col <- getitem df c ;;
  if comparable col
  then Ok {| columns := columns df; rows := sort_rows S (fun r => get r c) (rows df) |}
  else Raise (TypeError "'<' not supported between instances")
.

(** Insertion sort, which keeps rows with equal keys in their order. *)
Fixpoint insert_row (key : row -> cell) (r : row) (l : list row) : list row :=
  match l with
  | [] => [r]
  | r' :: l' => if cell_leb (key r) (key r') then r :: l
                else r' :: insert_row key r l'
  end.

Definition insertion_sort (key : row -> cell) (l : list row) : list row :=
  fold_right (insert_row key) [] l.

(** ** Merging *)

Fixpoint count_while {A} (p : A -> bool) (l : list A) : nat :=
  match l with
  | [] => 0
  | a :: l' => if p a then S (count_while p l') else 0
  end.

(** The last position of sorted [right] whose key is at most [x]. *)
Definition asof_backward (right : list Q) (x : Q) : option nat :=
  match count_while (fun r => Qle_bool r x) right with
  | O => None
  | S j => Some j
  end.

(** The first position of sorted [right] whose key is at least [x]. *)
Definition asof_forward (right : list Q) (x : Q) : option nat :=
  let j := count_while (fun r => negb (Qle_bool x r)) right in
  if Nat.ltb j (List.length right) then Some j else None.

(** [direction="nearest"]: the closer of the two; the earlier one on a
    tie. *)
Definition asof_nearest (right : list Q) (x : Q) : option nat :=
  match asof_backward right x, asof_forward right x with
  | Some b, Some f =>
      if Qle_bool (x - nth b right 0) (nth f right 0 - x) then Some b else Some f
  | Some b, None => Some b
  | None, f => f
  end.

Fixpoint is_monotonic_increasing (l : list Q) : bool :=
  match l with
  | [] => true
  | x :: l' =>
      match l' with
      | [] => true
      | y :: _ => andb (Qle_bool x y) (is_monotonic_increasing l')
      end
  end.

(** The numeric value of a merge key. *)
Definition key_value (c : cell) : Q :=
  match c with
  | Date t => inject_Z t
  | Num q => q
  | _ => 0
  end.

Definition is_date (c : cell) : bool :=
  match c with Date _ => true | _ => false end.

Definition is_num (c : cell) : bool :=
  match c with Num _ => true | _ => false end.

(** The checks [merge_asof] makes on its two key columns. *)
Definition asof_keys (left right : list cell) : result (list Q * list Q) :=
  if existsb isna left then Raise (ValueError "Merge keys contain null values on left side")
  else if existsb isna right then Raise (ValueError "Merge keys contain null values on right side")
  else if negb (orb (andb (forallb is_date left) (forallb is_date right))
                    (andb (forallb is_num left) (forallb is_num right)))
  then Raise (OtherError "MergeError: incompatible merge keys")
  else
    let lk := map key_value left in
    let rk := map key_value right in
    if negb (is_monotonic_increasing lk) then Raise (ValueError "left keys must be sorted")
    else if negb (is_monotonic_increasing rk) then Raise (ValueError "right keys must be sorted")
    else Ok (lk, rk).

Definition mem (c : string) (l : list string) : bool := existsb (String.eqb c) l.

(** The names of the merged frame: a column on both sides, the key apart,
    takes the suffix of its side. *)
Definition suffixed (overlap : list string) (sfx : string) (c : string) : string :=
  if mem c overlap then (c ++ sfx)%string else c.

Definition overlap_of (on : string) (lcols rcols : list string) : list string :=
  filter (fun c => andb (negb (String.eqb c on)) (mem c rcols)) lcols.

Definition without (on : string) (cols : list string) : list string :=
  filter (fun c => negb (String.eqb c on)) cols.

Definition left_part (overlap lcols : list string) (l : row) : row :=
  map (fun c => (suffixed overlap "_x" c, get l c)) lcols.

Definition right_part (overlap rcols : list string) (r : option row) : row :=
  map (fun c => (suffixed overlap "_y" c,
                 match r with Some r' => get r' c | None => NA end)) rcols.

Definition merged_columns (on : string) (lcols rcols : list string) : list string :=
  let overlap := overlap_of on lcols rcols in
  map (suffixed overlap "_x") lcols ++ map (suffixed overlap "_y") (without on rcols).

Definition merged_row (on : string) (lcols rcols : list string) (l : row) (r : option row)
  : row :=
  let overlap := overlap_of on lcols rcols in
  left_part overlap lcols l ++ right_part overlap (without on rcols) r.

(** [pd.merge_asof(left, right, on=on, direction="nearest")] *)
Definition merge_asof (left right : DataFrame) (on : string) : result DataFrame :=
  lcol <- getitem left on ;;
  rcol <- getitem right on ;;
  keys <- asof_keys lcol rcol ;;
  Ok {| columns := merged_columns on (columns left) (columns right);
        rows := map (fun lx =>
                       merged_row on (columns left) (columns right) (fst lx)
                         (match asof_nearest (snd keys) (snd lx) with
                          | Some j => nth_error (rows right) j
                          | None => None
                          end))
                    (combine (rows left) (fst keys)) |}.

(** Equality of join keys: missing keys match each other. *)
Definition key_eqb (a b : cell) : bool :=
  match a, b with
  | NA, NA => true
  | Num x, Num y => Qeq_bool x y
  | Str s, Str t => String.eqb s t
  | Date s, Date t => Z.eqb s t
  | _, _ => false
  end.

(** The kind of the values of a key column: the dtype pandas gave it.  A
    column without a value, or with values of several kinds, has none here:
    what pandas decides for it depends on the dtype the column was created
    with (and on integers against floats), which cells do not record. *)
Inductive key_kind : Type := Numbers | Datetimes | Texts.

Definition is_text (c : cell) : bool :=
  match c with Str _ => true | _ => false end.

Definition key_kind_of (col : list cell) : option key_kind :=
  match filter notna col with
  | [] => None
  | cs => if forallb is_num cs then Some Numbers
          else if forallb is_date cs then Some Datetimes
          else if forallb is_text cs then Some Texts
          else None
  end.

Definition same_kind (a b : key_kind) : bool :=
  match a, b with
  | Numbers, Numbers | Datetimes, Datetimes | Texts, Texts => true
  | _, _ => false
  end.

(** The check [pd.merge] makes on its two key columns: texts do not merge
    with numbers or with datetimes, nor numbers with datetimes. *)
Definition mergeable (left right : list cell) : bool :=
  match key_kind_of left, key_kind_of right with
  | Some a, Some b => same_kind a b
  | _, _ => true
  end.

(** [pd.merge(left, right, how="left", on=on)]: every left row, once per
    matching right row, or once with missing values. *)
Definition merge_left (left right : DataFrame) (on : string) : result DataFrame :=
  lcol <- getitem left on ;;
  rcol <- getitem right on ;;
  if negb (mergeable lcol rcol)
  then Raise (ValueError "You are trying to merge on columns of different kinds. If you wish to proceed you should use pd.concat")
  else
  Ok {| columns := merged_columns on (columns left) (columns right);
        rows := flat_map
                  (fun l =>
                     match filter (fun r => key_eqb (get r on) (get l on)) (rows right) with
                     | [] => [merged_row on (columns left) (columns right) l None]
                     | ms => map (fun r => merged_row on (columns left) (columns right) l (Some r)) ms
                     end)
                  (rows left) |}.

(** [df[cols]] *)
Definition select (df : DataFrame) (cols : list string) : result DataFrame :=
  match find (fun c => negb (has_column df c)) cols with
  | Some c => Raise (KeyError c)
  | None => Ok {| columns := cols;
                  rows := map (fun r => map (fun c => (c, get r c)) cols) (rows df) |}
  end.

(** [df.drop(columns=cols, errors="ignore")] *)
Definition drop (df : DataFrame) (cols : list string) : DataFrame :=
  {| columns := filter (fun c => negb (mem c cols)) (columns df);
     rows := map (filter (fun kv : string * cell => negb (mem (fst kv) cols))) (rows df) |}.

Definition renamed (mapping : list (string * string)) (c : string) : string :=
  match find (fun m => String.eqb (fst m) c) mapping with
  | Some m => snd m
  | None => c
  end.

(** [df.rename(columns=mapping)] *)
Definition rename (df : DataFrame) (mapping : list (string * string)) : DataFrame :=
  {| columns := map (renamed mapping) (columns df);
     rows := map (map (fun kv : string * cell => (renamed mapping (fst kv), snd kv)))
                 (rows df) |}.

(** ** Series statistics and regression *)

(** Element-wise [==]: a missing value equals nothing. *)
Definition cell_eqb (a b : cell) : bool :=
  match a, b with
  | Num x, Num y => Qeq_bool x y
  | Str s, Str t => String.eqb s t
  | Date s, Date t => Z.eqb s t
  | _, _ => false
  end.

(** [df[df[c] == v]] *)
Definition filter_eq (df : DataFrame) (c : string) (v : cell) : result DataFrame :=
  col <- getitem df c ;;
  Ok {| columns := columns df;
        rows := map fst (filter (fun rv => cell_eqb (snd rv) v) (combine (rows df) col)) |}.

(** [df.empty] *)
Definition empty (df : DataFrame) : bool :=
  match columns df, rows df with
  | [], _ | _, [] => true
  | _, _ => false
  end.

(** [a / b] on floats taken as a checked operation. *)
Definition divide (a b : Q) : result Q :=
  if Qeq_bool b 0 then Raise (OtherError "ZeroDivisionError: float division by zero")
  else Ok (a / b)%Q.

(** [LinearRegression().fit(x, y)] with one feature: the least-squares
    slope and intercept; the slope of minimal norm, 0, when [x] does not
    vary. *)
Definition linear_regression (xs ys : list Q) : result (Q * Q) :=
  if negb (Nat.eqb (List.length xs) (List.length ys))
  then Raise (ValueError "Found input variables with inconsistent numbers of samples")
  else match xs with
       | [] => Raise (ValueError "Found array with 0 sample(s) while a minimum of 1 is required by LinearRegression.")
       | _ =>
           let mx := Qmean xs in
           let my := Qmean ys in
           let sxx := Qsum (map (fun x => (x - mx) * (x - mx)) xs) in
           let sxy := Qsum (map (fun xy => (fst xy - mx) * (snd xy - my)) (combine xs ys)) in
           let slope := if Qeq_bool sxx 0 then 0 else (sxy / sxx) in
           Ok (slope, my - slope * mx)
       end%Q.

(** [datetime.toordinal] mapped over an index. *)
Definition ordinal_of (c : cell) : result Q :=
  match c with
  | Date t => Ok (inject_Z (toordinal t))
  | NA => Raise (ValueError "NaTType does not support toordinal")
  | _ => Raise (TypeError "descriptor 'toordinal' for 'datetime.date' objects doesn't apply")
  end.

Definition Qminimum (x : Q) (l : list Q) : Q :=
  fold_right (fun a m => if Qle_bool a m then a else m) x l.

Definition Qmaximum (x : Q) (l : list Q) : Q :=
  fold_right (fun a m => if Qle_bool m a then a else m) x l.

(** [series.rolling(window=w).mean().dropna()] on a series without
    missing values: the means of the full windows. *)
Fixpoint rolling_mean (w : nat) (xs : list Q) : list Q :=
  match xs with
  | [] => []
  | _ :: xs' =>
      if Nat.leb w (List.length xs) then Qmean (firstn w xs) :: rolling_mean w xs'
      else []
  end.

(** [series.nunique()]: the distinct values, missing ones apart. *)
Fixpoint unique (cs : list cell) : list cell :=
  match cs with
  | [] => []
  | c :: cs' =>
      let u := unique cs' in
      if orb (isna c) (existsb (key_eqb c) u) then u else c :: u
  end.

Definition nunique (cs : list cell) : nat := List.length (unique cs).

(** [series + noise] *)
Definition add_cell (c : cell) (x : Q) : result cell :=
  match c with
  | Num q => Ok (Num (q + x))
  | NA => Ok NA
  | _ => Raise (TypeError "unsupported operand type(s) for +")
  end.

(** Linear interpolation of the missing values of a numeric series
    ([series.interpolate()]): between two values the gap is filled on the
    straight line, positions equally spaced; after the last value it is
    repeated; before the first value the gap stays. *)
Fixpoint fill_gap (a : Q) (k : nat) (cs : list cell) : list cell :=
  match cs with
  | [] => repeat (Num a) k
  | Num b :: cs' =>
      map (fun j => Num (a + (b - a) * (inject_Z (Z.of_nat j) / inject_Z (Z.of_nat (S k)))))
          (seq 1 k)
      ++ Num b :: fill_gap b 0 cs'
  | _ :: cs' => fill_gap a (S k) cs'
  end.

Fixpoint interpolate_from (cs : list cell) : list cell :=
  match cs with
  | [] => []
  | Num a :: cs' => Num a :: fill_gap a 0 cs'
  | c :: cs' => c :: interpolate_from cs'
  end.

Definition interpolate (cs : list cell) : result (list cell) :=
  if forallb is_numeric cs then Ok (interpolate_from cs)
  else Raise (TypeError "Cannot interpolate with all object-dtype columns")
.

(** ** Results of the analyses *)

Record Trend : Type := mkTrend {
  pente : Q;
  intercept : Q;
  variation_moyenne : Q
}.

Record NdviStats : Type := mkNdviStats {
  mean_ndvi : Q;
  std_ndvi : cell;
  min_ndvi : Q;
  max_ndvi : Q
}.

Record Decomposition : Type := mkDecomposition {
  trend : list cell;
  seasonal : list cell;
  resid : list cell
}.

Record History : Type := mkHistory {
  ndvi_trend : list cell;
  ndvi_seasonal : list cell;
  ndvi_residual : list cell;
  ndvi_moving_avg : list Q;
  summary_stats : NdviStats
}.

Record YieldStats : Type := mkYieldStats {
  moyenne : Q;
  ecart_type : cell;
  minimum : Q;
  maximum : Q
}.

Record YieldAnalysis : Type := mkYieldAnalysis {
  tendance : Trend;
  residus : list (cell * Q);
  statistiques_resume : YieldStats
}.

(** ** The methods of [AgriculturalDataManager] *)

Section Manager.

(** The sort behind [sort_values]. *)
Variable S : Sorter.

(** The square root of the floating-point unit. *)
Variable fsqrt : Q -> Q.

(** The reader of date texts behind [pd.to_datetime]. *)
Variable parse_datetime : string -> option Z.

(** [seasonal_decompose(series, model="additive", period=p)] *)
Variable seasonal_decompose : list (cell * Q) -> nat -> result Decomposition.

(** The draws of [np.random.normal(0, 0.1, size=n)], by position. *)
Variable noise : nat -> Q.

(** [series.std()]: the sample deviation, missing below two values. *)
Definition std (xs : list Q) : cell :=
  match xs with
  | [] | [_] => NA
  | _ =>
      let m := Qmean xs in
      Num (fsqrt (Qsum (map (fun x => (x - m) * (x - m)) xs)
                  / inject_Z (Z.of_nat (List.length xs - 1))))
  end%Q.

Definition meteo_data_hourly_to_daily : M unit :=
  try_except
    (let* m := get_self in
     let* weather := the_frame "weather_data" (weather_data m) in
     let* col := lift (getitem weather "date") in
     let weather := setitem weather "date" (map (to_datetime_coerce parse_datetime) col) in
     set_weather_data (Some weather) ;;;
     let* daily := lift (resample_D_mean weather) in
     set_weather_data (Some daily))
    (fun e => print ("Error aggregating: " ++ show_exn e)).

Definition to_csv (data : DataFrame) (path : string) : M unit :=
  let* d := get_disk in put_disk (fs_write d path (CsvFile data)).

Definition enrich_with_yield_history (data : DataFrame) : M DataFrame :=
  try_except
    (let* m := get_self in
     let* yields := the_frame "yield_history" (yield_history m) in
     let* annee := lift (getitem yields "annee") in
     let* annee := lift (mapM to_datetime_year annee) in
     let yields := setitem yields "annee" annee in
     set_yield_history (Some yields) ;;;
     let* rendement_2024 := lift (filter_year yields "annee" 2024) in
     let* picked := lift (select rendement_2024 ["parcelle_id"; "annee"; "rendement"]) in
     lift (merge_left data picked "parcelle_id"))
    (fun e => print ("error enriching yield: " ++ show_exn e) ;;; ret data).

Definition risk_metrics (data : DataFrame) : M DataFrame :=
  fun w =>
    let (scored, lines) := calculate_risk_metrics fsqrt data in
    (Ok scored, {| self := self w; disk := disk w; stdout := stdout w ++ lines |}).

Definition prepare_features : M (option DataFrame) :=
  try_except
    (let* m := get_self in
     let* monitoring := the_frame "monitoring_data" (monitoring_data m) in
     let* monitoring := lift (sort_values S monitoring "date") in
     set_monitoring_data (Some monitoring) ;;;
     let* weather := the_frame "weather_data" (weather_data m) in
     let* weather := lift (sort_values S weather "date") in
     set_weather_data (Some weather) ;;;
     let* data := lift (merge_asof monitoring weather "date") in
     let* soil := the_frame "soil_data" (soil_data m) in
     let* data := lift (merge_left data soil "parcelle_id") in
     let* data := enrich_with_yield_history data in
     let data := drop data ["latitude_y"; "longitude_y"] in
     let data := rename data [("latitude_x", "latitude"); ("longitude_x", "longitude")] in
     let* data := risk_metrics data in
     to_csv data "data/features_daily.csv" ;;;
     ret (Some data))
    (fun e => print ("error preparing data: " ++ show_exn e) ;;; ret None).

(** [slope / mean if mean != 0 else 0] *)
Definition variation (slope mean : Q) : result Q :=
  if negb (Qeq_bool mean 0) then divide slope mean else Ok 0%Q.

Definition get_temporal_patterns (parcelle_id : cell)
  : M (option History * option Trend) :=
  try_except
    (let* features := pd_read_csv "data/features_daily.csv" ["date"] in
     let* parcelle_data := lift (filter_eq features "parcelle_id" parcelle_id) in
     if negb (has_column parcelle_data "ndvi")
     then raise (KeyError "NDVI column not found in the data.")
     else if empty parcelle_data
     then raise (ValueError "No data found for parcelle_id")
     else
       let* parcelle_data := lift (sort_values S parcelle_data "date") in
       let index := map (fun r => get r "date") (rows parcelle_data) in
       let ndvi_series :=
         filter (fun iv => notna (snd iv))
                (map (fun r => (get r "date", get r "ndvi")) (rows parcelle_data)) in
       if Nat.ltb (List.length ndvi_series) 12
       then raise (ValueError "Not enough data points for seasonal decomposition.")
       else
         let* ndvi_values := lift (mapM as_float (map snd ndvi_series)) in
         let* decomposition :=
           lift (seasonal_decompose (combine (map fst ndvi_series) ndvi_values) 12) in
         let* date_ordinal := lift (mapM ordinal_of index) in
         let* model := lift (linear_regression date_ordinal ndvi_values) in
         let trend_slope := fst model in
         let trend_intercept := snd model in
         let* v := lift (variation trend_slope (Qmean ndvi_values)) in
         let trend_ :=
           {| pente := trend_slope; intercept := trend_intercept;
              variation_moyenne := v |} in
         let history :=
           {| ndvi_trend := filter notna (trend decomposition);
              ndvi_seasonal := seasonal decomposition;
              ndvi_residual := filter notna (resid decomposition);
              ndvi_moving_avg := rolling_mean 30 ndvi_values;
              summary_stats :=
                {| mean_ndvi := Qmean ndvi_values;
                   std_ndvi := std ndvi_values;
                   min_ndvi := Qminimum (hd 0%Q ndvi_values) ndvi_values;
                   max_ndvi := Qmaximum (hd 0%Q ndvi_values) ndvi_values |} |} in
         ret (Some history, Some trend_))
    (fun e => print ("Error in get_temporal_patterns: " ++ show_exn e) ;;;
              ret (None, None)).

Definition analyze_yield_patterns (parcelle_id : cell) : M (option YieldAnalysis) :=
  try_except
    (let* m := get_self in
     let* yields := the_frame "yield_history" (yield_history m) in
     let* parcelle_yield_history := lift (filter_eq yields "parcelle_id" parcelle_id) in
     if empty parcelle_yield_history
     then raise (ValueError "No yield data found for parcelle_id")
     else
       let* sorted := lift (sort_values S parcelle_yield_history "annee") in
       let index := map (fun r => get r "annee") (rows sorted) in
       let* yield_series := lift (getitem sorted "rendement") in
       let* yield_series :=
         if existsb isna yield_series
         then print "Filling missing values in yield series." ;;;
              lift (interpolate yield_series)
         else ret yield_series in
       let* yield_series :=
         if Nat.eqb (nunique yield_series) 1
         then print "Adding noise to constant yield series." ;;;
              lift (mapM (fun ci => add_cell (fst ci) (noise (snd ci)))
                         (combine yield_series (seq 0 (List.length yield_series))))
         else ret yield_series in
       let* date_ordinal := lift (mapM ordinal_of index) in
       let* yield_values := lift (mapM as_float yield_series) in
       let* model := lift (linear_regression date_ordinal yield_values) in
       let trend_slope := fst model in
       let trend_intercept := snd model in
       let predicted_values :=
         map (fun x => (trend_slope * x + trend_intercept)%Q) date_ordinal in
       let residuals :=
         combine index
                 (map (fun yp => (fst yp - snd yp)%Q) (combine yield_values predicted_values)) in
       let* v := lift (variation trend_slope (Qmean yield_values)) in
       ret (Some
              {| tendance :=
                   {| pente := trend_slope; intercept := trend_intercept;
                      variation_moyenne := v |};
                 residus := residuals;
                 statistiques_resume :=
                   {| moyenne := Qmean yield_values;
                      ecart_type := std yield_values;
                      minimum := Qminimum (hd 0%Q yield_values) yield_values;
                      maximum := Qmaximum (hd 0%Q yield_values) yield_values |} |}))
    (fun e =>
       print ("Erreur lors de l'analyse des patterns de rendement : " ++ show_exn e) ;;;
       ret None).

End Manager.

(** ** Reference instances and vocabulary of the statements *)

(** A square root on the rationals, exact on squares of multiples of
    [2^-52]. *)
Definition Qsqrt (q : Q) : Q :=
  Qmake (Z.sqrt (Qnum q * 2 ^ 104 / Zpos (Qden q))) (2 ^ 52).

(** The position of a category among the labels, lowest risk first; a
    missing category counts as the number of labels. *)
Definition category_rank (c : cell) : nat :=
  match c with
  | Str l => count_while (fun l' => negb (String.eqb l' l)) risk_labels
  | _ => List.length risk_labels
  end.

(** The four sources of [load_data], in the order it reads them. *)
Inductive source : Type := Monitoring | Weather | Soil | Yields.

Definition source_path (s : source) : string :=
  match s with
  | Monitoring => "data/monitoring_cultures.csv"
  | Weather => "data/meteo_detaillee.csv"
  | Soil => "data/sols.csv"
  | Yields => "data/historique_rendements.csv"
  end.

Definition source_dates (s : source) : list string :=
  match s with
  | Monitoring | Weather => ["date"]
  | Soil => []
  | Yields => ["annee"]
  end.

Definition source_rank (s : source) : nat :=
  match s with Monitoring => 0 | Weather => 1 | Soil => 2 | Yields => 3 end.

Definition table_of (m : manager) (s : source) : option DataFrame :=
  match s with
  | Monitoring => monitoring_data m
  | Weather => weather_data m
  | Soil => soil_data m
  | Yields => yield_history m
  end.

(** The non-null vegetation-index observations of a parcel in the feature
    table. *)
Definition ndvi_observations (features : DataFrame) (parcelle_id : cell) : nat :=
  List.length
    (filter (fun r => andb (cell_eqb (get r "parcelle_id") parcelle_id)
                           (notna (get r "ndvi")))
            (rows features)).

(** The rows of a parcel in the yield history. *)
Definition parcel_yields (yields : DataFrame) (pid : cell) : list row :=
  filter (fun r => cell_eqb (get r "parcelle_id") pid) (rows yields).

(** A row of a series that is constant at [v]: a dated row whose yield is
    [v]. *)
Definition constant_yield (v : Q) (r : row) : Prop :=
  (exists q, get r "rendement" = Num q /\ q == v) /\ exists t, get r "annee" = Date t.

(** The ordinal of a date cell. *)
Definition ordinal_value (c : cell) : Q :=
  match c with
  | Date t => inject_Z (toordinal t)
  | _ => 0
  end.

(** The weather table once its dates went through [pd.to_datetime]. *)
Definition coerce_dates (parse : string -> option Z) (weather : DataFrame) : DataFrame :=
  setitem weather "date"
          (map (to_datetime_coerce parse) (map (fun r => get r "date") (rows weather))).

(** The row is dated on calendar day [d]. *)
Definition on_day (d : Z) (r : row) : bool :=
  match get r "date" with
  | Date t => Z.eqb (day_of t) d
  | _ => false
  end.

(** The days of the output: those between two source days. *)
Definition span (ds : list Z) : list Z :=
  match ds with
  | [] => []
  | d :: ds' => day_range (fold_right Z.min d ds') (fold_right Z.max d ds')
  end.

(** [s] ends with [sfx]. *)
Fixpoint has_suffix (sfx s : string) : bool :=
  orb (String.eqb s sfx)
      (match s with
       | EmptyString => false
       | String _ s' => has_suffix sfx s'
       end).

(** A column name that no merge suffix can produce. *)
Definition plain (c : string) : bool :=
  andb (negb (has_suffix "_x" c)) (negb (has_suffix "_y" c)).

(** The distance between two keys. *)
Definition distance (a b : cell) : Q := Qabs (key_value a - key_value b).

(** [p] is a row of [candidates] whose key is nearest to the key of [l];
    none only when there is no candidate. *)
Definition nearest_to (on : string) (candidates : list row) (l : row) (p : option row)
  : Prop :=
  match p with
  | Some r =>
      In r candidates /\
      forall r', In r' candidates -> distance (get l on) (get r on) <= distance (get l on) (get r' on)
  | None => candidates = []
  end.

(** The value a matched row gives to a column. *)
Definition matched (p : option row) (c : string) : cell :=
  match p with
  | Some r => get r c
  | None => NA
  end.

(** The names the joiner gives a meaning of its own. *)
Definition reserved : list string :=
  ["latitude"; "longitude"; "annee"; "rendement"; "risk_index"; "risk_category"].

(** A column that goes through the joiner under its own name. *)
Definition tracked (c : string) : bool := andb (plain c) (negb (mem c reserved)).

(** A radiation cell holds no negative number. *)
Definition non_negative (c : cell) : Prop :=
  match c with
  | NA => True
  | Num q => 0 <= q
  | _ => False
  end.

(** The stages in the order of the specification: Loader, Temporal
    Normalizer (year filter and sign correction, then resampling), Feature
    Joiner. *)
Definition pipeline (S : Sorter) (fsqrt : Q -> Q) (parse : string -> option Z)
  : M (option DataFrame) :=
  load_data ;;; clean_data ;;; meteo_data_hourly_to_daily parse ;;;
  prepare_features S fsqrt.

(** ** Concrete tables and worlds *)

(** A table with every required column whose only row has no yield. *)
Definition table_without_yield : DataFrame :=
  {| columns := required_columns;
     rows := [[("parcelle_id", Str "P001"); ("culture", Str "Ble");
               ("rendement", NA); ("ph", Num (13 # 2));
               ("matiere_organique", Num 2)]] |}.

(** A new manager in front of a disk where only the monitoring file is
    missing. *)
Definition disk_without_monitoring : filesystem :=
  fun p =>
    if String.eqb p "data/meteo_detaillee.csv"
    then Some (CsvFile {| columns := ["date"; "rayonnement_solaire"];
                          rows := [[("date", Date 0); ("rayonnement_solaire", Num 5)]] |})
    else if String.eqb p "data/sols.csv"
    then Some (CsvFile {| columns := ["parcelle_id"; "ph"]; rows := [] |})
    else if String.eqb p "data/historique_rendements.csv"
    then Some (CsvFile {| columns := ["parcelle_id"; "annee"; "rendement"]; rows := [] |})
    else None.

Definition world_without_monitoring : world :=
  {| self := init; disk := disk_without_monitoring; stdout := [] |}.

(** A decomposition that keeps the series as its trend. *)
Definition flat_decompose (series : list (cell * Q)) (period : nat) : result Decomposition :=
  if Nat.ltb (List.length series) (2 * period)
  then Raise (ValueError "x must have 2 complete cycles")
  else Ok {| trend := map (fun iv => Num (snd iv)) series;
             seasonal := map (fun _ => Num 0) series;
             resid := map (fun _ => Num 0) series |}.

Definition feature_row (pid : string) (day : Z) (ndvi : cell) : row :=
  [("parcelle_id", Str pid); ("date", Date (midnight day)); ("ndvi", ndvi)].

(** A feature table with three observations of parcel P001, one of them
    without a vegetation index. *)
Definition short_features : DataFrame :=
  {| columns := ["parcelle_id"; "date"; "ndvi"];
     rows := [feature_row "P001" 19725 (Num (6 # 10));
              feature_row "P002" 19725 (Num (5 # 10));
              feature_row "P001" 19723 NA;
              feature_row "P001" 19724 (Num (7 # 10))] |}.

Definition world_with_features (features : DataFrame) : world :=
  {| self := init;
     disk := fs_write (fun _ => None) "data/features_daily.csv" (CsvFile features);
     stdout := [] |}.

Definition yield_row (pid : string) (year : Z) (rendement : cell) : row :=
  [("parcelle_id", Str pid); ("annee", Date (midnight (year_start_day year)));
   ("rendement", rendement)].

(** Parcel P002 yields 4.0 t/ha in each of five years. *)
Definition constant_yields : DataFrame :=
  {| columns := ["parcelle_id"; "annee"; "rendement"];
     rows := [yield_row "P002" 2022 (Num 4); yield_row "P001" 2020 (Num 3);
              yield_row "P002" 2020 (Num 4); yield_row "P002" 2024 (Num 4);
              yield_row "P002" 2021 (Num 4); yield_row "P002" 2023 (Num 4)] |}.

Definition world_with_yields (yields : DataFrame) : world :=
  {| self := {| monitoring_data := None; weather_data := None;
                soil_data := None; yield_history := Some yields |};
     disk := fun _ => None;
     stdout := [] |}.

(** Draws that alternate around zero. *)
Definition small_noise (i : nat) : Q :=
  if Nat.even i then 1 # 100 else - (1 # 50).

(** A yield series of mean zero: the guard answers 0. *)
Definition centred_yields : DataFrame :=
  {| columns := ["parcelle_id"; "annee"; "rendement"];
     rows := [yield_row "P003" 2020 (Num (-1)); yield_row "P003" 2021 (Num 3);
              yield_row "P003" 2022 (Num (-2))] |}.



Definition weather_row (t : Z) (radiation : cell) : row :=
  [("date", Date t); ("rayonnement_solaire", radiation)].

(** Readings on the first and on the third of January 2024. *)
Definition gap_weather : DataFrame :=
  {| columns := ["date"; "rayonnement_solaire"];
     rows := [weather_row (midnight 19723 + 3600000000000) (Num 100);
              weather_row (midnight 19723 + 7200000000000) (Num 200);
              weather_row (midnight 19725) (Num 50)] |}.

Definition world_with_weather (weather : DataFrame) : world :=
  {| self := {| monitoring_data := None; weather_data := Some weather;
                soil_data := None; yield_history := None |};
     disk := fun _ => None;
     stdout := [] |}.

(** A reader of date texts that reads none. *)
Definition no_parse (s : string) : option Z := None.

(** The daily table of [gap_weather]: the second of January is there,
    empty. *)
Definition gap_weather_daily : DataFrame :=
  {| columns := ["date"; "rayonnement_solaire"];
     rows := [weather_row (midnight 19723) (Num (300 # 2));
              weather_row (midnight 19724) NA;
              weather_row (midnight 19725) (Num (50 # 1))] |}.

(** The renaming [prepare_features] applies after the merges. *)
Definition feature_renaming : list (string * string) :=
  [("latitude_x", "latitude"); ("longitude_x", "longitude")].

(** The columns [_enrich_with_yield_history] takes from the yield history. *)
Definition yield_columns : list string := ["parcelle_id"; "annee"; "rendement"].

(** Day [d0] is the tenth of March 2024. *)
Definition d0 : Z := 19792.

Definition hour : Z := 3600000000000.

Definition scenario_monitoring : DataFrame :=
  {| columns := ["parcelle_id"; "date"; "ndvi"; "culture"; "latitude"; "longitude"];
     rows := [[("parcelle_id", Str "P001"); ("date", Date (midnight d0));
               ("ndvi", Num (6 # 10)); ("culture", Str "Ble");
               ("latitude", Num 34); ("longitude", Num (-6))];
              [("parcelle_id", Str "P001"); ("date", Date (midnight (d0 - 1)));
               ("ndvi", Num (5 # 10)); ("culture", Str "Ble");
               ("latitude", Num 34); ("longitude", Num (-6))]] |}.

(** Two readings of -3.0 on the eve of [d0], one of 5.0 two days after it,
    and a reading of 2023. *)
Definition scenario_weather : DataFrame :=
  {| columns := ["date"; "rayonnement_solaire"; "temperature"];
     rows := [[("date", Date (midnight (d0 + 2))); ("rayonnement_solaire", Num 5);
               ("temperature", Num 12)];
              [("date", Date (midnight (d0 - 1) + 6 * hour));
               ("rayonnement_solaire", Num (-3)); ("temperature", Num 10)];
              [("date", Date (midnight 19700)); ("rayonnement_solaire", Num (-10));
               ("temperature", Num 3)];
              [("date", Date (midnight (d0 - 1) + 18 * hour));
               ("rayonnement_solaire", Num (-3)); ("temperature", Num 14)]] |}.

Definition scenario_soil : DataFrame :=
  {| columns := ["parcelle_id"; "ph"; "matiere_organique"; "latitude"; "longitude"];
     rows := [[("parcelle_id", Str "P001"); ("ph", Num (13 # 2));
               ("matiere_organique", Num 2); ("latitude", Num 34);
               ("longitude", Num (-6))]] |}.

Definition scenario_yields : DataFrame :=
  {| columns := ["parcelle_id"; "annee"; "rendement"];
     rows := [yield_row "P001" 2023 (Num (7 # 2)); yield_row "P001" 2024 (Num 4)] |}.

Definition scenario_disk : filesystem :=
  fun p =>
    if String.eqb p "data/monitoring_cultures.csv" then Some (CsvFile scenario_monitoring)
    else if String.eqb p "data/meteo_detaillee.csv" then Some (CsvFile scenario_weather)
    else if String.eqb p "data/sols.csv" then Some (CsvFile scenario_soil)
    else if String.eqb p "data/historique_rendements.csv" then Some (CsvFile scenario_yields)
    else None.

Definition scenario_world : world :=
  {| self := init; disk := scenario_disk; stdout := [] |}.


(** ** Vocabulary of the further properties *)

(** The rows with a value in every required column. *)
Definition complete (r : row) : bool :=
  forallb (fun c => notna (get r c)) required_columns.

(** A row the scaler accepts: numbers in the three scored columns. *)
Definition scorable (r : row) : bool :=
  andb (is_num (get r "rendement"))
       (andb (is_num (get r "ph")) (is_num (get r "matiere_organique"))).

(** The risk index a row carries, 0 when it has none. *)
Definition risk_index (r : row) : Q := key_value (get r "risk_index").

(** Two parcels with every required value and one without a pH. *)
Definition three_parcels : DataFrame :=
  {| columns := required_columns;
     rows := [[("parcelle_id", Str "P001"); ("culture", Str "Ble");
               ("rendement", Num 3); ("ph", Num 6); ("matiere_organique", Num 2)];
              [("parcelle_id", Str "P002"); ("culture", Str "Orge");
               ("rendement", Num 4); ("ph", NA); ("matiere_organique", Num 2)];
              [("parcelle_id", Str "P003"); ("culture", Str "Mais");
               ("rendement", Num 5); ("ph", Num 8); ("matiere_organique", Num 2)]] |}.

(** The line [load_data] prints for an exception. *)
Definition load_error_line (e : exn) : string :=
  if is_file_not_found e then "erreur: fichier introuvable. " ++ show_exn e
  else "error loading data " ++ show_exn e.

(** The row carries a date of year [y] in column [c]. *)
Definition dated_in (c : string) (y : Z) (r : row) : bool :=
  match get r c with
  | Date t => Z.eqb (dt_year t) y
  | _ => false
  end.

(** The readings of 2024 on calendar day [d], in the order of the table. *)
Definition readings_of_day (raw : DataFrame) (d : Z) : list row :=
  filter (fun x => andb (dated_in "date" 2024 x) (on_day d x)) (rows raw).

(** [r] is the reading [x] with the absolute value of its radiation
    ([series.abs()]) and every other cell as it was. *)
Definition sign_corrected (r x : row) : Prop :=
  (forall c, c <> "rayonnement_solaire" -> get r c = get x c) /\
  abs_cell (get x "rayonnement_solaire") = Ok (get r "rayonnement_solaire").

(** [v] is the mean of the absolute values of the radiation readings of
    2024 on day [d]: missing when the day has no value. *)
Definition daily_radiation (raw : DataFrame) (d : Z) (v : cell) : Prop :=
  exists fixed,
    Forall2 (fun x a => abs_cell (get x "rayonnement_solaire") = Ok a)
            (readings_of_day raw d) fixed /\
    v = mean_cells fixed.

(** Outside the date, the readings of 2024 hold numbers or nothing: what
    the mean of [resample] needs. *)
Definition numeric_readings (raw : DataFrame) : bool :=
  forallb (fun c => forallb (fun r => is_numeric (get r c))
                            (filter (dated_in "date" 2024) (rows raw)))
          (without "date" (columns raw)).

(** The scenario of the specification: one monitoring row of parcel P001 on
    day [d0] with vegetation index 0.6; weather readings of -3.0 on the eve
    and of 5.0 two days later. *)
Definition spec_monitoring : DataFrame :=
  {| columns := ["parcelle_id"; "date"; "ndvi"; "culture"; "latitude"; "longitude"];
     rows := [[("parcelle_id", Str "P001"); ("date", Date (midnight d0));
               ("ndvi", Num (6 # 10)); ("culture", Str "Ble");
               ("latitude", Num 34); ("longitude", Num (-6))]] |}.

Definition spec_weather : DataFrame :=
  {| columns := ["date"; "rayonnement_solaire"; "temperature"];
     rows := [[("date", Date (midnight (d0 - 1))); ("rayonnement_solaire", Num (-3));
               ("temperature", Num 10)];
              [("date", Date (midnight (d0 + 2))); ("rayonnement_solaire", Num 5);
               ("temperature", Num 12)]] |}.

Definition spec_disk : filesystem :=
  fun p =>
    if String.eqb p "data/monitoring_cultures.csv" then Some (CsvFile spec_monitoring)
    else if String.eqb p "data/meteo_detaillee.csv" then Some (CsvFile spec_weather)
    else if String.eqb p "data/sols.csv" then Some (CsvFile scenario_soil)
    else if String.eqb p "data/historique_rendements.csv" then Some (CsvFile scenario_yields)
    else None.

Definition spec_world : world :=
  {| self := init; disk := spec_disk; stdout := [] |}.

(** The manager with another weather table. *)
Definition with_weather (m : manager) (v : option DataFrame) : manager :=
  {| monitoring_data := monitoring_data m; weather_data := v;
     soil_data := soil_data m; yield_history := yield_history m |}.

(** Readings without a radiation column, one of them of 2023. *)
Definition weather_without_radiation : DataFrame :=
  {| columns := ["date"; "temperature"];
     rows := [[("date", Date (midnight 19700)); ("temperature", Num 3)];
              [("date", Date (midnight 19800)); ("temperature", Num 12)]] |}.


(** A computation that only prints: it leaves the manager and the disk as
    they were and adds lines to the output. *)
Definition read_only {A} (m : M A) : Prop :=
  forall w, self (snd (m w)) = self w /\ disk (snd (m w)) = disk w /\
            exists lines, stdout (snd (m w)) = stdout w ++ lines.

(** A computation that never raises. *)
Definition returns {A} (m : M A) : Prop := forall w, exists a, fst (m w) = Ok a.

(** The rows of a parcel in the feature table. *)
Definition parcel_features (features : DataFrame) (pid : cell) : list row :=
  filter (fun r => cell_eqb (get r "parcelle_id") pid) (rows features).

(** Twelve daily observations of parcel P001 after a day without a
    vegetation index. *)
Definition gapped_features : DataFrame :=
  {| columns := ["parcelle_id"; "date"; "ndvi"];
     rows := feature_row "P001" 19722 NA
             :: map (fun i => feature_row "P001" (19723 + Z.of_nat i) (Num (5 # 10)))
                    (seq 0 12) |}.

(** Thirty daily observations of parcel P001, every one with a vegetation
    index. *)
Definition full_features : DataFrame :=
  {| columns := ["parcelle_id"; "date"; "ndvi"];
     rows := map (fun i => feature_row "P001" (19723 + Z.of_nat i)
                                       (Num (Z.of_nat (40 + i) # 100)))
                 (seq 0 30) |}.

(** The year of a row of the yield history, once [pd.to_datetime] read its
    [annee]; none when the year is missing or unreadable. *)
Definition yield_year (y : row) : option Z :=
  match to_datetime_year (get y "annee") with
  | Ok (Date t) => Some (dt_year t)
  | _ => None
  end.

(** The rows of 2024 of the yield history for the parcel of [l], in the
    order of the history. *)
Definition yields_of_2024 (yields : DataFrame) (l : row) : list row :=
  filter (fun y => andb (key_eqb (get y "parcelle_id") (get l "parcelle_id"))
                        (match yield_year y with
                         | Some year => Z.eqb year 2024
                         | None => false
                         end))
         (rows yields).

(** The parcel of every row is a text. *)
Definition text_parcels (df : DataFrame) : Prop :=
  Forall (fun r => is_text (get r "parcelle_id") = true) (rows df).

(** A manager with the monitoring, weather and soil tables of the scenario
    and no yield history. *)
Definition world_without_yields : world :=
  {| self := {| monitoring_data := Some scenario_monitoring;
                weather_data := Some scenario_weather;
                soil_data := Some scenario_soil; yield_history := None |};
     disk := fun _ => None;
     stdout := [] |}.


(** ** The script of [data_manager.py] *)

Section Script.

Variable S : Sorter.
Variable fsqrt : Q -> Q.
Variable seasonal_decompose : list (cell * Q) -> nat -> result Decomposition.
Variable noise : nat -> Q.

(** The texts of [risk_metric.head()], of a number with four and with two
    decimals, and of [residus.head()]. *)
Variable show_head : DataFrame -> string.
Variable format4 : Q -> string.
Variable format2 : Q -> string.
Variable show_residuals : list (cell * Q) -> string.

(** [calculate_risk_metrics] as the script calls it, on what
    [prepare_features] returned: on None the first use of [data.columns]
    fails inside the [try], and the handler returns the argument. *)
Definition calculate_risk_metrics_of (features : option DataFrame)
  : M (option DataFrame) :=
  match features with
  | Some data => let* scored := risk_metrics fsqrt data in ret (Some scored)
  | None =>
      print "Error calculating risk metrics: 'NoneType' object has no attribute 'columns'" ;;;
      ret None
  end.

(** The block under [if __name__ == "__main__"]. *)
Definition main : M unit :=
  put_self init ;;;
  load_data ;;;
  let* features := prepare_features S fsqrt in
  let* history_trend := get_temporal_patterns S fsqrt seasonal_decompose (Str "P001") in
  let* risk_metric := calculate_risk_metrics_of features in
  let* yield_analysis := analyze_yield_patterns S fsqrt noise (Str "P001") in
  print "========= risk metrics =========" ;;;
  let* head :=
    match risk_metric with
    | Some data => ret (show_head data)
    | None => raise (AttributeError "'NoneType' object has no attribute 'head'")
    end in
  print head ;;;
  print "" ;;;
  print "========= Ndvi =========" ;;;
  let* trend_ :=
    match snd history_trend with
    | Some t => ret t
    | None => raise (TypeError "'NoneType' object is not subscriptable")
    end in
  print ("Tendance de rendement : " ++ format4 (pente trend_) ++ " tonnes/ha/an") ;;;
  print ("Variation moyenne : " ++ format4 (variation_moyenne trend_ * 100) ++ "%") ;;;
  print "" ;;;
  print "========= rendement historique =========" ;;;
  match yield_analysis with
  | Some r =>
      print ("Tendance de rendement : " ++ format4 (pente (tendance r))
             ++ " tonnes/ha/an") ;;;
      print ("Variation moyenne : " ++ format2 (variation_moyenne (tendance r) * 100)
             ++ "%") ;;;
      print "" ;;;
      print ("Résidus : " ++ show_residuals (firstn 5 (residus r)))
  | None => ret tt
  end.

End Script.

(** ** The dashboard's data sources ([dashboard.py]) *)

(** [ColumnDataSource.data]: a dict from column names to lists of values,
    in insertion order. *)
Definition column_data : Type := list (string * list cell).

Fixpoint lookup (d : column_data) (k : string) : option (list cell) :=
  match d with
  | [] => None
  | (k', v) :: d' => if String.eqb k' k then Some v else lookup d' k
  end.

(** [value == selected] for the text [selected] of the select widget. *)
Definition is_selected (selected : string) (c : cell) : bool :=
  match c with
  | Str s => String.eqb s selected
  | _ => false
  end.

(** The positions [i] of [range(len(ids))] with [ids[i] == selected]. *)
Definition selected_positions (selected : string) (ids : list cell) : list nat :=
  filter (fun i => is_selected selected (nth i ids NA)) (seq 0 (List.length ids)).

(** [column[i]], an [IndexError] past the end. *)
Definition item (column : list cell) (i : nat) : result cell :=
  match nth_error column i with
  | Some c => Ok c
  | None => Raise (OtherError "list index out of range")
  end.

(** The filtering loop of [update_plots] over one source: a dict with the
    same keys, each list holding the values at the positions of the
    selected parcel. *)
Definition filter_parcelle (full : column_data) (selected : string) : result column_data :=
  match lookup full "parcelle_id" with
  | None => Raise (KeyError "parcelle_id")
  | Some ids =>
      mapM (fun kv : string * list cell =>
              vals <- mapM (item (snd kv)) (selected_positions selected ids) ;;
              Ok (fst kv, vals))
           full
  end.

(** The two sources of [AgriculturalDashboard]: [self.hist_source.data] and
    [self.source.data] (here [feature_source], the name [source] being
    taken). *)
Record dashboard : Type := mkDashboard {
  hist_source : column_data;
  feature_source : column_data
}.

Section Dashboard.

(** [prepare_stress_data], taken by its result: the stress matrix as a
    dict, or None.  It runs in the manager's world and reads neither
    source. *)
Variable prepare_stress_data : M (option column_data).

(** [update_plots(attr, old, new)]: each assignment to a source stays when
    a later step fails. *)
Definition update_plots (new : string) (d : dashboard) : M dashboard :=
  let failed (d' : dashboard) (e : exn) : M dashboard :=
    print ("Error updating plots: " ++ show_exn e) ;;; ret d' in
  match filter_parcelle (hist_source d) new with
  | Raise e => failed d e
  | Ok yield_filtered_data =>
      let d := {| hist_source := yield_filtered_data; feature_source := feature_source d |} in
      match filter_parcelle (feature_source d) new with
      | Raise e => failed d e
      | Ok ndvi_filtered_data =>
          let d := {| hist_source := hist_source d; feature_source := ndvi_filtered_data |} in
          try_except
            (let* stress_filtered_data := prepare_stress_data in
             let d := {| hist_source := hist_source d;
                         feature_source := match stress_filtered_data with
                                   | Some m => m
                                   | None => []
                                   end |} in
             print ("Updated plots for parcel: " ++ new) ;;; ret d)
            (failed d)
      end
  end.

End Dashboard.

(** The values of a column at the positions where [ids] holds the selected
    parcel. *)
Definition restrict (selected : string) (ids column : list cell) : list cell :=
  map snd (filter (fun p : cell * cell => is_selected selected (fst p))
                  (combine ids column)).

(** Every column is as long as the parcel column [ids]. *)
Definition aligned (d : column_data) (ids : list cell) : Prop :=
  lookup d "parcelle_id" = Some ids /\
  forall kv, In kv d -> List.length (snd kv) = List.length ids.

(** The yield history of two parcels as a source. *)
Definition two_parcel_source : column_data :=
  [("parcelle_id", [Str "P001"; Str "P002"; Str "P001"]);
   ("annee", [Num 2022; Num 2022; Num 2023]);
   ("rendement", [Num 3; Num 4; Num 5])].

(** The time of the [annee] of a yield row. *)
Definition year_key (r : row) : Z :=
  match get r "annee" with
  | Date t => t
  | _ => 0%Z
  end.

(** A parcel whose first year has no yield. *)
Definition late_start_yields : DataFrame :=
  {| columns := ["parcelle_id"; "annee"; "rendement"];
     rows := [yield_row "P004" 2021 (Num 3); yield_row "P004" 2020 NA;
              yield_row "P004" 2022 (Num 5)] |}.

(** * Properties *)

(** ** Rows and frames *)

Lemma get_set_same (r : row) (c : string) (v : cell) : get (set r c v) c = v.
Proof.
  induction r as [|[k w] r IH]; simpl.
  - now rewrite String.eqb_refl.
  - destruct (String.eqb k c) eqn:E; simpl; rewrite E; auto.
Qed.

Lemma get_set_other (r : row) (c c' : string) (v : cell) :
  c <> c' -> get (set r c v) c' = get r c'.
Proof.
  intros Hne. induction r as [|[k w] r IH]; simpl.
  - destruct (String.eqb c c') eqn:E; auto.
    apply String.eqb_eq in E. contradiction.
  - destruct (String.eqb k c) eqn:E; simpl.
    + apply String.eqb_eq in E. subst k.
      destruct (String.eqb c c') eqn:E'; auto.
      apply String.eqb_eq in E'. contradiction.
    + destruct (String.eqb k c'); auto.
Qed.

Lemma combine_map_combine {A B C D} (f : A * B -> C) (g : B -> D)
      (l1 : list A) (l2 : list B) :
  combine (map f (combine l1 l2)) (map g l2)
  = map (fun p => (f p, g (snd p))) (combine l1 l2).
Proof.
  revert l2. induction l1 as [|a l1 IH]; intros [|b l2]; simpl; auto.
  now rewrite IH.
Qed.

(** ** The risk categories *)

Lemma Qle_bool_false (x y : Q) : Qle_bool x y = false <-> (y < x)%Q.
Proof.
  split; intros H.
  - apply Qnot_le_lt. intros Hle. apply Qle_bool_iff in Hle. congruence.
  - destruct (Qle_bool x y) eqn:E; auto.
    apply Qle_bool_iff in E. exfalso. apply (Qlt_not_le _ _ H E).
Qed.

Ltac qbool :=
  repeat match goal with
         | H : Qle_bool _ _ = true |- _ => apply Qle_bool_iff in H
         | H : Qle_bool _ _ = false |- _ => apply Qle_bool_false in H
         end.

Lemma risk_category_cases (x : Q) :
  risk_category_of (Num x)
  = Str (if Qle_bool x (-1) then "Très Bas"
         else if Qle_bool x 0 then "Bas"
         else if Qle_bool x 1 then "Modéré" else "Élevé").
Proof.
  unfold risk_category_of, cut, cut_value, risk_bins, risk_labels. simpl.
  destruct (Qle_bool x (-1)) eqn:E1; simpl; auto.
  destruct (Qle_bool x 0) eqn:E2; simpl; auto.
  destruct (Qle_bool x 1) eqn:E3; simpl; auto.
Qed.

Lemma scored_rows_categories (fsqrt : Q -> Q) (data scored : DataFrame) :
  snd (risk_metrics_body fsqrt data) = Ok scored ->
  Forall (fun r => get r "risk_category" = risk_category_of (get r "risk_index"))
         (rows scored).
Proof.
  unfold risk_metrics_body.
  destruct (find _ required_columns); simpl; [discriminate|].
  destruct (fit_transform _ _) as [normalized|e]; simpl; [|discriminate].
  intros H. injection H as <-. simpl.
  rewrite (combine_map_combine
             (fun rv : row * cell => set (fst rv) "risk_index" (snd rv))
             risk_category_of).
  rewrite map_map. apply Forall_forall. intros r Hin.
  apply in_map_iff in Hin. destruct Hin as [[r0 v] [<- _]]. simpl.
  rewrite get_set_same, get_set_other by discriminate.
  now rewrite get_set_same.
Qed.

Lemma category_rank_cases (x : Q) :
  category_rank (risk_category_of (Num x))
  = if Qle_bool x (-1) then 0%nat
    else if Qle_bool x 0 then 1%nat
    else if Qle_bool x 1 then 2%nat else 3%nat.
Proof.
  rewrite risk_category_cases.
  destruct (Qle_bool x (-1)); [reflexivity|].
  destruct (Qle_bool x 0); [reflexivity|].
  destruct (Qle_bool x 1); reflexivity.
Qed.

(** C1 (as amended): the bins of the risk categories are closed on the
    right.  An index of at most -1 is "Très Bas", one in (-1, 0] is "Bas",
    one in (0, 1] is "Modéré", one above 1 is "Élevé"; so exactly -1, 0 and 1
    fall in the lower bin.  The category never decreases when the index
    grows, and every row of a scored table carries the category of its
    index. *)
Theorem risk_category_bins_right_closed (x y : Q) (fsqrt : Q -> Q) (data scored : DataFrame) :
  ((x <= -1)%Q -> risk_category_of (Num x) = Str "Très Bas") /\
  ((-1 < x)%Q /\ (x <= 0)%Q -> risk_category_of (Num x) = Str "Bas") /\
  ((0 < x)%Q /\ (x <= 1)%Q -> risk_category_of (Num x) = Str "Modéré") /\
  ((1 < x)%Q -> risk_category_of (Num x) = Str "Élevé") /\
  ((x <= y)%Q ->
   (category_rank (risk_category_of (Num x))
    <= category_rank (risk_category_of (Num y)))%nat) /\
  (snd (risk_metrics_body fsqrt data) = Ok scored ->
   Forall (fun r => get r "risk_category" = risk_category_of (get r "risk_index"))
          (rows scored)).
Proof.
  repeat split.
  - intros H. rewrite risk_category_cases.
    apply Qle_bool_iff in H. now rewrite H.
  - intros [H1 H2]. rewrite risk_category_cases.
    apply Qle_bool_false in H1. apply Qle_bool_iff in H2. now rewrite H1, H2.
  - intros [H1 H2]. rewrite risk_category_cases.
    assert (H0 : (-1 < x)%Q) by lra.
    apply Qle_bool_false in H0, H1. apply Qle_bool_iff in H2.
    now rewrite H0, H1, H2.
  - intros H. rewrite risk_category_cases.
    assert (H0 : (-1 < x)%Q) by lra. assert (H1 : (0 < x)%Q) by lra.
    apply Qle_bool_false in H0, H1, H. now rewrite H0, H1, H.
  - intros H. rewrite !category_rank_cases.
    destruct (Qle_bool x (-1)) eqn:X1; [lia|].
    destruct (Qle_bool y (-1)) eqn:Y1; [qbool; lra|].
    destruct (Qle_bool x 0) eqn:X2; [destruct (Qle_bool y 0), (Qle_bool y 1); lia|].
    destruct (Qle_bool y 0) eqn:Y2; [qbool; lra|].
    destruct (Qle_bool x 1) eqn:X3; [destruct (Qle_bool y 1); lia|].
    destruct (Qle_bool y 1) eqn:Y3; [qbool; lra|lia].
  - apply scored_rows_categories.
Qed.

(** C1, as stated, fails where the index is exactly -1: the row is labeled
    "Très Bas", not "Bas" (and 0 gives "Bas", 1 gives "Modéré"). *)
Lemma risk_category_at_minus_one_not_Bas :
  risk_category_of (Num (-1)) = Str "Très Bas" /\
  risk_category_of (Num (-1)) <> Str "Bas" /\
  risk_category_of (Num 0) = Str "Bas" /\
  risk_category_of (Num 1) = Str "Modéré".
Proof.
  repeat split; try reflexivity. vm_compute. discriminate.
Qed.

(** ** Failures of the risk scorer *)

Lemma calculate_risk_metrics_total (fsqrt : Q -> Q) (data : DataFrame) :
  exists out line, calculate_risk_metrics fsqrt data = (out, [line]).
Proof.
  unfold calculate_risk_metrics.
  destruct (risk_metrics_body fsqrt data) as [cur [scored|e]]; eauto.
Qed.

(** What a failure of [calculate_risk_metrics] returns: the method prints
    one line and returns the table as it stands when the failure occurs,
    with the columns of the input.  When a required column is missing this
    is the input itself; when the standardization fails it is the input
    without the rows that lack a required value. *)
Theorem risk_metrics_failure_result (fsqrt : Q -> Q) (data cur : DataFrame) (e : exn) :
  risk_metrics_body fsqrt data = (cur, Raise e) ->
  calculate_risk_metrics fsqrt data
  = (cur, [("Error calculating risk metrics: " ++ show_exn e)%string]) /\
  columns cur = columns data /\
  ((exists col, In col required_columns /\ has_column data col = false) -> cur = data) /\
  ((forall col, In col required_columns -> has_column data col = true) ->
   cur = dropna required_columns data).
Proof.
  intros Hbody. split.
  { unfold calculate_risk_metrics. now rewrite Hbody. }
  unfold risk_metrics_body in Hbody.
  destruct (find (fun col => negb (has_column data col)) required_columns)
    as [col|] eqn:Hfind.
  - injection Hbody as <- _. repeat split; auto.
    intros Hall. apply find_some in Hfind. destruct Hfind as [Hin Hneg].
    rewrite (Hall col Hin) in Hneg. discriminate.
  - destruct (fit_transform _ _) as [normalized|e'] eqn:Hfit; [discriminate|].
    injection Hbody as <- _. repeat split; auto.
    intros [col [Hin Hmiss]].
    apply (find_none _ _ Hfind) in Hin. rewrite Hmiss in Hin. discriminate.
Qed.

Lemma risk_metrics_failure_result_witness :
  calculate_risk_metrics Qsqrt table_without_yield
  = (dropna required_columns table_without_yield,
     ["Error calculating risk metrics: Found array with 0 sample(s) while a minimum of 1 is required by StandardScaler."]).
Proof.
  destruct (risk_metrics_failure_result Qsqrt table_without_yield
              (dropna required_columns table_without_yield)
              (ValueError "Found array with 0 sample(s) while a minimum of 1 is required by StandardScaler."))
    as [H _].
  - reflexivity.
  - exact H.
Defined.

(** C5: on a failure the scorer should return its input unmodified.  It
    does so when a required column is missing, but not when the
    standardization raises: [data] was rebound by [dropna] before, and the
    handler returns that.  Here every required column is present, the only
    row has no yield, the scaler refuses the empty table, and the table
    returned has lost the row. *)
Lemma risk_metrics_failure_drops_rows :
  (exists e, snd (risk_metrics_body Qsqrt table_without_yield) = Raise e) /\
  rows (fst (calculate_risk_metrics Qsqrt table_without_yield)) = [] /\
  fst (calculate_risk_metrics Qsqrt table_without_yield) <> table_without_yield.
Proof.
  split; [eexists; reflexivity|]. split; [reflexivity|].
  intros H. apply (f_equal rows) in H. discriminate H.
Qed.

(** ** Loading *)

Lemma load_data_returns (w : world) : fst (load_data w) = Ok tt.
Proof.
  unfold load_data, try_except, bindM, pd_read_csv, lift, get_disk,
    set_monitoring_data, set_weather_data, set_soil_data, set_yield_history,
    get_self, put_self, print; simpl.
  repeat match goal with
         | |- context [read_csv ?d ?p ?l] => destruct (read_csv d p l); simpl
         | |- context [is_file_not_found ?e] => destruct (is_file_not_found e); simpl
         end; reflexivity.
Qed.

Lemma read_csv_missing (d : filesystem) (p : string) (l : list string) :
  d p = None -> read_csv d p l = Raise (FileNotFoundError p).
Proof. unfold read_csv. now intros ->. Qed.

(** C6 (as amended): when exactly one of the four files is missing,
    [load_data] returns normally and prints the file-not-found line; the
    sources read before the missing one are loaded, and the missing one and
    every source after it keep the value they had before the call (unset on
    a new manager), their files being present or not. *)
Theorem load_data_one_missing (w : world) (missing : source) :
  disk w (source_path missing) = None ->
  (forall s, s <> missing ->
             exists df, read_csv (disk w) (source_path s) (source_dates s) = Ok df) ->
  fst (load_data w) = Ok tt /\
  stdout (snd (load_data w))
  = stdout w ++ [("erreur: fichier introuvable. "
                  ++ show_exn (FileNotFoundError (source_path missing)))%string] /\
  disk (snd (load_data w)) = disk w /\
  (forall s df,
      (source_rank s < source_rank missing)%nat ->
      read_csv (disk w) (source_path s) (source_dates s) = Ok df ->
      table_of (self (snd (load_data w))) s = Some df) /\
  (forall s,
      (source_rank missing <= source_rank s)%nat ->
      table_of (self (snd (load_data w))) s = table_of (self w) s).
Proof.
  intros Hmiss Hothers. split; [apply load_data_returns|].
  apply (read_csv_missing _ _ (source_dates missing)) in Hmiss.
  destruct missing;
    try (destruct (Hothers Monitoring) as [m Hmon]; [discriminate|]);
    try (destruct (Hothers Weather) as [x Hwea]; [discriminate|]);
    try (destruct (Hothers Soil) as [so Hsoil]; [discriminate|]);
    try (destruct (Hothers Yields) as [y Hy]; [discriminate|]);
    simpl in *;
    unfold load_data, try_except, bindM, pd_read_csv, lift, get_disk,
      set_monitoring_data, set_weather_data, set_soil_data, set_yield_history,
      get_self, put_self, print; simpl;
    repeat match goal with
           | H : read_csv _ _ _ = _ |- _ => rewrite H; simpl
           end;
    (split; [reflexivity|]); (split; [reflexivity|]); split.
  all: try (intros [] df Hlt Hread; simpl in *; try lia; congruence).
  all: intros [] Hle; simpl in *; try lia; reflexivity.
Qed.

Lemma load_data_one_missing_witness :
  fst (load_data world_without_monitoring) = Ok tt /\
  stdout (snd (load_data world_without_monitoring))
  = ["erreur: fichier introuvable. No such file or directory: data/monitoring_cultures.csv"] /\
  forall s, table_of (self (snd (load_data world_without_monitoring))) s = None.
Proof.
  destruct (load_data_one_missing world_without_monitoring Monitoring)
    as [Hret [Hout [_ [_ Hkeep]]]].
  - reflexivity.
  - intros [] Hne; try contradiction; eexists; reflexivity.
  - split; [exact Hret|]. split; [exact Hout|].
    intros s. rewrite Hkeep; [now destruct s|simpl; lia].
Defined.

(** C6, as stated, fails for every source read after the missing one: here
    the weather, soil and yield files are present and none is loaded. *)
Lemma load_data_skips_present_sources :
  disk world_without_monitoring (source_path Monitoring) = None /\
  (exists df, read_csv (disk world_without_monitoring)
                       (source_path Weather) (source_dates Weather) = Ok df) /\
  weather_data (self (snd (load_data world_without_monitoring))) = None /\
  soil_data (self (snd (load_data world_without_monitoring))) = None /\
  yield_history (self (snd (load_data world_without_monitoring))) = None.
Proof.
  split; [reflexivity|]. split; [eexists; reflexivity|].
  repeat split; reflexivity.
Qed.

(** ** The analyses *)

Lemma variation_guarded (slope mean : Q) :
  exists v, variation slope mean = Ok v /\
            (mean == 0 -> v = 0%Q) /\
            (~ mean == 0 -> v = (slope / mean)%Q).
Proof.
  unfold variation, divide.
  destruct (Qeq_bool mean 0) eqn:E; simpl.
  - apply Qeq_bool_iff in E. exists 0%Q. repeat split; auto.
    intros H. contradiction.
  - exists (slope / mean)%Q. repeat split; auto.
    intros H. apply Qeq_bool_iff in H. congruence.
Qed.

Lemma filter_length_perm {A} (p : A -> bool) (l l' : list A) :
  Permutation l l' -> List.length (filter p l) = List.length (filter p l').
Proof.
  induction 1; simpl; auto.
  - destruct (p x); simpl; auto.
  - destruct (p x), (p y); simpl; auto.
  - congruence.
Qed.

Lemma filter_all {A} (p : A -> bool) (l : list A) :
  Forall (fun a => p a = true) l -> filter p l = l.
Proof.
  induction 1 as [|a l Ha _ IH]; simpl; [reflexivity|]. now rewrite Ha, IH.
Qed.

Lemma filter_combine_map {A B} (f : A -> B) (p : B -> bool) (l : list A) :
  map fst (filter (fun rv => p (snd rv)) (combine l (map f l)))
  = filter (fun r => p (f r)) l.
Proof.
  induction l as [|a l IH]; simpl; auto.
  destruct (p (f a)); simpl; now rewrite IH.
Qed.

Lemma filter_andb {A} (p q : A -> bool) (l : list A) :
  filter q (filter p l) = filter (fun a => andb (p a) (q a)) l.
Proof.
  induction l as [|a l IH]; simpl; auto.
  destruct (p a); simpl; [destruct (q a)|]; now rewrite IH.
Qed.

Lemma filter_map_length {A B} (f : A -> B) (p : B -> bool) (l : list A) :
  List.length (filter p (map f l)) = List.length (filter (fun a => p (f a)) l).
Proof.
  induction l as [|a l IH]; simpl; auto.
  destruct (p (f a)); simpl; now rewrite IH.
Qed.

Ltac fails := let H := fresh in intros H; discriminate H.

Ltac split_on t := destruct t eqn:?; simpl; try fails.

(** A handler that returns makes the whole [try] statement return. *)
Lemma try_except_no_raise {A} (m : M A) (h : exn -> M A) (w w' : world) (e : exn) :
  (forall e0 w0 e1 w1, h e0 w0 <> (Raise e1, w1)) ->
  try_except m h w <> (Raise e, w').
Proof.
  intros Hh. unfold try_except.
  destruct (m w) as [[a|e0] w0]; [discriminate|apply Hh].
Qed.

Lemma mapM_ok {A B} (f : A -> result B) (g : A -> B) (l : list A) :
  Forall (fun a => f a = Ok (g a)) l -> mapM f l = Ok (map g l).
Proof.
  induction 1 as [|a l Ha _ IH]; simpl; auto.
  now rewrite Ha, IH.
Qed.

Lemma has_column_columns (df : DataFrame) (c : string) :
  has_column df c = true -> columns df <> [].
Proof.
  unfold has_column. destruct (columns df); [discriminate|discriminate].
Qed.

Lemma comparable_dates (cs : list cell) :
  Forall (fun c => exists t, c = Date t) cs -> comparable cs = true.
Proof.
  unfold comparable. intros H.
  assert (Hf : Forall (fun c => exists t, c = Date t) (filter notna cs)).
  { apply Forall_forall. intros c Hc. apply filter_In in Hc.
    rewrite Forall_forall in H. now apply H. }
  destruct (filter notna cs) as [|c cs']; auto.
  inversion Hf as [|? ? [t ->] Hrest]; subst.
  apply forallb_forall. intros c' Hc'.
  rewrite Forall_forall in Hrest. destruct (Hrest c' Hc') as [t' ->]. reflexivity.
Qed.

(** A series of equal values has one distinct value. *)
Lemma nunique_constant (v : Q) (cs : list cell) :
  cs <> [] ->
  Forall (fun c => exists q, c = Num q /\ q == v) cs ->
  nunique cs = 1%nat.
Proof.
  unfold nunique. intros Hne H.
  assert (Hu : exists q, unique cs = [Num q] /\ q == v).
  { induction H as [|c cs [q [-> Hq]] Hrest IH]; [contradiction|].
    simpl. destruct cs as [|c' cs'].
    - simpl. eauto.
    - destruct IH as [q' [Hu Hq']]; [discriminate|].
      rewrite Hu. simpl.
      assert (E : Qeq_bool q q' = true) by (apply Qeq_bool_iff; now rewrite Hq, Hq').
      rewrite E. simpl. eauto. }
  destruct Hu as [q [-> _]]. reflexivity.
Qed.

Section Analyses.

Variable S : Sorter.
Variable fsqrt : Q -> Q.
Variable seasonal_decompose : list (cell * Q) -> nat -> result Decomposition.
Variable noise : nat -> Q.

Lemma get_temporal_patterns_success (pid : cell) (w w' : world)
      (h : option History) (t : option Trend) :
  get_temporal_patterns S fsqrt seasonal_decompose pid w = (Ok (h, t), w') ->
  (h = None /\ t = None /\ exists line,
      w' = {| self := self w; disk := disk w; stdout := stdout w ++ [line] |}) \/
  (exists features h' t',
      h = Some h' /\ t = Some t' /\ w' = w /\
      read_csv (disk w) "data/features_daily.csv" ["date"] = Ok features /\
      (12 <= ndvi_observations features pid)%nat /\
      variation (pente t') (mean_ndvi (summary_stats h')) = Ok (variation_moyenne t')).
Proof.
  unfold get_temporal_patterns, try_except, bindM, pd_read_csv, lift, get_disk,
    raise, ret, print. simpl.
  destruct (read_csv (disk w) _ _) as [features|e] eqn:Hread; simpl.
  2:{ intros H; injection H as <- <- <-. left. eauto. }
  destruct (filter_eq features "parcelle_id" pid) as [pdata|e] eqn:Hfilter; simpl.
  2:{ intros H; injection H as <- <- <-. left. eauto. }
  destruct (has_column pdata "ndvi"); simpl.
  2:{ intros H; injection H as <- <- <-. left. eauto. }
  destruct (empty pdata); simpl.
  { intros H; injection H as <- <- <-. left. eauto. }
  destruct (sort_values S pdata "date") as [sorted|e] eqn:Hsort; simpl.
  2:{ intros H; injection H as <- <- <-. left. eauto. }
  destruct (Nat.ltb _ 12) eqn:Hlen; simpl.
  { intros H; injection H as <- <- <-. left. eauto. }
  destruct (mapM as_float _) as [vals|e]; simpl.
  2:{ intros H; injection H as <- <- <-. left. eauto. }
  destruct (seasonal_decompose _ _) as [dec|e]; simpl.
  2:{ intros H; injection H as <- <- <-. left. eauto. }
  destruct (mapM ordinal_of _) as [ords|e]; simpl.
  2:{ intros H; injection H as <- <- <-. left. eauto. }
  destruct (linear_regression ords vals) as [[slope icpt]|e]; simpl.
  2:{ intros H; injection H as <- <- <-. left. eauto. }
  destruct (variation slope (Qmean vals)) as [v|e] eqn:Hv; simpl.
  2:{ intros H; injection H as <- <- <-. left. eauto. }
  intros H; injection H as <- <- <-. right.
  do 3 eexists. repeat split; try reflexivity; simpl; auto.
  apply Nat.ltb_ge in Hlen.
  unfold filter_eq in Hfilter. unfold getitem in Hfilter.
  destruct (has_column features "parcelle_id"); simpl in Hfilter; [|discriminate].
  injection Hfilter as <-.
  unfold sort_values, getitem in Hsort. simpl in Hsort.
  destruct (has_column _ "date"); simpl in Hsort; [|discriminate].
  destruct (comparable _); [|discriminate].
  injection Hsort as <-. simpl in Hlen.
  rewrite filter_map_length in Hlen. simpl in Hlen.
  rewrite <- (filter_length_perm _ _ _ (sort_rows_perm S _ _)) in Hlen.
  rewrite (filter_combine_map (fun r => get r "parcelle_id")
                               (fun c => cell_eqb c pid)) in Hlen.
  unfold ndvi_observations.
  now rewrite filter_andb in Hlen.
Qed.

(** C7: with fewer than 12 non-null vegetation-index observations for the
    parcel in the feature table, [get_temporal_patterns] returns normally:
    it prints one line and returns the pair (None, None), leaving the
    manager and the disk as they were. *)
Theorem get_temporal_patterns_insufficient_data (pid : cell) (w : world) :
  (forall features,
      read_csv (disk w) "data/features_daily.csv" ["date"] = Ok features ->
      (ndvi_observations features pid < 12)%nat) ->
  exists line,
    get_temporal_patterns S fsqrt seasonal_decompose pid w
    = (Ok (None, None),
       {| self := self w; disk := disk w; stdout := stdout w ++ [line] |}).
Proof.
  intros Hfew.
  destruct (get_temporal_patterns S fsqrt seasonal_decompose pid w)
    as [[[h t]|e] w'] eqn:Hrun.
  - apply get_temporal_patterns_success in Hrun.
    destruct Hrun as [[-> [-> [line ->]]]|[features [h' [t' H]]]].
    + now exists line.
    + destruct H as [_ [_ [_ [Hread [Hlen _]]]]].
      apply Hfew in Hread. lia.
  - exfalso. revert Hrun. unfold get_temporal_patterns.
    apply try_except_no_raise. intros e0 w0 e1 w1. discriminate.
Qed.


Lemma linear_regression_total (xs ys : list Q) :
  List.length xs = List.length ys -> xs <> [] ->
  exists slope icpt, linear_regression xs ys = Ok (slope, icpt).
Proof.
  intros Hlen Hne. unfold linear_regression.
  rewrite Hlen, Nat.eqb_refl. simpl.
  destruct xs; [contradiction|]. eauto.
Qed.

Lemma combine_map_l {A B C} (f : A -> B) (l : list A) (l' : list C) :
  combine (map f l) l' = map (fun p => (f (fst p), snd p)) (combine l l').
Proof.
  revert l'. induction l as [|a l IH]; intros [|c l']; simpl; auto.
  now rewrite IH.
Qed.

Lemma combine_map_r {A B C} (f : B -> C) (l : list A) (l' : list B) :
  combine l (map f l') = map (fun p => (fst p, f (snd p))) (combine l l').
Proof.
  revert l'. induction l as [|a l IH]; intros [|c l']; simpl; auto.
  now rewrite IH.
Qed.

Lemma map_snd_combine_eq {A B} (l : list A) (l' : list B) :
  List.length l = List.length l' -> map snd (combine l l') = l'.
Proof.
  revert l'. induction l as [|a l IH]; intros [|c l']; simpl; try discriminate; auto.
  intros H. injection H as H. now rewrite IH.
Qed.

(** C8: for a parcel whose yield series is constant, [analyze_yield_patterns]
    returns normally with a result: it announces the noise, adds one draw
    to each value, and the trend, the residuals and the summary statistics
    it returns are those of the regression of the noisy series on the
    ordinal dates. *)
Theorem analyze_yield_patterns_constant_series
        (pid : cell) (w : world) (yields : DataFrame) (v : Q) :
  yield_history (self w) = Some yields ->
  has_column yields "parcelle_id" = true ->
  has_column yields "annee" = true ->
  has_column yields "rendement" = true ->
  parcel_yields yields pid <> [] ->
  Forall (constant_yield v) (parcel_yields yields pid) ->
  let sorted := sort_rows S (fun r => get r "annee") (parcel_yields yields pid) in
  let cells := map (fun r => get r "rendement") sorted in
  let noisy := map (fun ci => (key_value (fst ci) + noise (snd ci))%Q)
                   (combine cells (seq 0 (List.length cells))) in
  let ordinals := map (fun r => ordinal_value (get r "annee")) sorted in
  exists r,
    analyze_yield_patterns S fsqrt noise pid w
    = (Ok (Some r),
       {| self := self w; disk := disk w;
          stdout := stdout w ++ ["Adding noise to constant yield series."] |}) /\
    linear_regression ordinals noisy = Ok (pente (tendance r), intercept (tendance r)) /\
    variation (pente (tendance r)) (Qmean noisy) = Ok (variation_moyenne (tendance r)) /\
    map snd (residus r)
    = map (fun yx => (fst yx - (pente (tendance r) * snd yx + intercept (tendance r)))%Q)
          (combine noisy ordinals) /\
    List.length (residus r) = List.length (parcel_yields yields pid) /\
    moyenne (statistiques_resume r) = Qmean noisy /\
    ecart_type (statistiques_resume r) = std fsqrt noisy.
Proof.
  intros Hyields Hpid Hannee Hrend Hne Hconst sorted cells noisy ordinals.
  assert (Hperm : Permutation (parcel_yields yields pid) sorted)
    by apply sort_rows_perm.
  assert (Hsorted : Forall (constant_yield v) sorted).
  { apply Forall_forall. intros r Hr. rewrite Forall_forall in Hconst.
    apply Hconst. eapply Permutation_in; [apply Permutation_sym; exact Hperm|exact Hr]. }
  assert (Hlen : List.length sorted = List.length (parcel_yields yields pid))
    by (symmetry; now apply Permutation_length).
  assert (Hsne : sorted <> []).
  { intros E. rewrite E in Hlen. destruct (parcel_yields yields pid); [auto|discriminate]. }
  assert (E2 : filter_eq yields "parcelle_id" pid
               = Ok {| columns := columns yields; rows := parcel_yields yields pid |}).
  { unfold filter_eq, getitem. rewrite Hpid. cbn [bind].
    now rewrite (filter_combine_map (fun r => get r "parcelle_id")
                                    (fun c => cell_eqb c pid)). }
  assert (E3 : empty {| columns := columns yields; rows := parcel_yields yields pid |}
               = false).
  { unfold empty. simpl. apply has_column_columns in Hpid.
    destruct (columns yields); [contradiction|].
    destruct (parcel_yields yields pid); [contradiction|reflexivity]. }
  assert (E4 : sort_values S {| columns := columns yields;
                                rows := parcel_yields yields pid |} "annee"
               = Ok {| columns := columns yields; rows := sorted |}).
  { unfold sort_values, getitem.
    replace (has_column _ "annee") with true by (symmetry; exact Hannee).
    cbn [bind rows columns]. rewrite comparable_dates; [reflexivity|].
    apply Forall_forall. intros c Hc. apply in_map_iff in Hc.
    destruct Hc as [r [<- Hr]]. rewrite Forall_forall in Hconst.
    now destruct (Hconst r Hr) as [_ Ht]. }
  assert (E5 : getitem {| columns := columns yields; rows := sorted |} "rendement"
               = Ok cells).
  { unfold getitem.
    replace (has_column _ "rendement") with true by (symmetry; exact Hrend).
    reflexivity. }
  assert (Hcells : Forall (fun c => exists q, c = Num q /\ q == v) cells).
  { apply Forall_forall. intros c Hc. apply in_map_iff in Hc.
    destruct Hc as [r [<- Hr]]. rewrite Forall_forall in Hsorted.
    now destruct (Hsorted r Hr) as [Hq _]. }
  assert (E6 : existsb isna cells = false).
  { apply not_true_is_false. intros H. apply existsb_exists in H.
    destruct H as [c [Hc Hna]]. rewrite Forall_forall in Hcells.
    destruct (Hcells c Hc) as [q [-> _]]. discriminate. }
  assert (E7 : Nat.eqb (nunique cells) 1 = true).
  { apply Nat.eqb_eq. apply (nunique_constant v); auto.
    unfold cells. destruct sorted; [contradiction|discriminate]. }
  assert (E8 : mapM (fun ci => add_cell (fst ci) (noise (snd ci)))
                    (combine cells (seq 0 (List.length cells)))
               = Ok (map (fun ci => Num (key_value (fst ci) + noise (snd ci)))
                         (combine cells (seq 0 (List.length cells))))).
  { apply mapM_ok. apply Forall_forall. intros [c i] Hci. simpl.
    apply in_combine_l in Hci. rewrite Forall_forall in Hcells.
    destruct (Hcells c Hci) as [q [-> _]]. reflexivity. }
  assert (E9 : mapM ordinal_of (map (fun r => get r "annee") sorted) = Ok ordinals).
  { unfold ordinals. rewrite <- (map_map (fun r => get r "annee") ordinal_value).
    apply mapM_ok. apply Forall_forall. intros c Hc. apply in_map_iff in Hc.
    destruct Hc as [r [<- Hr]]. rewrite Forall_forall in Hsorted.
    destruct (Hsorted r Hr) as [_ [t ->]]. reflexivity. }
  assert (E10 : mapM as_float
                     (map (fun ci => Num (key_value (fst ci) + noise (snd ci)))
                          (combine cells (seq 0 (List.length cells))))
                = Ok noisy).
  { unfold noisy.
    rewrite <- (map_map (fun ci => Num (key_value (fst ci) + noise (snd ci)))
                        key_value).
    apply mapM_ok. apply Forall_forall. intros c Hc. apply in_map_iff in Hc.
    destruct Hc as [ci [<- _]]. reflexivity. }
  destruct (linear_regression_total ordinals noisy) as [slope [icpt E11]].
  { unfold ordinals, noisy, cells.
    rewrite !length_map, length_combine, length_seq, length_map. lia. }
  { unfold ordinals. destruct sorted; [contradiction|discriminate]. }
  destruct (variation_guarded slope (Qmean noisy)) as [vm [E12 _]].
  eexists. split.
  - unfold analyze_yield_patterns, try_except, bindM, lift, get_self, the_frame,
      raise, ret, print. simpl.
    rewrite Hyields. simpl. rewrite E2. simpl. rewrite E3. simpl.
    rewrite E4. simpl. fold sorted. rewrite E5. simpl. rewrite E6. simpl.
    rewrite E7. simpl. rewrite E8. simpl. rewrite E9. simpl. rewrite E10. simpl.
    rewrite E11. simpl. rewrite E12. simpl. reflexivity.
  - assert (Hn : List.length noisy = List.length sorted).
    { unfold noisy, cells.
      rewrite length_map, length_combine, length_seq, length_map. lia. }
    assert (Ho : List.length ordinals = List.length sorted)
      by (unfold ordinals; now rewrite length_map).
    simpl. repeat split; auto.
    + rewrite map_snd_combine_eq.
      * rewrite combine_map_r, map_map. reflexivity.
      * rewrite !length_map, length_combine, length_map. lia.
    + rewrite length_combine, !length_map, length_combine, length_map. lia.
Qed.




End Analyses.

(** ** Insertion sort is a sorter *)

Lemma insert_row_perm (key : row -> cell) (r : row) (l : list row) :
  Permutation (r :: l) (insert_row key r l).
Proof.
  induction l as [|r' l IH]; simpl; auto.
  destruct (cell_leb (key r) (key r')); auto.
  eapply perm_trans; [apply perm_swap|]. now apply perm_skip.
Qed.

Lemma insertion_sort_perm (key : row -> cell) (l : list row) :
  Permutation l (insertion_sort key l).
Proof.
  induction l as [|r l IH]; simpl; auto.
  eapply perm_trans; [apply perm_skip, IH|apply insert_row_perm].
Qed.

Section InsertionSorted.

Variable P : cell -> Prop.
Hypothesis leb_total : forall a b, P a -> P b -> cell_leb a b = false -> cell_leb b a = true.
Hypothesis leb_trans :
  forall a b c, P a -> P b -> P c ->
                cell_leb a b = true -> cell_leb b c = true -> cell_leb a c = true.

Variable key : row -> cell.

Let le (a b : row) : Prop := cell_leb (key a) (key b) = true.

Lemma insert_row_sorted (r : row) (l : list row) :
  P (key r) -> Forall (fun a => P (key a)) l ->
  StronglySorted le l -> StronglySorted le (insert_row key r l).
Proof.
  intros Hr Hl Hs. induction Hs as [|r' l Hs IH Hall]; simpl.
  - repeat constructor.
  - inversion Hl as [|? ? Hr' Hl']; subst.
    destruct (cell_leb (key r) (key r')) eqn:E.
    + constructor; [now constructor|]. constructor; [exact E|].
      rewrite Forall_forall in *. intros a Ha.
      apply (leb_trans _ (key r')); auto. now apply Hall.
    + constructor; [now apply IH|].
      apply (Permutation_Forall (insert_row_perm key r l)).
      constructor; [|exact Hall]. now apply leb_total.
Qed.

Lemma insertion_sort_sorted_on (l : list row) :
  Forall (fun a => P (key a)) l -> StronglySorted le (insertion_sort key l).
Proof.
  induction 1 as [|r l Hr Hl IH]; simpl; [constructor|].
  apply insert_row_sorted; auto.
  apply (Permutation_Forall (insertion_sort_perm key l)). exact Hl.
Qed.

End InsertionSorted.

Lemma cell_leb_total_numeric (a b : cell) :
  is_numeric a = true -> is_numeric b = true ->
  cell_leb a b = false -> cell_leb b a = true.
Proof.
  destruct a, b; simpl; try discriminate; auto.
  intros _ _ H. apply Qle_bool_false in H. apply Qle_bool_iff. lra.
Qed.

Lemma cell_leb_trans_numeric (a b c : cell) :
  is_numeric a = true -> is_numeric b = true -> is_numeric c = true ->
  cell_leb a b = true -> cell_leb b c = true -> cell_leb a c = true.
Proof.
  destruct a, b, c; simpl; try discriminate; auto.
  intros _ _ _ H1 H2. qbool. apply Qle_bool_iff. lra.
Qed.

Lemma cell_leb_total_datetime (a b : cell) :
  is_datetime a = true -> is_datetime b = true ->
  cell_leb a b = false -> cell_leb b a = true.
Proof.
  destruct a, b; simpl; try discriminate; auto.
  intros _ _ H. apply Z.leb_gt in H. apply Z.leb_le. lia.
Qed.

Lemma cell_leb_trans_datetime (a b c : cell) :
  is_datetime a = true -> is_datetime b = true -> is_datetime c = true ->
  cell_leb a b = true -> cell_leb b c = true -> cell_leb a c = true.
Proof.
  destruct a, b, c; simpl; try discriminate; auto.
  intros _ _ _ H1 H2. apply Z.leb_le in H1, H2. apply Z.leb_le. lia.
Qed.

Lemma insertion_sort_sorted (key : row -> cell) (l : list row) :
  orderable (map key l) = true ->
  StronglySorted (fun a b => cell_leb (key a) (key b) = true) (insertion_sort key l).
Proof.
  unfold orderable. intros H. apply orb_true_iff in H. destruct H as [H|H].
  - apply (insertion_sort_sorted_on (fun c => is_numeric c = true)
             cell_leb_total_numeric cell_leb_trans_numeric).
    rewrite forallb_forall in H. apply Forall_forall. intros a Ha.
    apply H. now apply in_map.
  - apply (insertion_sort_sorted_on (fun c => is_datetime c = true)
             cell_leb_total_datetime cell_leb_trans_datetime).
    rewrite forallb_forall in H. apply Forall_forall. intros a Ha.
    apply H. now apply in_map.
Qed.

Definition insertion_sorter : Sorter :=
  {| sort_rows := insertion_sort;
     sort_rows_perm := insertion_sort_perm;
     sort_rows_sorted := insertion_sort_sorted |}.

(** ** The analyses on concrete tables *)

Lemma get_temporal_patterns_insufficient_data_witness :
  exists line,
    get_temporal_patterns insertion_sorter Qsqrt flat_decompose (Str "P001")
                          (world_with_features short_features)
    = (Ok (None, None),
       {| self := init;
          disk := disk (world_with_features short_features);
          stdout := [line] |}).
Proof.
  apply (get_temporal_patterns_insufficient_data
           insertion_sorter Qsqrt flat_decompose (Str "P001")
           (world_with_features short_features)).
  intros features H. injection H as <-. vm_compute. lia.
Defined.

Lemma analyze_yield_patterns_constant_series_witness :
  exists r,
    analyze_yield_patterns insertion_sorter Qsqrt small_noise (Str "P002")
                           (world_with_yields constant_yields)
    = (Ok (Some r),
       {| self := self (world_with_yields constant_yields);
          disk := disk (world_with_yields constant_yields);
          stdout := ["Adding noise to constant yield series."] |}) /\
    List.length (residus r) = 5%nat.
Proof.
  destruct (analyze_yield_patterns_constant_series
              insertion_sorter Qsqrt small_noise (Str "P002")
              (world_with_yields constant_yields) constant_yields 4)
    as [r [Hrun [_ [_ [_ [Hlen _]]]]]]; try reflexivity.
  - discriminate.
  - repeat constructor; try (eexists; split; [reflexivity|reflexivity]);
      eexists; reflexivity.
  - exists r. split; [exact Hrun|exact Hlen].
Defined.


(** ** The calendar *)

(** The days of 2024 are those from 19723 (1 January) to 20088
    (31 December). *)
Lemma year_of_day_2024 (d : Z) :
  year_of_day d = 2024%Z <-> (19723 <= d < 20089)%Z.
Proof.
  unfold year_of_day. cbv zeta.
  match goal with |- context [if ?b then _ else _] => destruct b eqn:E end;
    [apply Z.ltb_lt in E|apply Z.ltb_ge in E];
    split; intros; Z.to_euclidean_division_equations; lia.
Qed.

Lemma day_of_midnight (d : Z) : day_of (midnight d) = d.
Proof. unfold day_of, midnight, day_ns. now rewrite Z.div_mul. Qed.

Lemma midnight_inj (d d' : Z) : midnight d = midnight d' -> d = d'.
Proof. unfold midnight, day_ns. lia. Qed.

(** ** Daily resampling *)

Lemma get_map_pairs (f : string -> cell) (cols : list string) (c : string) :
  get (map (fun k => (k, f k)) cols) c = if mem c cols then f c else NA.
Proof.
  unfold mem. induction cols as [|k cols IH]; simpl; auto.
  rewrite (String.eqb_sym c k).
  destruct (String.eqb k c) eqn:E; simpl; auto.
  apply String.eqb_eq in E. now subst.
Qed.

Lemma mem_In (c : string) (l : list string) : mem c l = true <-> In c l.
Proof.
  unfold mem. rewrite existsb_exists. split.
  - intros [x [Hx E]]. apply String.eqb_eq in E. now subst.
  - intros H. exists c. split; auto. apply String.eqb_refl.
Qed.

Lemma mem_without (on c : string) (cols : list string) :
  c <> on -> mem c (without on cols) = mem c cols.
Proof.
  intros Hne. unfold mem, without.
  induction cols as [|k cols IH]; simpl; auto.
  destruct (String.eqb k on) eqn:E; simpl.
  - apply String.eqb_eq in E. subst k.
    destruct (String.eqb c on) eqn:E'; auto.
    apply String.eqb_eq in E'. contradiction.
  - now rewrite IH.
Qed.

Lemma rows_of_day_filter (d : Z) (rs : list row) :
  rows_of_day d (dated_rows rs) = filter (on_day d) rs.
Proof.
  unfold rows_of_day, dated_rows, on_day.
  induction rs as [|r rs IH]; simpl; auto.
  destruct (get r "date"); simpl; auto.
  destruct (Z.eqb (day_of t) d); simpl; now rewrite IH.
Qed.

Lemma dated_rows_days (d : Z) (rs : list row) :
  In d (map fst (dated_rows rs)) <-> exists r, In r rs /\ on_day d r = true.
Proof.
  unfold dated_rows, on_day. induction rs as [|r rs IH]; simpl.
  - split; [contradiction|now intros [r [[] _]]].
  - rewrite map_app, in_app_iff, IH. split.
    + intros [H|[r' [Hr' Hd]]].
      * destruct (get r "date") eqn:E; simpl in H; try contradiction.
        destruct H as [<-|[]]. exists r. rewrite E. split; auto. apply Z.eqb_refl.
      * exists r'. auto.
    + intros [r' [[<-|Hr'] Hd]].
      * left. destruct (get r "date"); try discriminate.
        apply Z.eqb_eq in Hd. subst. simpl. auto.
      * right. exists r'. auto.
Qed.

Lemma day_range_In (lo hi d : Z) : In d (day_range lo hi) <-> (lo <= d <= hi)%Z.
Proof.
  unfold day_range. rewrite in_map_iff. split.
  - intros [i [<- Hi]]. apply in_seq in Hi. lia.
  - intros H. exists (Z.to_nat (d - lo)). split; [lia|]. apply in_seq. lia.
Qed.

Lemma day_range_NoDup (lo hi : Z) : NoDup (day_range lo hi).
Proof.
  unfold day_range. apply Finite.Injective_map_NoDup; [|apply seq_NoDup].
  intros i j H. lia.
Qed.

Lemma fold_min_spec (d : Z) (ds : list Z) :
  In (fold_right Z.min d ds) (d :: ds) /\
  forall a, In a (d :: ds) -> (fold_right Z.min d ds <= a)%Z.
Proof.
  induction ds as [|x ds [IHin IHle]]; simpl.
  - split; auto. intros a [<-|[]]. lia.
  - split.
    + destruct (Z.min_spec x (fold_right Z.min d ds)) as [[_ ->]|[_ ->]]; auto.
      simpl in IHin. tauto.
    + intros a [<-|[<-|Ha]].
      * specialize (IHle d (or_introl eq_refl)). lia.
      * lia.
      * specialize (IHle a (or_intror Ha)). lia.
Qed.

Lemma fold_max_spec (d : Z) (ds : list Z) :
  In (fold_right Z.max d ds) (d :: ds) /\
  forall a, In a (d :: ds) -> (a <= fold_right Z.max d ds)%Z.
Proof.
  induction ds as [|x ds [IHin IHle]]; simpl.
  - split; auto. intros a [<-|[]]. lia.
  - split.
    + destruct (Z.max_spec x (fold_right Z.max d ds)) as [[_ ->]|[_ ->]]; auto.
      simpl in IHin. tauto.
    + intros a [<-|[<-|Ha]].
      * specialize (IHle d (or_introl eq_refl)). lia.
      * lia.
      * specialize (IHle a (or_intror Ha)). lia.
Qed.

Lemma span_In (ds : list Z) (d : Z) :
  In d (span ds) <-> exists a b, In a ds /\ In b ds /\ (a <= d <= b)%Z.
Proof.
  destruct ds as [|x ds]; simpl.
  - split; [contradiction|]. now intros [a [b [[] _]]].
  - rewrite day_range_In.
    destruct (fold_min_spec x ds) as [Hmin Hle].
    destruct (fold_max_spec x ds) as [Hmax Hge]. split.
    + intros H. exists (fold_right Z.min x ds), (fold_right Z.max x ds). auto.
    + intros [a [b [Ha [Hb H]]]].
      specialize (Hle a Ha). specialize (Hge b Hb). lia.
Qed.

Lemma span_NoDup (ds : list Z) : NoDup (span ds).
Proof. destruct ds; [constructor|apply day_range_NoDup]. Qed.

Lemma resample_D_mean_rows (df out : DataFrame) :
  resample_D_mean df = Ok out ->
  columns out = "date" :: without "date" (columns df) /\
  rows out = map (daily_row (without "date" (columns df)) (dated_rows (rows df)))
                 (span (map fst (dated_rows (rows df)))).
Proof.
  unfold resample_D_mean.
  destruct (getitem df "date"); simpl; [|discriminate].
  destruct (forallb is_datetime a); simpl; [|discriminate].
  destruct (forallb _ _); simpl; [|discriminate].
  intros H. injection H as <-. split; reflexivity.
Qed.

Lemma daily_row_date (cols : list string) (drs : list (Z * row)) (d : Z) :
  get (daily_row cols drs d) "date" = Date (midnight d).
Proof. reflexivity. Qed.

Lemma daily_row_value (cols : list string) (drs : list (Z * row)) (d : Z) (c : string) :
  c <> "date" ->
  get (daily_row cols drs d) c
  = if mem c cols then mean_cells (map (fun r => get r c) (rows_of_day d drs)) else NA.
Proof.
  intros Hne. unfold daily_row.
  change (get (?kv :: ?r) c) with (if String.eqb (fst kv) c then snd kv else get r c).
  simpl fst. destruct (String.eqb "date" c) eqn:E.
  - apply String.eqb_eq in E. congruence.
  - apply (get_map_pairs
             (fun c => mean_cells (map (fun r => get r c) (rows_of_day d drs)))).
Qed.

Lemma meteo_data_hourly_to_daily_run
      (parse : string -> option Z) (w : world) (weather out : DataFrame) :
  weather_data (self w) = Some weather ->
  has_column weather "date" = true ->
  resample_D_mean (coerce_dates parse weather) = Ok out ->
  meteo_data_hourly_to_daily parse w
  = (Ok tt,
     {| self := {| monitoring_data := monitoring_data (self w);
                   weather_data := Some out;
                   soil_data := soil_data (self w);
                   yield_history := yield_history (self w) |};
        disk := disk w; stdout := stdout w |}).
Proof.
  intros Hw Hdate Hres.
  unfold meteo_data_hourly_to_daily, try_except, bindM, get_self, the_frame, lift,
    set_weather_data, put_self, ret, getitem.
  simpl. rewrite Hw. simpl. rewrite Hdate. simpl.
  unfold coerce_dates in Hres. rewrite Hres. reflexivity.
Qed.

Lemma year_between (a b d : Z) :
  year_of_day a = 2024%Z -> year_of_day b = 2024%Z -> (a <= d <= b)%Z ->
  year_of_day d = 2024%Z.
Proof. rewrite !year_of_day_2024. lia. Qed.

(** C3 (as amended): the daily table has exactly one row for every calendar
    day from the first to the last day of the source rows.  A day with
    source rows holds, column by column, the mean of the values of that
    day's rows; a day of the span without source rows is present too, with
    every value missing; days outside the span are absent.  When every
    source row is dated in 2024 (as after [clean_data]), so is every row of
    the output. *)
Theorem daily_resampling
        (parse : string -> option Z) (w : world) (weather out : DataFrame) :
  weather_data (self w) = Some weather ->
  has_column weather "date" = true ->
  resample_D_mean (coerce_dates parse weather) = Ok out ->
  let src := rows (coerce_dates parse weather) in
  let w' := snd (meteo_data_hourly_to_daily parse w) in
  weather_data (self w') = Some out /\
  stdout w' = stdout w /\
  NoDup (map (fun r => get r "date") (rows out)) /\
  (forall d,
      (exists r, In r (rows out) /\ get r "date" = Date (midnight d)) <->
      (exists a b, (exists r, In r src /\ on_day a r = true) /\
                   (exists r, In r src /\ on_day b r = true) /\ (a <= d <= b)%Z)) /\
  (forall r, In r (rows out) ->
             exists d, get r "date" = Date (midnight d) /\
                       (forall c, In c (columns weather) -> c <> "date" ->
                                  get r c = mean_cells (map (fun s => get s c)
                                                            (filter (on_day d) src))) /\
                       (filter (on_day d) src = [] ->
                        forall c, c <> "date" -> get r c = NA)) /\
  ((forall r t, In r src -> get r "date" = Date t -> dt_year t = 2024%Z) ->
   forall r, In r (rows out) -> exists t, get r "date" = Date t /\ dt_year t = 2024%Z).
Proof.
  intros Hw Hdate Hres src w'.
  unfold w'. rewrite (meteo_data_hourly_to_daily_run parse w weather out Hw Hdate Hres).
  simpl. split; [reflexivity|]. split; [reflexivity|].
  destruct (resample_D_mean_rows _ _ Hres) as [Hcols Hrows].
  fold src in Hrows.
  assert (Hcolumns : columns (coerce_dates parse weather) = columns weather).
  { unfold coerce_dates, setitem. simpl. now rewrite Hdate. }
  rewrite Hcolumns in Hrows.
  assert (Hspan : forall d,
             In d (span (map fst (dated_rows src))) <->
             exists a b, (exists r, In r src /\ on_day a r = true) /\
                         (exists r, In r src /\ on_day b r = true) /\ (a <= d <= b)%Z).
  { intros d. rewrite span_In. split; intros [a [b [Ha [Hb H]]]]; exists a, b.
    - rewrite !dated_rows_days in *. auto.
    - rewrite !dated_rows_days. auto. }
  split.
  { rewrite Hrows, map_map.
    apply Finite.Injective_map_NoDup; [|apply span_NoDup].
    intros d d' H. rewrite !daily_row_date in H. injection H as H.
    now apply midnight_inj. }
  split.
  { intros d. rewrite <- Hspan, Hrows. split.
    - intros [r [Hr Hd]]. apply in_map_iff in Hr. destruct Hr as [d' [<- Hd']].
      rewrite daily_row_date in Hd. injection Hd as Hd.
      apply midnight_inj in Hd. now subst.
    - intros Hd. exists (daily_row (without "date" (columns weather)) (dated_rows src) d).
      split; [now apply in_map|apply daily_row_date]. }
  split.
  { intros r Hr. rewrite Hrows in Hr. apply in_map_iff in Hr.
    destruct Hr as [d [<- Hd]]. exists d. split; [apply daily_row_date|]. split.
    - intros c Hc Hne. rewrite daily_row_value by exact Hne.
      rewrite mem_without by exact Hne.
      apply mem_In in Hc. rewrite Hc. now rewrite rows_of_day_filter.
    - intros Hempty c Hne. rewrite daily_row_value by exact Hne.
      rewrite rows_of_day_filter, Hempty. simpl.
      now destruct (mem c _). }
  intros Hyear r Hr. rewrite Hrows in Hr. apply in_map_iff in Hr.
  destruct Hr as [d [<- Hd]]. exists (midnight d). split; [apply daily_row_date|].
  apply Hspan in Hd. destruct Hd as [a [b [[ra [Hra Ha]] [[rb [Hrb Hb]] H]]]].
  unfold dt_year. rewrite day_of_midnight.
  unfold on_day in Ha, Hb.
  destruct (get ra "date") as [| | |ta] eqn:Ea; try discriminate.
  destruct (get rb "date") as [| | |tb] eqn:Eb; try discriminate.
  apply Z.eqb_eq in Ha, Hb.
  apply (year_between a b); auto.
  - rewrite <- Ha. apply (Hyear ra ta Hra Ea).
  - rewrite <- Hb. apply (Hyear rb tb Hrb Eb).
Qed.

Lemma daily_resampling_witness :
  weather_data (self (snd (meteo_data_hourly_to_daily
                             no_parse (world_with_weather gap_weather))))
  = Some gap_weather_daily.
Proof.
  destruct (daily_resampling no_parse (world_with_weather gap_weather)
                             gap_weather gap_weather_daily) as [H _].
  - reflexivity.
  - reflexivity.
  - vm_compute. reflexivity.
  - exact H.
Defined.

(** C3, as stated, fails on a day without source rows inside the span: no
    row is dated on the second of January, and the output has a row for
    it. *)
Lemma resampling_keeps_empty_days :
  filter (on_day 19724) (rows gap_weather) = [] /\
  exists out,
    weather_data (self (snd (meteo_data_hourly_to_daily
                               no_parse (world_with_weather gap_weather)))) = Some out /\
    In (weather_row (midnight 19724) NA) (rows out).
Proof.
  split; [reflexivity|]. exists gap_weather_daily. split.
  - vm_compute. reflexivity.
  - simpl. auto.
Qed.

(** ** The nearest key *)

Lemma count_while_le_length {A} (p : A -> bool) (l : list A) :
  (count_while p l <= List.length l)%nat.
Proof.
  induction l as [|a l IH]; simpl; [lia|]. destruct (p a); simpl; lia.
Qed.

Lemma count_while_prefix {A} (p : A -> bool) (l : list A) (d : A) (k : nat) :
  (k < count_while p l)%nat -> p (nth k l d) = true.
Proof.
  revert k. induction l as [|a l IH]; simpl; intros k Hk; [lia|].
  destruct (p a) eqn:E; [|lia].
  destruct k; simpl; auto. apply IH. lia.
Qed.

Lemma count_while_stop {A} (p : A -> bool) (l : list A) (d : A) :
  (count_while p l < List.length l)%nat -> p (nth (count_while p l) l d) = false.
Proof.
  induction l as [|a l IH]; simpl; intros H; [lia|].
  destruct (p a) eqn:E; simpl; auto. apply IH. lia.
Qed.

Lemma is_monotonic_increasing_sorted (l : list Q) :
  is_monotonic_increasing l = true -> StronglySorted Qle l.
Proof.
  intros H. apply Sorted_StronglySorted; [exact Qle_trans|].
  induction l as [|x l IH]; [constructor|].
  simpl in H. destruct l as [|y l]; [repeat constructor|].
  apply andb_true_iff in H. destruct H as [Hxy Hl].
  constructor; [now apply IH|]. constructor. now apply Qle_bool_iff.
Qed.

Lemma sorted_nth_le (l : list Q) (i j : nat) :
  StronglySorted Qle l -> (i <= j)%nat -> (j < List.length l)%nat ->
  nth i l 0 <= nth j l 0.
Proof.
  intros Hs. revert i j. induction Hs as [|a l Hs IH Hall]; simpl; intros i j Hij Hj.
  - lia.
  - destruct i, j; try lia.
    + apply Qle_refl.
    + rewrite Forall_forall in Hall. apply Hall. apply nth_In. lia.
    + apply IH; lia.
Qed.

(** On sorted keys, the position chosen by [asof_nearest] holds a key at
    least as close to [x] as every other key; none is chosen only when
    there is no key. *)
Lemma asof_nearest_closest (right : list Q) (x : Q) :
  StronglySorted Qle right ->
  match asof_nearest right x with
  | Some j =>
      (j < List.length right)%nat /\
      forall k, (k < List.length right)%nat ->
                Qabs (x - nth j right 0) <= Qabs (x - nth k right 0)
  | None => right = []
  end.
Proof.
  intros Hs. unfold asof_nearest, asof_backward, asof_forward.
  set (nb := count_while (fun r => Qle_bool r x) right).
  set (nf := count_while (fun r => negb (Qle_bool x r)) right).
  assert (Hb_le : (nb <= List.length right)%nat) by apply count_while_le_length.
  assert (Hf_le : (nf <= List.length right)%nat) by apply count_while_le_length.
  assert (Hb_lo : forall k, (k < nb)%nat -> nth k right 0 <= x).
  { intros k Hk. apply Qle_bool_iff.
    apply (count_while_prefix (fun r => Qle_bool r x) right 0 k Hk). }
  assert (Hf_lo : forall k, (k < nf)%nat -> nth k right 0 < x).
  { intros k Hk. apply Qle_bool_false.
    apply negb_true_iff.
    apply (count_while_prefix (fun r => negb (Qle_bool x r)) right 0 k Hk). }
  assert (Hb_hi : forall k, (nb <= k)%nat -> (k < List.length right)%nat ->
                            x < nth k right 0).
  { intros k Hk Hlen.
    assert (H : Qle_bool (nth nb right 0) x = false)
      by (apply (count_while_stop (fun r => Qle_bool r x) right 0); fold nb; lia).
    apply Qle_bool_false in H.
    eapply Qlt_le_trans; [exact H|]. now apply sorted_nth_le. }
  assert (Hf_hi : forall k, (nf <= k)%nat -> (k < List.length right)%nat ->
                            x <= nth k right 0).
  { intros k Hk Hlen.
    assert (H : negb (Qle_bool x (nth nf right 0)) = false)
      by (apply (count_while_stop (fun r => negb (Qle_bool x r)) right 0); fold nf; lia).
    apply negb_false_iff in H. apply Qle_bool_iff in H.
    eapply Qle_trans; [exact H|]. now apply sorted_nth_le. }
  assert (Hfb : (nf <= nb)%nat).
  { destruct (Nat.le_gt_cases nf nb) as [H|H]; auto.
    assert (H1 := Hf_lo nb H). assert (H2 := Hb_hi nb (Nat.le_refl _) ltac:(lia)).
    lra. }
  assert (Hfar_lo : forall b k, nb = S b -> (k < nb)%nat ->
                                Qabs (x - nth k right 0) >= x - nth b right 0
                                /\ x - nth b right 0 >= 0).
  { intros b k Hnb Hk.
    assert (H1 := Hb_lo k Hk). assert (H2 := Hb_lo b ltac:(lia)).
    assert (H3 : nth k right 0 <= nth b right 0) by (apply sorted_nth_le; auto; lia).
    split; [|lra]. rewrite Qabs_pos; lra. }
  assert (Hfar_hi : forall k, (nb <= k)%nat -> (k < List.length right)%nat ->
                              Qabs (x - nth k right 0) >= nth nf right 0 - x
                              /\ nth nf right 0 - x >= 0).
  { intros k Hk Hlen.
    assert (H1 := Hb_hi k Hk Hlen). assert (H2 := Hf_hi nf (Nat.le_refl _) ltac:(lia)).
    assert (H3 : nth nf right 0 <= nth k right 0) by (apply sorted_nth_le; auto; lia).
    split; [|lra]. rewrite Qabs_neg; lra. }
  destruct nb as [|b] eqn:Enb.
  - destruct (Nat.ltb nf (List.length right)) eqn:Ef.
    + apply Nat.ltb_lt in Ef. split; auto. intros k Hk.
      destruct (Hfar_hi k ltac:(lia) Hk) as [H1 H2].
      assert (E : nf = 0%nat) by lia.
      rewrite Qabs_neg by lra. lra.
    + apply Nat.ltb_ge in Ef. destruct right; auto. simpl in *. lia.
  - destruct (Nat.ltb nf (List.length right)) eqn:Ef.
    + apply Nat.ltb_lt in Ef.
      assert (Hb0 : x - nth b right 0 >= 0) by (apply (Hfar_lo b b eq_refl); lia).
      assert (Hf0 : nth nf right 0 - x >= 0)
        by (assert (H := Hf_hi nf (Nat.le_refl _) Ef); lra).
      destruct (Qle_bool (x - nth b right 0) (nth nf right 0 - x)) eqn:Epick; qbool.
      * split; [lia|]. intros k Hk. rewrite (Qabs_pos (x - nth b right 0)) by lra.
        destruct (Nat.lt_ge_cases k (S b)) as [Hlo|Hhi].
        -- destruct (Hfar_lo b k eq_refl Hlo). lra.
        -- destruct (Hfar_hi k Hhi Hk). lra.
      * split; [lia|]. intros k Hk. rewrite (Qabs_neg (x - nth nf right 0)) by lra.
        destruct (Nat.lt_ge_cases k (S b)) as [Hlo|Hhi].
        -- destruct (Hfar_lo b k eq_refl Hlo). lra.
        -- destruct (Hfar_hi k Hhi Hk). lra.
    + apply Nat.ltb_ge in Ef. split; [lia|]. intros k Hk.
      assert (Hb0 : x - nth b right 0 >= 0) by (apply (Hfar_lo b b eq_refl); lia).
      rewrite (Qabs_pos (x - nth b right 0)) by lra.
      destruct (Hfar_lo b k eq_refl ltac:(lia)). lra.
Qed.

(** ** Column names through a merge *)

Lemma has_suffix_app (k sfx : string) : has_suffix sfx (k ++ sfx) = true.
Proof.
  induction k as [|a k IH].
  - change ("" ++ sfx)%string with sfx.
    destruct sfx; cbn [has_suffix]; now rewrite String.eqb_refl.
  - change (String a k ++ sfx)%string with (String a (k ++ sfx)).
    cbn [has_suffix]. rewrite IH. apply orb_true_r.
Qed.

Lemma suffixed_plain (overlap : list string) (sfx k c : string) :
  plain c = true -> sfx = "_x" \/ sfx = "_y" ->
  suffixed overlap sfx k = c -> k = c /\ mem c overlap = false.
Proof.
  unfold plain, suffixed. intros Hp Hsfx H.
  apply andb_true_iff in Hp. destruct Hp as [Hx Hy].
  destruct (mem k overlap) eqn:E.
  - exfalso. subst c. destruct Hsfx as [-> | ->].
    + rewrite has_suffix_app in Hx. discriminate.
    + rewrite has_suffix_app in Hy. discriminate.
  - subst k. auto.
Qed.

Lemma suffixed_id (overlap : list string) (sfx c : string) :
  mem c overlap = false -> suffixed overlap sfx c = c.
Proof. unfold suffixed. now intros ->. Qed.

Lemma get_app (r1 r2 : row) (c : string) :
  get (r1 ++ r2) c = if mem c (map fst r1) then get r1 c else get r2 c.
Proof.
  unfold mem. induction r1 as [|[k v] r1 IH]; simpl; auto.
  rewrite (String.eqb_sym c k). destruct (String.eqb k c); simpl; auto.
Qed.

Lemma get_renamed_pairs (g : string -> string) (f : string -> cell)
      (cols : list string) (c : string) :
  In c cols -> g c = c -> (forall k, In k cols -> g k = c -> k = c) ->
  get (map (fun k => (g k, f k)) cols) c = f c /\
  mem c (map fst (map (fun k => (g k, f k)) cols)) = true.
Proof.
  intros Hin Hc Huniq. unfold mem.
  induction cols as [|k cols IH]; [contradiction|]. simpl.
  rewrite (String.eqb_sym c (g k)).
  destruct (String.eqb (g k) c) eqn:E.
  - apply String.eqb_eq in E. rewrite (Huniq k (or_introl eq_refl) E). auto.
  - destruct Hin as [->|Hin].
    + rewrite Hc, String.eqb_refl in E. discriminate.
    + simpl. apply IH; auto. intros k' Hk'. apply Huniq. now right.
Qed.

Lemma mem_renamed_pairs_absent (g : string -> string) (f : string -> cell)
      (cols : list string) (c : string) :
  (forall k, In k cols -> g k <> c) ->
  mem c (map fst (map (fun k => (g k, f k)) cols)) = false.
Proof.
  intros H. unfold mem. apply not_true_is_false. intros E.
  apply existsb_exists in E. destruct E as [n [Hn E]].
  apply String.eqb_eq in E. subst n.
  rewrite map_map in Hn. simpl in Hn. apply in_map_iff in Hn.
  destruct Hn as [k [Hk Hin]]. exact (H k Hin Hk).
Qed.

Lemma mem_overlap_of (on c : string) (lcols rcols : list string) :
  mem c (overlap_of on lcols rcols) = true <-> In c lcols /\ c <> on /\ In c rcols.
Proof.
  rewrite mem_In. unfold overlap_of. rewrite filter_In, andb_true_iff, negb_true_iff.
  rewrite mem_In. split.
  - intros [H1 [H2 H3]]. repeat split; auto. intros ->.
    rewrite String.eqb_refl in H2. discriminate.
  - intros [H1 [H2 H3]]. repeat split; auto. now apply String.eqb_neq.
Qed.

Lemma In_without (on c : string) (cols : list string) :
  In c (without on cols) <-> In c cols /\ c <> on.
Proof.
  unfold without. rewrite filter_In, negb_true_iff, String.eqb_neq. tauto.
Qed.

Section MergedRow.

Variables (on c : string) (lcols rcols : list string).
Hypothesis c_plain : plain c = true.

Lemma not_in_overlap_left :
  c = on \/ ~ In c rcols -> mem c (overlap_of on lcols rcols) = false.
Proof.
  intros H. apply not_true_is_false. intros E. apply mem_overlap_of in E.
  destruct E as [_ [Hne Hr]]. tauto.
Qed.

(** A plain column of the left side that does not clash keeps its name and
    its value. *)
Lemma merged_row_left (l : row) (r : option row) :
  In c lcols -> c = on \/ ~ In c rcols ->
  get (merged_row on lcols rcols l r) c = get l c.
Proof.
  intros Hin Hclash. unfold merged_row, left_part. rewrite get_app.
  destruct (get_renamed_pairs
              (suffixed (overlap_of on lcols rcols) "_x") (fun k => get l k) lcols c)
    as [Hget Hmem]; auto.
  - apply suffixed_id. now apply not_in_overlap_left.
  - intros k _ Hk. apply (suffixed_plain _ "_x" k c c_plain) in Hk; tauto.
  - now rewrite Hmem.
Qed.

(** A plain column of the right side alone keeps its name and takes the
    value of the matched row. *)
Lemma merged_row_right (l : row) (r : option row) :
  ~ In c lcols -> In c rcols -> c <> on ->
  get (merged_row on lcols rcols l r) c
  = match r with Some r' => get r' c | None => NA end.
Proof.
  intros Hl Hr Hne. unfold merged_row, left_part, right_part. rewrite get_app.
  rewrite (mem_renamed_pairs_absent
             (suffixed (overlap_of on lcols rcols) "_x") (fun k => get l k)).
  2:{ intros k Hk E. apply (suffixed_plain _ "_x" k c c_plain) in E; [|auto].
      destruct E as [-> _]. contradiction. }
  assert (Hov : mem c (overlap_of on lcols rcols) = false).
  { apply not_true_is_false. intros E. apply mem_overlap_of in E. tauto. }
  destruct (get_renamed_pairs
              (suffixed (overlap_of on lcols rcols) "_y")
              (fun k => match r with Some r' => get r' k | None => NA end)
              (without on rcols) c) as [Hget _]; auto.
  - now apply In_without.
  - now apply suffixed_id.
  - intros k _ Hk. apply (suffixed_plain _ "_y" k c c_plain) in Hk; tauto.
Qed.

Lemma merged_columns_left :
  In c lcols -> c = on \/ ~ In c rcols -> In c (merged_columns on lcols rcols).
Proof.
  intros Hin Hclash. unfold merged_columns. apply in_or_app. left.
  apply in_map_iff. exists c. split; auto.
  apply suffixed_id. now apply not_in_overlap_left.
Qed.

Lemma merged_columns_right :
  ~ In c lcols -> In c rcols -> c <> on -> In c (merged_columns on lcols rcols).
Proof.
  intros Hl Hr Hne. unfold merged_columns. apply in_or_app. right.
  apply in_map_iff. exists c. split; [|now apply In_without].
  apply suffixed_id. apply not_true_is_false. intros E.
  apply mem_overlap_of in E. tauto.
Qed.

(** A plain name absent from both sides is absent from the merged frame. *)
Lemma merged_columns_absent :
  ~ In c lcols -> ~ In c rcols -> ~ In c (merged_columns on lcols rcols).
Proof.
  intros Hl Hr H. unfold merged_columns in H. apply in_app_or in H.
  destruct H as [H|H]; apply in_map_iff in H; destruct H as [k [Hk Hin]].
  - apply (suffixed_plain _ "_x" k c c_plain) in Hk; [|auto].
    destruct Hk as [-> _]. contradiction.
  - apply (suffixed_plain _ "_y" k c c_plain) in Hk; [|auto].
    destruct Hk as [-> _]. apply In_without in Hin. tauto.
Qed.

End MergedRow.

(** ** The rows of the merges *)

Lemma in_combine_map {A B} (f : A -> B) (l : list A) (a : A) (b : B) :
  In (a, b) (combine l (map f l)) -> In a l /\ b = f a.
Proof.
  induction l as [|x l IH]; simpl; [contradiction|].
  intros [H|H]; [injection H as <- <-; auto|].
  destruct (IH H). auto.
Qed.

Lemma asof_keys_ok (left right : list cell) (lk rk : list Q) :
  asof_keys left right = Ok (lk, rk) ->
  lk = map key_value left /\ rk = map key_value right /\ StronglySorted Qle rk.
Proof.
  unfold asof_keys.
  destruct (existsb isna left); [discriminate|].
  destruct (existsb isna right); [discriminate|].
  destruct (negb (orb _ _)); [discriminate|].
  destruct (is_monotonic_increasing (map key_value left)); simpl; [|discriminate].
  destruct (is_monotonic_increasing (map key_value right)) eqn:E; simpl; [|discriminate].
  intros H. injection H as <- <-. repeat split; auto.
  now apply is_monotonic_increasing_sorted.
Qed.

(** Every row of an as-of merge is a left row joined with a right row
    whose key is nearest. *)
Lemma merge_asof_rows (left right out : DataFrame) (on : string) :
  merge_asof left right on = Ok out ->
  columns out = merged_columns on (columns left) (columns right) /\
  forall r, In r (rows out) ->
            exists l p, In l (rows left) /\ nearest_to on (rows right) l p /\
                        r = merged_row on (columns left) (columns right) l p.
Proof.
  unfold merge_asof, getitem.
  destruct (has_column left on); simpl; [|discriminate].
  destruct (has_column right on); simpl; [|discriminate].
  destruct (asof_keys _ _) as [[lk rk]|e] eqn:Hkeys; simpl; [|discriminate].
  apply asof_keys_ok in Hkeys. destruct Hkeys as [-> [-> Hsorted]].
  intros H. injection H as <-. simpl. split; [reflexivity|].
  intros r Hr. apply in_map_iff in Hr. destruct Hr as [[l x] [<- Hlx]]. simpl.
  rewrite map_map in Hlx. apply in_combine_map in Hlx. destruct Hlx as [Hl ->].
  exists l. eexists. split; [exact Hl|]. split; [|reflexivity].
  assert (Hnear := asof_nearest_closest
                     (map key_value (map (fun r => get r on) (rows right)))
                     (key_value (get l on)) Hsorted).
  destruct (asof_nearest _ _) as [j|].
  - destruct Hnear as [Hj Hclose]. rewrite !length_map in Hj.
    destruct (nth_error (rows right) j) as [wr|] eqn:Hnth.
    2:{ apply nth_error_None in Hnth. lia. }
    assert (Hkey : forall k r', nth_error (rows right) k = Some r' ->
                     nth k (map key_value (map (fun r => get r on) (rows right))) 0
                     = key_value (get r' on)).
    { intros k r' Hk. rewrite map_map.
      rewrite (nth_indep _ 0 (key_value (get r' on)))
        by (rewrite length_map; apply nth_error_Some; congruence).
      change (key_value (get r' on)) with ((fun r => key_value (get r on)) r').
      rewrite map_nth. f_equal. f_equal. now apply nth_error_nth. }
    simpl. split; [now apply nth_error_In in Hnth|].
    intros r' Hr'. apply In_nth_error in Hr'. destruct Hr' as [k Hk].
    unfold distance. rewrite <- (Hkey j wr Hnth), <- (Hkey k r' Hk).
    apply Hclose. rewrite !length_map. apply nth_error_Some. congruence.
  - simpl. destruct (rows right); [reflexivity|discriminate].
Qed.

(** Every row of a left merge is a left row joined with a right row or
    with none. *)
Lemma merge_left_rows (left right out : DataFrame) (on : string) :
  merge_left left right on = Ok out ->
  columns out = merged_columns on (columns left) (columns right) /\
  forall r, In r (rows out) ->
            exists l p, In l (rows left) /\
                        r = merged_row on (columns left) (columns right) l p.
Proof.
  unfold merge_left, getitem.
  destruct (has_column left on); simpl; [|discriminate].
  destruct (has_column right on); simpl; [|discriminate].
  destruct (mergeable _ _); simpl; [|discriminate].
  intros H. injection H as <-. simpl. split; [reflexivity|].
  intros r Hr. apply in_flat_map in Hr. destruct Hr as [l [Hl Hr]].
  exists l. destruct (filter _ (rows right)) as [|m ms].
  - destruct Hr as [<-|[]]. exists None. auto.
  - change (In r (map (fun r' => merged_row on (columns left) (columns right) l (Some r'))
                      (m :: ms))) in Hr.
    apply in_map_iff in Hr. destruct Hr as [r' [<- _]]. exists (Some r'). auto.
Qed.

(** ** Columns through [drop], [rename] and the scorer *)

Lemma get_drop (cols : list string) (r : row) (c : string) :
  mem c cols = false ->
  get (filter (fun kv : string * cell => negb (mem (fst kv) cols)) r) c = get r c.
Proof.
  intros Hc. induction r as [|[k v] r IH]; simpl; auto.
  destruct (mem k cols) eqn:Hk; simpl.
  - destruct (String.eqb k c) eqn:E; auto.
    apply String.eqb_eq in E. subst k. congruence.
  - now rewrite IH.
Qed.

Lemma get_rename (g : string -> string) (r : row) (c : string) :
  (forall k, String.eqb (g k) c = String.eqb k c) ->
  get (map (fun kv : string * cell => (g (fst kv), snd kv)) r) c = get r c.
Proof.
  intros Hg. induction r as [|[k v] r IH]; simpl; auto.
  now rewrite Hg, IH.
Qed.

Lemma plain_not_suffixed (k c : string) :
  plain c = true -> c <> (k ++ "_x")%string /\ c <> (k ++ "_y")%string.
Proof.
  unfold plain. intros H. apply andb_true_iff in H. destruct H as [Hx Hy].
  split; intros ->; rewrite has_suffix_app in *; discriminate.
Qed.

Lemma feature_renaming_keeps (k c : string) :
  plain c = true -> c <> "latitude" -> c <> "longitude" ->
  String.eqb (renamed feature_renaming k) c = String.eqb k c.
Proof.
  intros Hp H1 H2. unfold renamed, feature_renaming. cbn [find fst snd].
  destruct (plain_not_suffixed "latitude" c Hp) as [Hlat _].
  destruct (plain_not_suffixed "longitude" c Hp) as [Hlon _].
  simpl in Hlat, Hlon.
  destruct (String.eqb "latitude_x" k) eqn:E1.
  { apply String.eqb_eq in E1. subst k. cbn [snd].
    transitivity false; [|symmetry]; apply String.eqb_neq; congruence. }
  destruct (String.eqb "longitude_x" k) eqn:E2; [|reflexivity].
  apply String.eqb_eq in E2. subst k. cbn [snd].
  transitivity false; [|symmetry]; apply String.eqb_neq; congruence.
Qed.

(** The scorer keeps every cell it does not compute: each row it returns
    is a row of its input, the two risk columns apart. *)
Lemma calculate_risk_metrics_rows (fsqrt : Q -> Q) (data : DataFrame) :
  forall r, In r (rows (fst (calculate_risk_metrics fsqrt data))) ->
            exists r0, In r0 (rows data) /\
                       forall c, c <> "risk_index" -> c <> "risk_category" ->
                                 get r c = get r0 c.
Proof.
  unfold calculate_risk_metrics, risk_metrics_body.
  destruct (find _ required_columns); simpl.
  { intros r Hr. eauto. }
  destruct (fit_transform _ _) as [normalized|e]; simpl.
  - intros r Hr. apply in_map_iff in Hr. destruct Hr as [[r1 v1] [<- Hr1]].
    apply in_combine_l in Hr1. apply in_map_iff in Hr1.
    destruct Hr1 as [[r0 v0] [<- Hr0]]. apply in_combine_l in Hr0.
    apply filter_In in Hr0. exists r0. split; [tauto|].
    intros c H1 H2. simpl. rewrite !get_set_other; auto.
  - intros r Hr. apply filter_In in Hr. exists r. tauto.
Qed.

Section Joiner.

Variable S : Sorter.
Variable fsqrt : Q -> Q.

(** The yield enrichment returns its argument or its left merge with the
    three yield columns, and touches neither the disk nor the other
    tables. *)
Lemma enrich_with_yield_history_cases (data : DataFrame) (w : world) :
  exists data' w',
    enrich_with_yield_history data w = (Ok data', w') /\
    disk w' = disk w /\
    monitoring_data (self w') = monitoring_data (self w) /\
    weather_data (self w') = weather_data (self w) /\
    soil_data (self w') = soil_data (self w) /\
    (data' = data \/
     exists picked, columns picked = yield_columns /\
                    merge_left data picked "parcelle_id" = Ok data').
Proof.
  unfold enrich_with_yield_history, try_except, bindM, get_self, the_frame, lift,
    set_yield_history, put_self, raise, ret, print. simpl.
  destruct (yield_history (self w)) as [yields|]; simpl.
  2:{ do 2 eexists. split; [reflexivity|]. simpl. auto 10. }
  destruct (getitem yields "annee") as [annee|e]; simpl.
  2:{ do 2 eexists. split; [reflexivity|]. simpl. auto 10. }
  destruct (mapM to_datetime_year annee) as [annee'|e]; simpl.
  2:{ do 2 eexists. split; [reflexivity|]. simpl. auto 10. }
  destruct (filter_year _ "annee" 2024) as [rendement_2024|e]; simpl.
  2:{ do 2 eexists. split; [reflexivity|]. simpl. auto 10. }
  destruct (select rendement_2024 _) as [picked|e] eqn:Hsel; simpl.
  2:{ do 2 eexists. split; [reflexivity|]. simpl. auto 10. }
  destruct (merge_left data picked "parcelle_id") as [data'|e] eqn:Hmerge; simpl.
  2:{ do 2 eexists. split; [reflexivity|]. simpl. auto 10. }
  do 2 eexists. split; [reflexivity|]. simpl. repeat split; auto.
  right. exists picked. split; auto.
  unfold select in Hsel. destruct (find _ _); [discriminate|].
  injection Hsel as <-. reflexivity.
Qed.

(** What a successful run of [prepare_features] went through. *)
Lemma prepare_features_success (w w' : world) (data : DataFrame) :
  prepare_features S fsqrt w = (Ok (Some data), w') ->
  exists monitoring weather soil ms ws joined merged enriched,
    monitoring_data (self w) = Some monitoring /\
    weather_data (self w) = Some weather /\
    soil_data (self w) = Some soil /\
    sort_values S monitoring "date" = Ok ms /\
    sort_values S weather "date" = Ok ws /\
    merge_asof ms ws "date" = Ok joined /\
    merge_left joined soil "parcelle_id" = Ok merged /\
    (enriched = merged \/
     exists picked, columns picked = yield_columns /\
                    merge_left merged picked "parcelle_id" = Ok enriched) /\
    data = fst (calculate_risk_metrics
                  fsqrt (rename (drop enriched ["latitude_y"; "longitude_y"])
                                feature_renaming)) /\
    disk w' "data/features_daily.csv" = Some (CsvFile data) /\
    monitoring_data (self w') = Some ms /\
    weather_data (self w') = Some ws /\
    soil_data (self w') = Some soil.
Proof.
  unfold prepare_features, try_except.
  unfold bindM at 1. unfold get_self.
  unfold bindM at 1. unfold the_frame.
  destruct (monitoring_data (self w)) as [monitoring|] eqn:Hmon;
    [|unfold raise, bindM, print, ret; simpl; fails].
  unfold ret at 1. unfold bindM at 1. unfold lift at 1.
  destruct (sort_values S monitoring "date") as [ms|e] eqn:Hms;
    [|unfold raise, bindM, print, ret; simpl; fails].
  unfold bindM at 1. unfold set_monitoring_data, bindM at 1, get_self, put_self.
  unfold bindM at 1.
  destruct (weather_data (self w)) as [weather|] eqn:Hwea;
    [|unfold raise, bindM, print, ret; simpl; fails].
  unfold ret at 1. unfold bindM at 1. unfold lift at 1.
  destruct (sort_values S weather "date") as [ws|e] eqn:Hws;
    [|unfold raise, bindM, print, ret; simpl; fails].
  unfold bindM at 1. unfold set_weather_data, bindM at 1, get_self, put_self.
  unfold bindM at 1. unfold lift at 1.
  destruct (merge_asof ms ws "date") as [joined|e] eqn:Hjoin;
    [|unfold raise, bindM, print, ret; simpl; fails].
  unfold bindM at 1.
  destruct (soil_data (self w)) as [soil|] eqn:Hsoil;
    [|unfold raise, bindM, print, ret; simpl; fails].
  unfold ret at 1. unfold bindM at 1. unfold lift at 1.
  destruct (merge_left joined soil "parcelle_id") as [merged|e] eqn:Hmerged;
    [|unfold raise, bindM, print, ret; simpl; fails].
  unfold bindM at 1.
  match goal with
  | |- context [enrich_with_yield_history merged ?w0] =>
      destruct (enrich_with_yield_history_cases merged w0)
        as [enriched [w1 [Hrun [Hdisk [Hm [Hw [Hs Hcase]]]]]]];
      rewrite Hrun
  end.
  unfold bindM at 1. unfold risk_metrics.
  destruct (calculate_risk_metrics fsqrt _) as [scored lines] eqn:Hscore.
  unfold bindM, to_csv, get_disk, put_disk, ret. simpl.
  intros H. injection H as <- <-. simpl.
  exists monitoring, weather, soil, ms, ws, joined, merged, enriched.
  repeat split; auto.
  unfold feature_renaming. now rewrite Hscore.
Qed.

Lemma sort_values_ok (df out : DataFrame) (c : string) :
  sort_values S df c = Ok out ->
  columns out = columns df /\ Permutation (rows df) (rows out).
Proof.
  unfold sort_values. destruct (getitem df c); simpl; [|discriminate].
  destruct (comparable a); [|discriminate].
  intros H. injection H as <-. simpl. split; [reflexivity|apply sort_rows_perm].
Qed.

Lemma nearest_to_perm (on : string) (l l' : list row) (m : row) (p : option row) :
  Permutation l l' -> nearest_to on l' m p -> nearest_to on l m p.
Proof.
  intros Hperm. destruct p as [r|]; simpl.
  - intros [Hin Hclose]. split.
    + eapply Permutation_in; [apply Permutation_sym; exact Hperm|exact Hin].
    + intros r' Hr'. apply Hclose. eapply Permutation_in; eauto.
  - intros ->. now apply Permutation_nil.
Qed.

Lemma tracked_facts (c : string) :
  tracked c = true ->
  plain c = true /\ c <> "latitude" /\ c <> "longitude" /\ c <> "annee" /\
  c <> "rendement" /\ c <> "risk_index" /\ c <> "risk_category".
Proof.
  unfold tracked. intros H. apply andb_true_iff in H. destruct H as [Hp Hr].
  split; [exact Hp|].
  apply negb_true_iff in Hr.
  assert (Hn : ~ In c reserved) by (rewrite <- mem_In; congruence).
  unfold reserved in Hn. simpl in Hn. repeat split; intros ->; tauto.
Qed.

(** From the table merged with the soil to the table returned: every row
    returned carries the tracked cells of a merged row. *)
Lemma features_from_merged (merged enriched : DataFrame) :
  enriched = merged \/
  (exists picked, columns picked = yield_columns /\
                  merge_left merged picked "parcelle_id" = Ok enriched) ->
  forall r,
    In r (rows (fst (calculate_risk_metrics
                       fsqrt (rename (drop enriched ["latitude_y"; "longitude_y"])
                                     feature_renaming)))) ->
    exists r1, In r1 (rows merged) /\
               forall c, tracked c = true -> In c (columns merged) -> get r c = get r1 c.
Proof.
  intros Hcase r Hr.
  apply calculate_risk_metrics_rows in Hr. destruct Hr as [r0 [Hr0 Hkeep]].
  unfold rename, drop in Hr0. cbn [rows] in Hr0.
  rewrite map_map in Hr0. apply in_map_iff in Hr0.
  destruct Hr0 as [re [<- Hre]].
  assert (Hstep : forall c, tracked c = true ->
                            get r c = get re c).
  { intros c Hc. apply tracked_facts in Hc.
    destruct Hc as [Hp [H1 [H2 [_ [_ [H5 H6]]]]]].
    rewrite (Hkeep c H5 H6).
    rewrite (get_rename (renamed feature_renaming))
      by (intros k; now apply feature_renaming_keeps).
    apply (get_drop ["latitude_y"; "longitude_y"]). apply not_true_is_false. intros E. apply mem_In in E.
    destruct (plain_not_suffixed "latitude" c Hp) as [_ Hy1].
    destruct (plain_not_suffixed "longitude" c Hp) as [_ Hy2].
    simpl in E, Hy1, Hy2. intuition congruence. }
  destruct Hcase as [->|[picked [Hcols Hmerge]]].
  - exists re. split; auto.
  - apply merge_left_rows in Hmerge. destruct Hmerge as [_ Hrows].
    destruct (Hrows re Hre) as [l [p [Hl ->]]].
    exists l. split; [exact Hl|]. intros c Hc Hin.
    rewrite (Hstep c Hc). apply tracked_facts in Hc.
    destruct Hc as [Hp [_ [_ [H3 [H4 _]]]]].
    apply merged_row_left; auto.
    rewrite Hcols. unfold yield_columns. simpl.
    destruct (String.eqb c "parcelle_id") eqn:E.
    + apply String.eqb_eq in E. auto.
    + apply String.eqb_neq in E. right. intuition congruence.
Qed.

(** The provenance of the feature rows: every row returned by
    [prepare_features] comes from one monitoring row and the weather row
    nearest to its date (or none when there is no weather row); it holds the
    monitoring row's value in every tracked monitoring column and the weather
    row's value in every tracked column that only the weather table has. *)
Lemma prepare_features_provenance (w w' : world) (data : DataFrame) :
  prepare_features S fsqrt w = (Ok (Some data), w') ->
  exists monitoring weather soil,
    monitoring_data (self w) = Some monitoring /\
    weather_data (self w) = Some weather /\
    soil_data (self w) = Some soil /\
    In "date" (columns monitoring) /\
    forall r, In r (rows data) ->
      exists m p,
        In m (rows monitoring) /\ nearest_to "date" (rows weather) m p /\
        forall c, tracked c = true -> c = "parcelle_id" \/ ~ In c (columns soil) ->
          (In c (columns monitoring) -> c = "date" \/ ~ In c (columns weather) ->
           get r c = get m c) /\
          (~ In c (columns monitoring) -> In c (columns weather) -> c <> "date" ->
           get r c = matched p c).
Proof.
  intros Hrun. apply prepare_features_success in Hrun.
  destruct Hrun as [monitoring [weather [soil [ms [ws [joined [merged [enriched H]]]]]]]].
  destruct H as [Hmon [Hwea [Hsoil [Hms [Hws [Hjoin [Hmerged [Hcase [Hdata _]]]]]]]]].
  exists monitoring, weather, soil. repeat split; auto.
  { unfold sort_values, getitem in Hms.
    destruct (has_column monitoring "date") eqn:E; [|discriminate].
    now apply mem_In. }
  intros r Hr. subst data.
  destruct (features_from_merged merged enriched Hcase r Hr) as [r1 [Hr1 Hget1]].
  apply merge_left_rows in Hmerged. destruct Hmerged as [Hmcols Hmrows].
  destruct (Hmrows r1 Hr1) as [j [ps [Hj ->]]].
  apply merge_asof_rows in Hjoin. destruct Hjoin as [Hjcols Hjrows].
  destruct (Hjrows j Hj) as [m [p [Hm [Hnear ->]]]].
  apply sort_values_ok in Hms, Hws.
  destruct Hms as [Hmscols Hmsperm]. destruct Hws as [Hwscols Hwsperm].
  rewrite Hmscols, Hwscols in *.
  exists m, p. split.
  { eapply Permutation_in; [apply Permutation_sym; exact Hmsperm|exact Hm]. }
  split; [now apply (nearest_to_perm _ _ _ _ _ Hwsperm)|].
  intros c Hc Hsoilc.
  assert (Hp : plain c = true) by (now apply tracked_facts in Hc).
  split.
  - intros Hin Hclash.
    assert (Hjc : In c (columns joined))
      by (rewrite Hjcols; now apply merged_columns_left).
    rewrite Hget1; auto.
    + rewrite merged_row_left; auto. now apply merged_row_left.
    + rewrite Hmcols. now apply merged_columns_left.
  - intros Hnot Hin Hne.
    assert (Hjc : In c (columns joined))
      by (rewrite Hjcols; now apply merged_columns_right).
    rewrite Hget1; auto.
    + rewrite merged_row_left; auto.
      rewrite merged_row_right; auto.
    + rewrite Hmcols. now apply merged_columns_left.
Qed.

End Joiner.

(** ** Sign correction *)

Lemma mapM_Forall2 {A B} (f : A -> result B) (l : list A) (l' : list B) :
  mapM f l = Ok l' -> Forall2 (fun a b => f a = Ok b) l l'.
Proof.
  revert l'. induction l as [|a l IH]; simpl; intros l' H.
  - injection H as <-. constructor.
  - destruct (f a) as [b|] eqn:Ea; simpl in H; [|discriminate].
    destruct (mapM f l) as [bs|]; simpl in H; [|discriminate].
    injection H as <-. constructor; auto.
Qed.

Lemma in_combine_Forall2 {A B} (P : A -> B -> Prop) (l : list A) (l' : list B)
      (a : A) (b : B) :
  Forall2 P l l' -> In (a, b) (combine l l') -> P a b.
Proof.
  induction 1; simpl; [contradiction|].
  intros [H1|H1]; [injection H1 as <- <-; auto|auto].
Qed.

Lemma mapM_length {A B} (f : A -> result B) (l : list A) (l' : list B) :
  mapM f l = Ok l' -> List.length l' = List.length l.
Proof.
  intros H. apply mapM_Forall2 in H. symmetry. eapply Forall2_length. exact H.
Qed.

Lemma mapM_map {A B C} (g : B -> result C) (f : A -> B) (l : list A) :
  mapM g (map f l) = mapM (fun a => g (f a)) l.
Proof.
  induction l as [|a l IH]; simpl; [reflexivity|]. now rewrite IH.
Qed.

Lemma year_mask_rows (c : string) (y : Z) (rs : list row) (mask : list bool) :
  mapM (fun r => year_is y (get r c)) rs = Ok mask ->
  map fst (filter snd (combine rs mask)) = filter (dated_in c y) rs.
Proof.
  revert mask. induction rs as [|r rs IH]; simpl; intros mask H.
  - reflexivity.
  - destruct (year_is y (get r c)) as [b|] eqn:Hb; simpl in H; [|discriminate].
    destruct (mapM _ rs) as [bs|]; simpl in H; [|discriminate].
    injection H as <-. simpl. unfold dated_in at 1.
    specialize (IH bs eq_refl).
    destruct (get r c); simpl in Hb; try discriminate; injection Hb as <-; simpl;
      [|destruct (Z.eqb _ _); simpl]; now rewrite IH.
Qed.

Lemma filter_year_rows (df out : DataFrame) (c : string) (y : Z) :
  filter_year df c y = Ok out ->
  has_column df c = true /\
  out = {| columns := columns df; rows := filter (dated_in c y) (rows df) |}.
Proof.
  unfold filter_year, getitem. destruct (has_column df c); simpl; [|discriminate].
  rewrite mapM_map.
  destruct (mapM _ (rows df)) as [mask|] eqn:Hmask; simpl; [|discriminate].
  intros H. injection H as <-. split; [reflexivity|].
  now rewrite (year_mask_rows _ _ _ _ Hmask).
Qed.

Lemma clean_data_run (w w' : world) :
  clean_data w = (Ok tt, w') ->
  exists weather fixed,
    weather_data (self w) = Some weather /\
    has_column weather "date" = true /\
    has_column weather "rayonnement_solaire" = true /\
    mapM (fun r => abs_cell (get r "rayonnement_solaire"))
         (filter (dated_in "date" 2024) (rows weather)) = Ok fixed /\
    w' = {| self := with_weather
                      (self w)
                      (Some (setitem {| columns := columns weather;
                                        rows := filter (dated_in "date" 2024)
                                                       (rows weather) |}
                                     "rayonnement_solaire" fixed));
            disk := disk w; stdout := stdout w |}.
Proof.
  unfold clean_data, bindM, get_self, the_frame, lift, set_weather_data, put_self,
    ret, raise. simpl.
  destruct (weather_data (self w)) as [weather|]; simpl; [|discriminate].
  destruct (filter_year weather "date" 2024) as [kept|e] eqn:Hkept; simpl; [|discriminate].
  apply filter_year_rows in Hkept. destruct Hkept as [Hdate ->].
  unfold getitem, has_column. cbn [columns rows].
  fold (has_column weather "rayonnement_solaire").
  destruct (has_column weather "rayonnement_solaire") eqn:Hrad; simpl; [|discriminate].
  rewrite mapM_map.
  destruct (mapM _ (filter _ _)) as [fixed|e] eqn:Hfix; simpl; [|discriminate].
  intros H. injection H as <-. exists weather, fixed. repeat split; auto.
Qed.

Lemma Forall2_map_combine {A B C} (P : C -> A -> Prop) (F : A * B -> C)
      (l : list A) (zs : list B) :
  List.length zs = List.length l ->
  (forall a z, In (a, z) (combine l zs) -> P (F (a, z)) a) ->
  Forall2 P (map F (combine l zs)) l.
Proof.
  revert zs. induction l as [|a l IH]; intros [|z zs] Hlen HP; simpl in *;
    try discriminate; constructor.
  - apply HP. now left.
  - apply IH; [congruence|]. intros a' z' Hin. apply HP. now right.
Qed.

Lemma forallb_ext_In {A} (p q : A -> bool) (l : list A) :
  (forall a, In a l -> p a = q a) -> forallb p l = forallb q l.
Proof.
  induction l as [|a l IH]; simpl; intros H; [reflexivity|].
  rewrite (H a) by now left. rewrite IH; [reflexivity|]. intros a' Ha'. apply H. now right.
Qed.

Lemma abs_cell_non_negative (c c' : cell) : abs_cell c = Ok c' -> non_negative c'.
Proof.
  destruct c; simpl; intros H; try discriminate; injection H as <-; simpl; auto.
  apply Qabs_nonneg.
Qed.

(** After [clean_data] the weather table has a radiation column without
    negative numbers, and every row is dated in 2024. *)
Lemma clean_data_ok (w w' : world) :
  clean_data w = (Ok tt, w') ->
  monitoring_data (self w') = monitoring_data (self w) /\
  soil_data (self w') = soil_data (self w) /\
  exists cleaned,
    weather_data (self w') = Some cleaned /\
    In "rayonnement_solaire" (columns cleaned) /\
    forall r, In r (rows cleaned) ->
              non_negative (get r "rayonnement_solaire") /\
              exists t, get r "date" = Date t /\ dt_year t = 2024%Z.
Proof.
  unfold clean_data, bindM, get_self, the_frame, lift, set_weather_data, put_self,
    ret, raise. simpl.
  destruct (weather_data (self w)) as [weather|]; simpl; [|discriminate].
  destruct (filter_year weather "date" 2024) as [kept|e] eqn:Hkept; simpl; [|discriminate].
  destruct (getitem kept "rayonnement_solaire") as [col|e] eqn:Hcol; simpl; [|discriminate].
  destruct (mapM abs_cell col) as [fixed|e] eqn:Hfix; simpl; [|discriminate].
  intros H. injection H as <-. simpl. repeat split.
  eexists. split; [reflexivity|].
  unfold getitem in Hcol.
  destruct (has_column kept "rayonnement_solaire") eqn:Hhas; [|discriminate].
  injection Hcol as <-. split.
  { unfold setitem. simpl. rewrite Hhas. now apply mem_In. }
  intros r Hr. simpl in Hr. apply in_map_iff in Hr. destruct Hr as [[r0 v] [<- Hr0]].
  simpl. rewrite get_set_same, get_set_other by discriminate. split.
  - apply mapM_Forall2 in Hfix.
    assert (Hv : Forall2 (fun (a : row) b => abs_cell (get a "rayonnement_solaire") = Ok b)
                         (rows kept) fixed).
    { clear -Hfix. remember (map _ (rows kept)) as cs eqn:E. revert E.
      generalize (rows kept). induction Hfix; intros [|a rs] E; try discriminate.
      - constructor.
      - simpl in E. injection E as -> ->. constructor; auto. }
    apply (in_combine_Forall2 _ _ _ _ _ Hv) in Hr0.
    now apply abs_cell_non_negative in Hr0.
  - apply in_combine_l in Hr0.
    unfold filter_year, getitem in Hkept.
    destruct (has_column weather "date"); simpl in Hkept; [|discriminate].
    destruct (mapM (year_is 2024) _) as [mask|e] eqn:Hmask; simpl in Hkept; [|discriminate].
    injection Hkept as <-. simpl in Hr0.
    apply in_map_iff in Hr0. destruct Hr0 as [[r1 b] [E Hr1]]. simpl in E. subst r1.
    apply filter_In in Hr1. destruct Hr1 as [Hr1 Hb]. simpl in Hb. subst b.
    apply mapM_Forall2 in Hmask.
    assert (Hy : Forall2 (fun (a : row) b => year_is 2024 (get a "date") = Ok b)
                         (rows weather) mask).
    { clear -Hmask. remember (map _ (rows weather)) as cs eqn:E. revert E.
      generalize (rows weather). induction Hmask; intros [|a rs] E; try discriminate.
      - constructor.
      - simpl in E. injection E as -> ->. constructor; auto. }
    apply (in_combine_Forall2 _ _ _ _ _ Hy) in Hr1.
    unfold year_is in Hr1. destruct (get r0 "date") as [| | |t]; try discriminate.
    injection Hr1 as Hr1. apply Z.eqb_eq in Hr1. eauto.
Qed.

Lemma Qsum_nonneg (xs : list Q) : Forall (fun x => 0 <= x) xs -> 0 <= Qsum xs.
Proof.
  induction 1 as [|x xs Hx _ IH]; simpl; [apply Qle_refl|].
  change 0 with (0 + 0). now apply Qplus_le_compat.
Qed.

Lemma Qmean_nonneg (xs : list Q) : Forall (fun x => 0 <= x) xs -> 0 <= Qmean xs.
Proof.
  intros H. unfold Qmean, Qdiv. apply Qmult_le_0_compat; [now apply Qsum_nonneg|].
  apply Qinv_le_0_compat. unfold Qlen, Qle. simpl. lia.
Qed.

Lemma nums_non_negative (cs : list cell) :
  Forall non_negative cs -> Forall (fun x => 0 <= x) (nums cs).
Proof.
  induction 1 as [|c cs Hc _ IH]; simpl; [constructor|].
  destruct c; simpl in Hc; auto; contradiction.
Qed.

Lemma mean_cells_non_negative (cs : list cell) :
  Forall non_negative cs -> non_negative (mean_cells cs).
Proof.
  intros H. apply nums_non_negative in H. unfold mean_cells.
  destruct (nums cs) eqn:E; simpl; auto. now apply Qmean_nonneg.
Qed.

(** Resampling keeps a column free of negative numbers. *)
Lemma resample_non_negative (df out : DataFrame) (c : string) :
  resample_D_mean df = Ok out -> c <> "date" ->
  (forall r, In r (rows df) -> non_negative (get r c)) ->
  forall r, In r (rows out) -> non_negative (get r c).
Proof.
  intros Hres Hne Hsrc r Hr.
  destruct (resample_D_mean_rows _ _ Hres) as [_ Hrows].
  rewrite Hrows in Hr. apply in_map_iff in Hr. destruct Hr as [d [<- _]].
  rewrite daily_row_value by exact Hne.
  destruct (mem c _); simpl; auto.
  apply mean_cells_non_negative. apply Forall_forall. intros v Hv.
  apply in_map_iff in Hv. destruct Hv as [r [<- Hr]].
  rewrite rows_of_day_filter in Hr. apply filter_In in Hr. apply Hsrc. tauto.
Qed.

Lemma coerce_dates_rows (parse : string -> option Z) (weather : DataFrame) (c : string) :
  c <> "date" ->
  forall r, In r (rows (coerce_dates parse weather)) ->
            exists r0, In r0 (rows weather) /\ get r c = get r0 c.
Proof.
  intros Hne r Hr. unfold coerce_dates, setitem in Hr. simpl in Hr.
  apply in_map_iff in Hr. destruct Hr as [[r0 v] [<- Hr0]].
  apply in_combine_l in Hr0. exists r0. split; auto.
  simpl. apply get_set_other. congruence.
Qed.

(** [meteo_data_hourly_to_daily] always returns; the weather table is then
    the resampled one, or, after a failure, the table it had (its dates
    converted if the failure came later). *)
Lemma meteo_data_hourly_to_daily_cases (parse : string -> option Z) (w : world) :
  exists w',
    meteo_data_hourly_to_daily parse w = (Ok tt, w') /\
    disk w' = disk w /\
    monitoring_data (self w') = monitoring_data (self w) /\
    soil_data (self w') = soil_data (self w) /\
    yield_history (self w') = yield_history (self w) /\
    (weather_data (self w') = weather_data (self w) \/
     exists weather,
       weather_data (self w) = Some weather /\ has_column weather "date" = true /\
       (weather_data (self w') = Some (coerce_dates parse weather) \/
        exists out, resample_D_mean (coerce_dates parse weather) = Ok out /\
                    weather_data (self w') = Some out)).
Proof.
  unfold meteo_data_hourly_to_daily, try_except, bindM, get_self, the_frame, lift,
    set_weather_data, put_self, ret, raise, print. simpl.
  destruct (weather_data (self w)) as [weather|] eqn:Hw; simpl.
  2:{ eexists. split; [reflexivity|]. simpl. rewrite Hw. auto 10. }
  unfold getitem. destruct (has_column weather "date") eqn:Hdate; simpl.
  2:{ eexists. split; [reflexivity|]. simpl. rewrite Hw. auto 10. }
  fold (coerce_dates parse weather).
  destruct (resample_D_mean (coerce_dates parse weather)) as [out|e] eqn:Hres; simpl.
  - eexists. split; [reflexivity|]. simpl. repeat split; auto.
    right. exists weather. repeat split; auto. right. eauto.
  - eexists. split; [reflexivity|]. simpl. repeat split; auto.
    right. exists weather. repeat split; auto.
Qed.

Lemma coerce_dates_columns (parse : string -> option Z) (weather : DataFrame) :
  has_column weather "date" = true ->
  columns (coerce_dates parse weather) = columns weather.
Proof. intros H. unfold coerce_dates, setitem. simpl. now rewrite H. Qed.

(** The Temporal Normalizer leaves a weather table with a radiation
    column and no negative radiation. *)
Lemma normalized_weather (parse : string -> option Z) (w w1 w2 : world) :
  clean_data w = (Ok tt, w1) ->
  meteo_data_hourly_to_daily parse w1 = (Ok tt, w2) ->
  monitoring_data (self w2) = monitoring_data (self w) /\
  soil_data (self w2) = soil_data (self w) /\
  exists weather,
    weather_data (self w2) = Some weather /\
    In "rayonnement_solaire" (columns weather) /\
    forall r, In r (rows weather) -> non_negative (get r "rayonnement_solaire").
Proof.
  intros Hclean Hmeteo. apply clean_data_ok in Hclean.
  destruct Hclean as [Hm1 [Hs1 [cleaned [Hc [Hcol Hrows]]]]].
  destruct (meteo_data_hourly_to_daily_cases parse w1)
    as [w2' [Hrun [_ [Hm2 [Hs2 [_ Hcase]]]]]].
  rewrite Hmeteo in Hrun. injection Hrun as <-.
  split; [congruence|]. split; [congruence|].
  destruct Hcase as [Hsame|[weather [Hw [Hdate [Hconv|[out [Hres Hout]]]]]]].
  - exists cleaned. split; [congruence|]. split; auto. intros r Hr. now apply Hrows.
  - rewrite Hc in Hw. injection Hw as <-.
    exists (coerce_dates parse cleaned). split; auto. split.
    + now rewrite coerce_dates_columns.
    + intros r Hr. apply (coerce_dates_rows parse cleaned "rayonnement_solaire") in Hr;
        [|discriminate].
      destruct Hr as [r0 [Hr0 ->]]. now apply Hrows.
  - rewrite Hc in Hw. injection Hw as <-.
    exists out. split; auto. split.
    + destruct (resample_D_mean_rows _ _ Hres) as [-> _].
      right. apply In_without. rewrite coerce_dates_columns by exact Hdate.
      split; [exact Hcol|discriminate].
    + apply (resample_non_negative _ _ _ Hres); [discriminate|].
      intros r Hr. apply (coerce_dates_rows parse cleaned "rayonnement_solaire") in Hr;
        [|discriminate].
      destruct Hr as [r0 [Hr0 ->]]. now apply Hrows.
Qed.

(** ** The values of the normalized radiation *)

Lemma combine_map_self {A B C} (F : A * B -> C) (g : A -> B) (l : list A) :
  map F (combine l (map g l)) = map (fun a => F (a, g a)) l.
Proof. induction l as [|a l IH]; simpl; [reflexivity|]. now rewrite IH. Qed.

Lemma Forall2_map_l {A B C} (P : B -> C -> Prop) (f : A -> B) (l : list A) (k : list C) :
  Forall2 (fun a c => P (f a) c) l k -> Forall2 P (map f l) k.
Proof. induction 1; simpl; constructor; auto. Qed.

Lemma Forall2_weaken {A B} (P Q : A -> B -> Prop) (l : list A) (k : list B) :
  (forall a b, P a b -> Q a b) -> Forall2 P l k -> Forall2 Q l k.
Proof. intros H. induction 1; constructor; auto. Qed.

Lemma Forall2_filter {A B} (P : A -> B -> Prop) (p : A -> bool) (q : B -> bool)
      (l : list A) (k : list B) :
  (forall a b, P a b -> p a = q b) ->
  Forall2 P l k -> Forall2 P (filter p l) (filter q k).
Proof.
  intros Hpq. induction 1 as [|a b l k Hab _ IH]; simpl; [constructor|].
  rewrite (Hpq a b Hab). destruct (q b); [constructor|]; auto.
Qed.

Lemma Forall2_In_right {A B} (P : A -> B -> Prop) (l : list A) (k : list B) (b : B) :
  Forall2 P l k -> In b k -> exists a, In a l /\ P a b.
Proof.
  induction 1 as [|a b' l k Hab _ IH]; simpl; [contradiction|].
  intros [<-|Hb]; [exists a; auto|].
  destruct (IH Hb) as [a' [Ha' HP]]. exists a'. auto.
Qed.

Lemma Forall2_In_left {A B} (P : A -> B -> Prop) (l : list A) (k : list B) (a : A) :
  Forall2 P l k -> In a l -> exists b, In b k /\ P a b.
Proof.
  induction 1 as [|a' b l k Hab _ IH]; simpl; [contradiction|].
  intros [<-|Ha]; [exists b; auto|].
  destruct (IH Ha) as [b' [Hb' HP]]. exists b'. auto.
Qed.

Lemma Forall2_forallb {A B} (P : A -> B -> Prop) (p : A -> bool) (q : B -> bool)
      (l : list A) (k : list B) :
  (forall a b, P a b -> p a = q b) ->
  Forall2 P l k -> forallb p l = forallb q k.
Proof.
  intros Hpq. induction 1 as [|a b l k Hab _ IH]; simpl; [reflexivity|].
  now rewrite (Hpq a b Hab), IH.
Qed.

Lemma Forall2_swap_map {A B} (P : B -> A -> Prop) (f : A -> B) (l k : list A) :
  Forall2 (fun a x => P (f a) x) l k -> Forall2 (fun x b => P b x) k (map f l).
Proof. induction 1; simpl; constructor; auto. Qed.

Lemma sign_corrected_numeric (r x : row) (c : string) :
  sign_corrected r x -> is_numeric (get r c) = is_numeric (get x c).
Proof.
  intros [Hother Habs].
  destruct (string_dec c "rayonnement_solaire") as [->|Hne].
  - destruct (get x "rayonnement_solaire"); simpl in Habs; try discriminate;
      injection Habs as <-; reflexivity.
  - now rewrite Hother.
Qed.

Lemma sign_corrected_on_day (d : Z) (r x : row) :
  sign_corrected r x -> on_day d r = on_day d x.
Proof. intros [Hother _]. unfold on_day. now rewrite Hother by discriminate. Qed.

(** Rows of 2024 keep their date through [pd.to_datetime]. *)
Lemma coerce_dates_corrected (parse : string -> option Z) (cleaned : DataFrame)
      (kept : list row) :
  Forall (fun x => dated_in "date" 2024 x = true) kept ->
  Forall2 sign_corrected (rows cleaned) kept ->
  Forall2 sign_corrected (rows (coerce_dates parse cleaned)) kept.
Proof.
  intros Hkept H. unfold coerce_dates, setitem. cbn [rows].
  rewrite map_map.
  rewrite (combine_map_self (fun rv => set (fst rv) "date" (snd rv))
                            (fun r => to_datetime_coerce parse (get r "date"))).
  apply Forall2_map_l. cbn [fst snd].
  revert Hkept. induction H as [|r x l k [Hother Habs] _ IH]; intros Hkept;
    constructor.
  - inversion Hkept as [|? ? Hx _]; subst. unfold dated_in in Hx.
    assert (Hd : get r "date" = get x "date") by (apply Hother; discriminate).
    destruct (get x "date") as [| | |t] eqn:Ex; try discriminate.
    rewrite Hd. cbn [to_datetime_coerce]. split.
    + intros c Hc. destruct (string_dec c "date") as [->|Hne].
      * now rewrite get_set_same.
      * rewrite get_set_other by congruence. now apply Hother.
    + rewrite get_set_other by discriminate. exact Habs.
  - apply IH. now inversion Hkept.
Qed.

(** The resampling of a sign-corrected table of 2024 fails only on a
    column that is not numeric. *)
Lemma resample_corrected (df raw : DataFrame) :
  columns df = columns raw ->
  has_column raw "date" = true ->
  Forall2 sign_corrected (rows df) (filter (dated_in "date" 2024) (rows raw)) ->
  resample_D_mean df
  = if numeric_readings raw
    then Ok {| columns := "date" :: without "date" (columns raw);
               rows := map (daily_row (without "date" (columns raw))
                                      (dated_rows (rows df)))
                           (span (map fst (dated_rows (rows df)))) |}
    else Raise (TypeError "agg function failed [how->mean,dtype->object]").
Proof.
  intros Hcols Hdate Hrows.
  unfold resample_D_mean, getitem, has_column. rewrite Hcols.
  fold (has_column raw "date"). rewrite Hdate. cbn [bind].
  assert (Hindex : forallb is_datetime (map (fun r => get r "date") (rows df)) = true).
  { apply forallb_forall. intros c Hc. apply in_map_iff in Hc.
    destruct Hc as [r [<- Hr]].
    destruct (Forall2_In_left _ _ _ _ Hrows Hr) as [x [Hx [Hother _]]].
    apply filter_In in Hx. destruct Hx as [_ Hx]. unfold dated_in in Hx.
    rewrite Hother by discriminate. now destruct (get x "date"). }
  rewrite Hindex. cbn [negb].
  fold (without "date" (columns raw)).
  assert (Hnum : forallb (fun c => forallb (fun r => is_numeric (get r c)) (rows df))
                         (without "date" (columns raw))
                 = numeric_readings raw).
  { unfold numeric_readings. apply forallb_ext_In. intros c _.
    apply (Forall2_forallb sign_corrected); [|exact Hrows].
    intros r x H. now apply sign_corrected_numeric. }
  rewrite Hnum. destruct (numeric_readings raw); reflexivity.
Qed.

(** The weather table that Loader and Normalizer leave.  When the readings
    of 2024 are numeric it has a row for each day of their span, with the
    mean of the absolute values of the day's readings; otherwise the
    resampling fails and the table keeps the readings of 2024, each with
    the absolute value of its radiation. *)
Lemma normalized_radiation (parse : string -> option Z) (w0 w1 w2 : world)
      (raw : DataFrame) :
  weather_data (self w0) = Some raw ->
  clean_data w0 = (Ok tt, w1) ->
  meteo_data_hourly_to_daily parse w1 = (Ok tt, w2) ->
  exists weather,
    weather_data (self w2) = Some weather /\
    if numeric_readings raw
    then (forall r, In r (rows weather) ->
                    exists d, get r "date" = Date (midnight d) /\
                              daily_radiation raw d (get r "rayonnement_solaire")) /\
         (forall x, In x (rows raw) -> dated_in "date" 2024 x = true ->
                    exists r d, In r (rows weather) /\ on_day d x = true /\
                                get r "date" = Date (midnight d))
    else Forall2 sign_corrected (rows weather)
                 (filter (dated_in "date" 2024) (rows raw)).
Proof.
  intros Hraw Hclean Hmeteo. apply clean_data_run in Hclean.
  destruct Hclean as [raw' [fixed [Hraw' [Hdate [Hrad [Hfix ->]]]]]].
  rewrite Hraw in Hraw'. injection Hraw' as <-.
  set (kept := filter (dated_in "date" 2024) (rows raw)) in *.
  set (cleaned := setitem {| columns := columns raw; rows := kept |}
                          "rayonnement_solaire" fixed) in *.
  assert (Hccols : columns cleaned = columns raw).
  { unfold cleaned, setitem, has_column. cbn [columns].
    fold (has_column raw "rayonnement_solaire"). now rewrite Hrad. }
  assert (Hcdate : has_column cleaned "date" = true).
  { unfold has_column. rewrite Hccols. exact Hdate. }
  assert (Hc : Forall2 sign_corrected (rows cleaned) kept).
  { unfold cleaned, setitem. cbn [rows]. apply Forall2_map_combine.
    - now apply mapM_length in Hfix.
    - intros x v Hin. cbn [fst snd]. split.
      + intros c Hne. apply get_set_other. congruence.
      + rewrite get_set_same. apply mapM_Forall2 in Hfix.
        apply (in_combine_Forall2 _ _ _ _ _ Hfix Hin). }
  assert (Hkept : Forall (fun x => dated_in "date" 2024 x = true) kept).
  { apply Forall_forall. intros x Hx. apply filter_In in Hx. tauto. }
  assert (Hcd : Forall2 sign_corrected (rows (coerce_dates parse cleaned)) kept)
    by now apply coerce_dates_corrected.
  assert (Hres := resample_corrected (coerce_dates parse cleaned) raw).
  rewrite coerce_dates_columns in Hres by exact Hcdate.
  specialize (Hres Hccols Hdate Hcd).
  set (w1 := {| self := with_weather (self w0) (Some cleaned);
                disk := disk w0; stdout := stdout w0 |}) in *.
  assert (Hw1 : weather_data (self w1) = Some cleaned) by reflexivity.
  destruct (numeric_readings raw).
  - rewrite (meteo_data_hourly_to_daily_run parse w1 cleaned _ Hw1 Hcdate Hres)
      in Hmeteo.
    injection Hmeteo as <-. eexists. split; [reflexivity|]. cbn [rows]. split.
    + intros r Hr. apply in_map_iff in Hr. destruct Hr as [d [<- _]].
      exists d. split; [apply daily_row_date|].
      rewrite daily_row_value by discriminate.
      rewrite mem_without by discriminate.
      replace (mem "rayonnement_solaire" (columns raw)) with true
        by (symmetry; exact Hrad).
      rewrite rows_of_day_filter.
      exists (map (fun r => get r "rayonnement_solaire")
                  (filter (on_day d) (rows (coerce_dates parse cleaned)))).
      split; [|reflexivity].
      unfold readings_of_day. rewrite <- filter_andb. fold kept.
      apply (Forall2_swap_map (fun v x => abs_cell (get x "rayonnement_solaire") = Ok v)).
      eapply Forall2_weaken;
        [|apply (Forall2_filter sign_corrected (on_day d) (on_day d));
          [intros a b; apply sign_corrected_on_day|exact Hcd]].
      intros a b [_ H]. exact H.
    + intros x Hx H2024.
      assert (Hk : In x kept) by (apply filter_In; auto).
      destruct (Forall2_In_right _ _ _ _ Hcd Hk) as [r [Hr Hrx]].
      unfold dated_in in H2024.
      destruct (get x "date") as [| | |t] eqn:Ex; try discriminate.
      assert (Hon : on_day (day_of t) x = true)
        by (unfold on_day; rewrite Ex; apply Z.eqb_refl).
      exists (daily_row (without "date" (columns raw))
                        (dated_rows (rows (coerce_dates parse cleaned))) (day_of t)),
        (day_of t).
      split; [|split; [exact Hon|apply daily_row_date]].
      apply in_map. apply span_In. exists (day_of t), (day_of t).
      assert (Hin : In (day_of t)
                       (map fst (dated_rows (rows (coerce_dates parse cleaned))))).
      { apply dated_rows_days. exists r. split; [exact Hr|].
        now rewrite (sign_corrected_on_day _ _ _ Hrx). }
      repeat split; auto; lia.
  - destruct (meteo_data_hourly_to_daily_cases parse w1)
      as [w2' [Hrun [_ [_ [_ [_ Hcase]]]]]].
    rewrite Hmeteo in Hrun. injection Hrun as <-.
    destruct Hcase as [Hsame|[weather [Hw [_ [Hconv|[out [Hout _]]]]]]].
    + exists cleaned. split; [now rewrite Hsame|exact Hc].
    + rewrite Hw1 in Hw. injection Hw as <-. eexists. split; [exact Hconv|exact Hcd].
    + rewrite Hw1 in Hw. injection Hw as <-. rewrite Hres in Hout. discriminate.
Qed.

(** ** The joined feature table *)

Section Features.

Variable S : Sorter.
Variable fsqrt : Q -> Q.
Variable parse : string -> option Z.


Lemma pipeline_success (w w' : world) (data : DataFrame) :
  pipeline S fsqrt parse w = (Ok (Some data), w') ->
  exists w0 w1 w2,
    load_data w = (Ok tt, w0) /\
    clean_data w0 = (Ok tt, w1) /\
    meteo_data_hourly_to_daily parse w1 = (Ok tt, w2) /\
    prepare_features S fsqrt w2 = (Ok (Some data), w').
Proof.
  unfold pipeline. unfold bindM at 1.
  destruct (load_data w) as [[[]|e] w0] eqn:Hl; [|discriminate].
  unfold bindM at 1.
  destruct (clean_data w0) as [[[]|e] w1] eqn:Hc; [|discriminate].
  unfold bindM at 1.
  destruct (meteo_data_hourly_to_daily parse w1) as [[[]|e] w2] eqn:Hd; [|discriminate].
  intros H. exists w0, w1, w2. repeat split; auto.
Qed.

(** After Loader, Normalizer and Joiner no radiation cell holds a negative
    number, neither in the normalized weather table nor in the feature
    rows: means and joins keep the sign. *)
Lemma pipeline_radiation_signs (w w' : world) (data : DataFrame) :
  pipeline S fsqrt parse w = (Ok (Some data), w') ->
  (forall monitoring, monitoring_data (self w') = Some monitoring ->
                      ~ In "rayonnement_solaire" (columns monitoring)) ->
  (forall soil, soil_data (self w') = Some soil ->
                ~ In "rayonnement_solaire" (columns soil)) ->
  (exists weather,
      weather_data (self w') = Some weather /\
      In "rayonnement_solaire" (columns weather) /\
      forall r, In r (rows weather) -> non_negative (get r "rayonnement_solaire")) /\
  forall r, In r (rows data) -> non_negative (get r "rayonnement_solaire").
Proof.
  intros Hrun Hmon Hsoil. apply pipeline_success in Hrun.
  destruct Hrun as [w0 [w1 [w2 [_ [Hclean [Hmeteo Hprep]]]]]].
  destruct (normalized_weather parse w0 w1 w2 Hclean Hmeteo)
    as [_ [_ [weather [Hw [Hcol Hrows]]]]].
  assert (Hinv := prepare_features_success S fsqrt w2 w' data Hprep).
  destruct Hinv as [monitoring [weather' [soil [ms [ws [joined [merged [enriched H]]]]]]]].
  destruct H as [Hm2 [Hw2 [Hs2 [Hms [Hws [_ [_ [_ [_ [_ [Hm' [Hw' Hs']]]]]]]]]]]].
  rewrite Hw in Hw2. injection Hw2 as <-.
  apply sort_values_ok in Hms, Hws.
  destruct Hms as [Hmscols _]. destruct Hws as [Hwscols Hwsperm].
  split.
  { exists ws. split; [exact Hw'|]. split; [now rewrite Hwscols|].
    intros r Hr. apply Hrows.
    eapply Permutation_in; [apply Permutation_sym; exact Hwsperm|exact Hr]. }
  apply prepare_features_provenance in Hprep.
  destruct Hprep as [monitoring' [weather' [soil' [Hm3 [Hw3 [Hs3 [_ Hprov]]]]]]].
  rewrite Hm2 in Hm3. injection Hm3 as <-.
  rewrite Hw in Hw3. injection Hw3 as <-.
  rewrite Hs2 in Hs3. injection Hs3 as <-.
  intros r Hr. destruct (Hprov r Hr) as [m [p [_ [Hnear Hcols]]]].
  assert (Hnm : ~ In "rayonnement_solaire" (columns monitoring)).
  { rewrite <- Hmscols. now apply Hmon. }
  assert (Hns : ~ In "rayonnement_solaire" (columns soil)) by now apply Hsoil.
  destruct (Hcols "rayonnement_solaire" eq_refl (or_intror Hns)) as [_ Hright].
  rewrite Hright; auto; [|discriminate].
  destruct p as [wr|]; simpl; auto.
  simpl in Hnear. apply Hrows. tauto.
Qed.

(** C4 (as amended): the values of the radiation after Loader, Normalizer
    and Joiner.  The sign correction of [clean_data] runs before the
    resampling and before the as-of join.  When the readings of 2024 are
    numeric, every row of the normalized weather table is a calendar day
    and holds the mean of the absolute values of the raw readings of 2024
    of that day (missing on a day of the span without a value), and every
    raw reading of 2024 has the row of its day; so a day whose readings are
    -3.0 holds 3.0.  Otherwise the resampling fails and the table keeps the
    readings of 2024, each with the absolute value of its radiation.  In
    both cases no radiation cell of the table holds a negative number.
    Every feature row carries the radiation cell of the weather row nearest
    in date to its monitoring row, empty days of the span included: hence a
    missing value or a number that is not negative, and not always the
    corrected value of the nearest reading.  The radiation column is the
    weather table's: the monitoring and soil tables have no column of that
    name. *)
Theorem radiation_sign_corrected (w w' : world) (data : DataFrame) :
  pipeline S fsqrt parse w = (Ok (Some data), w') ->
  (forall monitoring, monitoring_data (self w') = Some monitoring ->
                      ~ In "rayonnement_solaire" (columns monitoring)) ->
  (forall soil, soil_data (self w') = Some soil ->
                ~ In "rayonnement_solaire" (columns soil)) ->
  exists w0 raw weather monitoring,
    load_data w = (Ok tt, w0) /\
    weather_data (self w0) = Some raw /\
    weather_data (self w') = Some weather /\
    monitoring_data (self w') = Some monitoring /\
    In "rayonnement_solaire" (columns weather) /\
    (if numeric_readings raw
     then (forall r, In r (rows weather) ->
                     exists d, get r "date" = Date (midnight d) /\
                               daily_radiation raw d (get r "rayonnement_solaire")) /\
          (forall x, In x (rows raw) -> dated_in "date" 2024 x = true ->
                     exists r d, In r (rows weather) /\ on_day d x = true /\
                                 get r "date" = Date (midnight d))
     else exists hourly,
         Permutation hourly (rows weather) /\
         Forall2 sign_corrected hourly (filter (dated_in "date" 2024) (rows raw))) /\
    (forall r, In r (rows weather) -> non_negative (get r "rayonnement_solaire")) /\
    (forall r, In r (rows data) ->
               exists m p,
                 In m (rows monitoring) /\ nearest_to "date" (rows weather) m p /\
                 get r "rayonnement_solaire" = matched p "rayonnement_solaire") /\
    forall r, In r (rows data) -> non_negative (get r "rayonnement_solaire").
Proof.
  intros Hrun Hmon Hsoil.
  destruct (pipeline_radiation_signs w w' data Hrun Hmon Hsoil)
    as [[weather [Hw' [Hcol Hsign]]] Hdata].
  apply pipeline_success in Hrun.
  destruct Hrun as [w0 [w1 [w2 [Hload [Hclean [Hmeteo Hprep]]]]]].
  destruct (clean_data_run w0 w1 Hclean) as [raw [_ [Hraw _]]].
  destruct (normalized_radiation parse w0 w1 w2 raw Hraw Hclean Hmeteo)
    as [weather2 [Hw2 Hvalues]].
  assert (Hinv := prepare_features_success S fsqrt w2 w' data Hprep).
  destruct Hinv as [monitoring2 [weather2' [soil [ms [ws [joined [merged [enriched H]]]]]]]].
  destruct H as [Hm2 [Hw2' [Hs2 [Hms [Hws [_ [_ [_ [_ [_ [Hm' [Hws' Hs']]]]]]]]]]]].
  rewrite Hw2 in Hw2'. injection Hw2' as <-.
  rewrite Hw' in Hws'. injection Hws' as <-.
  apply sort_values_ok in Hms, Hws.
  destruct Hms as [Hmscols Hmsperm]. destruct Hws as [Hwscols Hwsperm].
  exists w0, raw, weather, ms.
  split; [exact Hload|]. split; [exact Hraw|]. split; [exact Hw'|].
  split; [exact Hm'|]. split; [exact Hcol|]. split; [|split; [exact Hsign|split]].
  - destruct (numeric_readings raw).
    + destruct Hvalues as [Hrows Hall]. split.
      * intros r Hr. apply Hrows.
        eapply Permutation_in; [apply Permutation_sym; exact Hwsperm|exact Hr].
      * intros x Hx H2024. destruct (Hall x Hx H2024) as [r [d [Hr H]]].
        exists r, d. split; [|exact H].
        eapply Permutation_in; [exact Hwsperm|exact Hr].
    + exists (rows weather2). split; [exact Hwsperm|exact Hvalues].
  - apply prepare_features_provenance in Hprep.
    destruct Hprep as [monitoring3 [weather3 [soil3 [Hm3 [Hw3 [Hs3 [_ Hprov]]]]]]].
    rewrite Hm2 in Hm3. injection Hm3 as <-.
    rewrite Hw2 in Hw3. injection Hw3 as <-.
    rewrite Hs2 in Hs3. injection Hs3 as <-.
    intros r Hr. destruct (Hprov r Hr) as [m [p [Hm [Hnear Hcols]]]].
    exists m, p. split.
    { eapply Permutation_in; [exact Hmsperm|exact Hm]. }
    split.
    { apply (nearest_to_perm _ _ _ _ _ (Permutation_sym Hwsperm)). exact Hnear. }
    assert (Hns : ~ In "rayonnement_solaire" (columns soil)) by now apply Hsoil.
    destruct (Hcols "rayonnement_solaire" eq_refl (or_intror Hns)) as [_ Hright].
    apply Hright.
    + rewrite <- Hmscols. now apply Hmon.
    + now rewrite <- Hwscols.
    + discriminate.
  - exact Hdata.
Qed.

End Features.

(** ** A run of the whole pipeline *)


Lemma radiation_sign_corrected_witness :
  exists data w' weather,
    pipeline insertion_sorter Qsqrt no_parse scenario_world = (Ok (Some data), w') /\
    weather_data (self w') = Some weather /\
    (exists r, In r (rows weather) /\ get r "date" = Date (midnight (d0 - 1)) /\
               daily_radiation scenario_weather (d0 - 1) (get r "rayonnement_solaire") /\
               exists q, get r "rayonnement_solaire" = Num q /\ q == 3) /\
    (forall r, In r (rows weather) -> non_negative (get r "rayonnement_solaire")) /\
    (forall r, In r (rows data) -> non_negative (get r "rayonnement_solaire")) /\
    exists r, In r (rows data) /\ get r "date" = Date (midnight (d0 - 1)) /\
              exists q, get r "rayonnement_solaire" = Num q /\ q == 3.
Proof.
  assert (Hdata : exists data,
             fst (pipeline insertion_sorter Qsqrt no_parse scenario_world)
             = Ok (Some data) /\
             exists r, In r (rows data) /\ get r "date" = Date (midnight (d0 - 1)) /\
                       exists q, get r "rayonnement_solaire" = Num q /\ q == 3).
  { vm_compute. eexists. split; [reflexivity|].
    eexists. split; [left; reflexivity|]. split; [reflexivity|].
    eexists. split; reflexivity. }
  destruct Hdata as [data [Hfst Hjoined]].
  destruct (pipeline insertion_sorter Qsqrt no_parse scenario_world)
    as [res w'] eqn:Hrun.
  cbn [fst] in Hfst. subst res.
  assert (Hself : self w' = self (snd (pipeline insertion_sorter Qsqrt no_parse
                                                scenario_world)))
    by (now rewrite Hrun).
  assert (Hmon : forall monitoring, monitoring_data (self w') = Some monitoring ->
                                    ~ In "rayonnement_solaire" (columns monitoring)).
  { intros monitoring Hm. rewrite Hself in Hm.
    assert (E : monitoring_data (self (snd (pipeline insertion_sorter Qsqrt no_parse
                                                     scenario_world)))
                = Some {| columns := columns scenario_monitoring;
                          rows := rev (rows scenario_monitoring) |})
      by (vm_compute; reflexivity).
    rewrite E in Hm. injection Hm as <-. simpl. intuition discriminate. }
  assert (Hsoil : forall soil, soil_data (self w') = Some soil ->
                               ~ In "rayonnement_solaire" (columns soil)).
  { intros soil Hs. rewrite Hself in Hs.
    assert (E : soil_data (self (snd (pipeline insertion_sorter Qsqrt no_parse
                                               scenario_world)))
                = Some scenario_soil) by (vm_compute; reflexivity).
    rewrite E in Hs. injection Hs as <-. simpl. intuition discriminate. }
  destruct (radiation_sign_corrected insertion_sorter Qsqrt no_parse
              scenario_world w' data Hrun Hmon Hsoil)
    as [w0 [raw [weather [monitoring H]]]].
  destruct H as [Hload [Hraw [Hw [_ [_ [Hvalues [Hsign [_ Hnonneg]]]]]]]].
  assert (Eraw : weather_data (self (snd (load_data scenario_world)))
                 = Some scenario_weather) by (vm_compute; reflexivity).
  rewrite Hload in Eraw. cbn [snd] in Eraw. rewrite Eraw in Hraw.
  injection Hraw as <-.
  assert (En : numeric_readings scenario_weather = true) by (vm_compute; reflexivity).
  rewrite En in Hvalues. destruct Hvalues as [Hrows Hall].
  exists data, w', weather. split; [reflexivity|]. split; [exact Hw|].
  split; [|split; [exact Hsign|split; [exact Hnonneg|exact Hjoined]]].
  set (x := [("date", Date (midnight (d0 - 1) + 6 * hour));
             ("rayonnement_solaire", Num (-3)); ("temperature", Num 10)]).
  destruct (Hall x) as [r [d [Hr [Hon Hdate]]]];
    [simpl; auto|vm_compute; reflexivity|].
  assert (Hd : d = (d0 - 1)%Z).
  { unfold on_day in Hon. change (get x "date") with (Date (midnight (d0 - 1) + 6 * hour)) in Hon.
    apply Z.eqb_eq in Hon. rewrite <- Hon. vm_compute. reflexivity. }
  subst d. exists r. split; [exact Hr|]. split; [exact Hdate|].
  destruct (Hrows r Hr) as [d' [Hdate' Hvalue]].
  assert (Hdd : midnight (d0 - 1) = midnight d') by congruence.
  apply midnight_inj in Hdd.
  subst d'. split; [exact Hvalue|].
  destruct Hvalue as [fixed [Hfixed ->]].
  assert (Er : readings_of_day scenario_weather (d0 - 1)
               = [x; [("date", Date (midnight (d0 - 1) + 18 * hour));
                      ("rayonnement_solaire", Num (-3)); ("temperature", Num 14)]])
    by (vm_compute; reflexivity).
  rewrite Er in Hfixed.
  inversion Hfixed as [|? a1 ? l1 H1 Hfixed1]; subst.
  inversion Hfixed1 as [|? a2 ? l2 H2 Hfixed2]; subst.
  inversion Hfixed2; subst.
  injection H1 as <-. injection H2 as <-.
  eexists. split; reflexivity.
Defined.

(** C4, as stated, fails on the scenario of the specification: the raw
    reading of -3.0 on the eve of [d0] is corrected to 3.0 in the normalized
    weather table, but the resampling adds the days between the eve and
    [d0 + 2] with a missing radiation, the row of [d0] is the nearest to the
    monitoring row, and the joined row holds a missing radiation, not
    3.0. *)
Lemma joined_row_without_correction :
  exists data w' weather,
    pipeline insertion_sorter Qsqrt no_parse spec_world = (Ok (Some data), w') /\
    weather_data (self w') = Some weather /\
    map (fun r => (get r "date", get r "rayonnement_solaire")) (rows weather)
    = [(Date (midnight (d0 - 1)), Num 3); (Date (midnight d0), NA);
       (Date (midnight (d0 + 1)), NA); (Date (midnight (d0 + 2)), Num 5)] /\
    map (fun r => (get r "parcelle_id", get r "date", get r "rayonnement_solaire"))
        (rows data)
    = [(Str "P001", Date (midnight d0), NA)].
Proof.
  assert (Hdata : exists data,
             fst (pipeline insertion_sorter Qsqrt no_parse spec_world)
             = Ok (Some data) /\
             map (fun r => (get r "parcelle_id", get r "date",
                            get r "rayonnement_solaire")) (rows data)
             = [(Str "P001", Date (midnight d0), NA)]).
  { vm_compute. eexists. split; reflexivity. }
  assert (Hweather : exists weather,
             weather_data (self (snd (pipeline insertion_sorter Qsqrt no_parse
                                               spec_world))) = Some weather /\
             map (fun r => (get r "date", get r "rayonnement_solaire")) (rows weather)
             = [(Date (midnight (d0 - 1)), Num 3); (Date (midnight d0), NA);
                (Date (midnight (d0 + 1)), NA); (Date (midnight (d0 + 2)), Num 5)]).
  { vm_compute. eexists. split; reflexivity. }
  destruct Hdata as [data [Hfst Hrows]]. destruct Hweather as [weather [Hw Hvalues]].
  destruct (pipeline insertion_sorter Qsqrt no_parse spec_world) as [res w'].
  cbn [fst] in Hfst. cbn [snd] in Hw. subst res.
  exists data, w', weather. repeat split; assumption.
Qed.


(** * Further properties *)

(** ** The scored table *)

Lemma scale_column_length (fsqrt : Q -> Q) (xs : list Q) :
  List.length (scale_column fsqrt xs) = List.length xs.
Proof. unfold scale_column. apply length_map. Qed.

Lemma fit_transform_length (fsqrt : Q -> Q) (X : list (cell * cell * cell))
      (zs : list (Q * Q * Q)) :
  fit_transform fsqrt X = Ok zs -> List.length zs = List.length X /\ X <> [].
Proof.
  unfold fit_transform. destruct X as [|x X]; [intros H; discriminate H|].
  destruct (mapM (fun x0 => as_float (fst (fst x0))) (x :: X)) as [c0|] eqn:E0;
    cbn [bind]; [|intros H; discriminate H].
  destruct (mapM (fun x0 => as_float (snd (fst x0))) (x :: X)) as [c1|] eqn:E1;
    cbn [bind]; [|intros H; discriminate H].
  destruct (mapM (fun x0 => as_float (snd x0)) (x :: X)) as [c2|] eqn:E2;
    cbn [bind]; [|intros H; discriminate H].
  intros H. injection H as <-.
  apply mapM_length in E0, E1, E2.
  rewrite !length_combine, !scale_column_length, E0, E1, E2.
  split; [lia|discriminate].
Qed.


(** What a successful scoring returns: the complete rows of the input, in
    order, each with its two risk cells set and every other cell as it was;
    the input columns in place, the risk columns present. *)
Lemma risk_metrics_body_scored (fsqrt : Q -> Q) (data scored : DataFrame) :
  snd (risk_metrics_body fsqrt data) = Ok scored ->
  exists zs,
    fit_transform fsqrt
      (map (fun r => (get r "rendement", get r "ph", get r "matiere_organique"))
           (filter complete (rows data))) = Ok zs /\
    List.length zs = List.length (filter complete (rows data)) /\
    rows scored
    = map (fun rz => set (set (fst rz) "risk_index" (Num (risk_index_of (snd rz))))
                         "risk_category"
                         (risk_category_of (Num (risk_index_of (snd rz)))))
          (combine (filter complete (rows data)) zs) /\
    columns scored
    = columns (setitem (setitem data "risk_index" []) "risk_category" []) /\
    forall c, In c required_columns -> has_column data c = true.
Proof.
  intros H. unfold risk_metrics_body in H.
  destruct (find _ required_columns) eqn:Hfind; [discriminate H|].
  change (dropna required_columns data)
    with {| columns := columns data; rows := filter complete (rows data) |} in H.
  cbn [rows] in H.
  destruct (fit_transform _ _) as [zs|e] eqn:Hfit; [|discriminate H].
  cbn [snd] in H. injection H as <-. exists zs.
  split; [reflexivity|].
  destruct (fit_transform_length _ _ _ Hfit) as [Hlen _].
  rewrite length_map in Hlen. split; [exact Hlen|]. split; [|split].
  - cbn [rows setitem].
    rewrite (combine_map_combine
               (fun rv : row * cell => set (fst rv) "risk_index" (snd rv))
               risk_category_of).
    rewrite combine_map_r, !map_map. reflexivity.
  - reflexivity.
  - intros c Hc. apply (find_none _ _ Hfind) in Hc.
    now apply negb_false_iff in Hc.
Qed.

Lemma has_column_In (df : DataFrame) (c : string) :
  has_column df c = true <-> In c (columns df).
Proof. apply mem_In. Qed.

Lemma setitem_columns (df : DataFrame) (c : string) (vals : list cell) :
  (forall c', In c' (columns (setitem df c vals)) <-> In c' (columns df) \/ c' = c) /\
  firstn (List.length (columns df)) (columns (setitem df c vals)) = columns df.
Proof.
  unfold setitem. cbn [columns].
  destruct (has_column df c) eqn:E.
  - apply has_column_In in E. split.
    + intros c'. split; [auto|]. intros [H | ->]; auto.
    + apply firstn_all.
  - split.
    + intros c'. rewrite in_app_iff. simpl. intuition.
    + rewrite firstn_app, Nat.sub_diag, firstn_all. simpl. apply app_nil_r.
Qed.

Lemma scored_table_of_body (fsqrt : Q -> Q) (data scored : DataFrame) :
  snd (risk_metrics_body fsqrt data) = Ok scored ->
  calculate_risk_metrics fsqrt data
  = (scored, ["Risk metrics added to the dataset successfully."]) /\
  Forall2 (fun r r0 =>
             (forall c, c <> "risk_index" -> c <> "risk_category" -> get r c = get r0 c) /\
             exists x, get r "risk_index" = Num x /\
                       get r "risk_category" = risk_category_of (Num x))
          (rows scored) (filter complete (rows data)) /\
  (forall c, In c (columns scored) <->
             In c (columns data) \/ c = "risk_index" \/ c = "risk_category") /\
  firstn (List.length (columns data)) (columns scored) = columns data.
Proof.
  intros Hbody. split.
  { unfold calculate_risk_metrics.
    destruct (risk_metrics_body fsqrt data) as [cur res]. simpl in Hbody.
    now subst res. }
  destruct (risk_metrics_body_scored fsqrt data scored Hbody)
    as [zs [_ [Hlen [Hrows [Hcols _]]]]].
  split.
  { rewrite Hrows. apply Forall2_map_combine; [exact Hlen|].
    intros r0 z _. cbn [fst snd]. split.
    - intros c H1 H2. rewrite !get_set_other; auto.
    - exists (risk_index_of z).
      rewrite get_set_other, !get_set_same by discriminate. auto. }
  rewrite Hcols.
  destruct (setitem_columns data "risk_index" []) as [Hin1 Hpre1].
  destruct (setitem_columns (setitem data "risk_index" []) "risk_category" [])
    as [Hin2 Hpre2].
  split.
  - intros c. rewrite Hin2, Hin1. tauto.
  - rewrite <- Hpre1 at 2. rewrite <- Hpre2.
    rewrite firstn_firstn. f_equal.
    assert (Hle : (List.length (columns data)
                   <= List.length (columns (setitem data "risk_index" [])))%nat).
    { rewrite <- Hpre1 at 1. rewrite length_firstn. lia. }
    lia.
Qed.

Lemma mapM_as_float_ok {A} (f : A -> cell) (l : list A) :
  Forall (fun a => is_num (f a) = true) l ->
  exists qs, mapM (fun a => as_float (f a)) l = Ok qs.
Proof.
  induction 1 as [|a l Ha _ [qs IH]]; simpl; [eauto|].
  destruct (f a); try discriminate. simpl. rewrite IH. simpl. eauto.
Qed.

Lemma fit_transform_ok (fsqrt : Q -> Q) (X : list (cell * cell * cell)) :
  X <> [] ->
  Forall (fun x => is_num (fst (fst x)) = true /\ is_num (snd (fst x)) = true /\
                   is_num (snd x) = true) X ->
  exists zs, fit_transform fsqrt X = Ok zs.
Proof.
  intros Hne Hnum. unfold fit_transform. destruct X as [|x X]; [contradiction|].
  destruct (mapM_as_float_ok (fun x0 : cell * cell * cell => fst (fst x0)) (x :: X))
    as [c0 ->].
  { eapply Forall_impl; [|exact Hnum]. intros a (H0 & H1 & H2); assumption. }
  destruct (mapM_as_float_ok (fun x0 : cell * cell * cell => snd (fst x0)) (x :: X))
    as [c1 ->].
  { eapply Forall_impl; [|exact Hnum]. intros a (H0 & H1 & H2); assumption. }
  destruct (mapM_as_float_ok (fun x0 : cell * cell * cell => snd x0) (x :: X))
    as [c2 ->].
  { eapply Forall_impl; [|exact Hnum]. intros a (H0 & H1 & H2); assumption. }
  simpl. eauto.
Qed.

Lemma risk_metrics_body_succeeds (fsqrt : Q -> Q) (data : DataFrame) :
  (forall c, In c required_columns -> In c (columns data)) ->
  filter complete (rows data) <> [] ->
  Forall (fun r => scorable r = true) (filter complete (rows data)) ->
  exists scored, snd (risk_metrics_body fsqrt data) = Ok scored.
Proof.
  intros Hcols Hne Hnum. unfold risk_metrics_body.
  destruct (find _ required_columns) as [col|] eqn:Hfind.
  { apply find_some in Hfind. destruct Hfind as [Hin Hneg].
    apply Hcols, has_column_In in Hin. rewrite Hin in Hneg. discriminate. }
  change (dropna required_columns data)
    with {| columns := columns data; rows := filter complete (rows data) |}.
  cbn [rows].
  destruct (fit_transform_ok fsqrt
              (map (fun r => (get r "rendement", get r "ph", get r "matiere_organique"))
                   (filter complete (rows data)))) as [zs ->].
  - destruct (filter complete (rows data)); [contradiction|discriminate].
  - apply Forall_map. eapply Forall_impl; [|exact Hnum].
    intros r Hr. unfold scorable in Hr. cbn [fst snd].
    apply andb_true_iff in Hr. destruct Hr as [H1 Hr].
    apply andb_true_iff in Hr. tauto.
  - cbn [snd]. eauto.
Qed.

(** The scorer printed its success line exactly when its [try] block ran
    to the end. *)
Lemma calculate_risk_metrics_scored (fsqrt : Q -> Q) (data scored : DataFrame) :
  calculate_risk_metrics fsqrt data
  = (scored, ["Risk metrics added to the dataset successfully."]) <->
  snd (risk_metrics_body fsqrt data) = Ok scored.
Proof.
  unfold calculate_risk_metrics.
  destruct (risk_metrics_body fsqrt data) as [cur [out|e]]; cbn [snd]; split; intros H.
  - now injection H as <-.
  - now injection H as <-.
  - injection H as _ H. discriminate H.
  - discriminate H.
Qed.

(** X1: when every required column is there, some row has a value in each
    of them and these rows hold numbers for yield, pH and organic matter,
    the scorer prints its success line and returns exactly those rows, in
    their order; each keeps all its cells and gains a numeric [risk_index]
    and the category of that index.  The columns of the input stay in place
    and the two risk columns are present (appended when they were not
    there). *)
Theorem scored_table (fsqrt : Q -> Q) (data : DataFrame) :
  (forall c, In c required_columns -> In c (columns data)) ->
  filter complete (rows data) <> [] ->
  Forall (fun r => scorable r = true) (filter complete (rows data)) ->
  exists scored,
    calculate_risk_metrics fsqrt data
    = (scored, ["Risk metrics added to the dataset successfully."]) /\
    Forall2 (fun r r0 =>
               (forall c, c <> "risk_index" -> c <> "risk_category" -> get r c = get r0 c) /\
               exists x, get r "risk_index" = Num x /\
                         get r "risk_category" = risk_category_of (Num x))
            (rows scored) (filter complete (rows data)) /\
    (forall c, In c (columns scored) <->
               In c (columns data) \/ c = "risk_index" \/ c = "risk_category") /\
    firstn (List.length (columns data)) (columns scored) = columns data.
Proof.
  intros Hcols Hne Hnum.
  destruct (risk_metrics_body_succeeds fsqrt data Hcols Hne Hnum) as [scored Hbody].
  exists scored. now apply scored_table_of_body.
Qed.

(** ** The balance of the risk indices *)

Lemma Qlen_cons (x : Q) (xs : list Q) : Qlen (x :: xs) == 1 + Qlen xs.
Proof.
  unfold Qlen. cbn [List.length].
  rewrite Nat2Z.inj_succ, <- Z.add_1_l, inject_Z_plus. reflexivity.
Qed.

Lemma Qlen_pos (xs : list Q) : xs <> [] -> 0 < Qlen xs.
Proof.
  destruct xs as [|x xs]; [contradiction|]. intros _.
  unfold Qlen. change 0 with (inject_Z 0). rewrite <- Zlt_Qlt.
  cbn [List.length]. lia.
Qed.

Lemma Qsum_centred (m s : Q) (xs : list Q) :
  Qsum (map (fun x => (x - m) / s) xs) == (Qsum xs - Qlen xs * m) / s.
Proof.
  induction xs as [|x xs IH].
  - unfold Qlen, Qdiv. simpl. ring.
  - cbn [map Qsum fold_right]. fold (Qsum (map (fun x => (x - m) / s) xs)).
    fold (Qsum xs). rewrite IH, Qlen_cons. unfold Qdiv. ring.
Qed.

Lemma Qlen_mean (xs : list Q) : xs <> [] -> Qlen xs * Qmean xs == Qsum xs.
Proof.
  intros Hne. unfold Qmean. apply Qmult_div_r.
  intros H. apply Qlen_pos in Hne. rewrite H in Hne. now apply Qlt_irrefl in Hne.
Qed.

(** A standardized column sums to zero, whatever the deviation. *)
Lemma Qsum_scale_column (fsqrt : Q -> Q) (xs : list Q) :
  xs <> [] -> Qsum (scale_column fsqrt xs) == 0.
Proof.
  intros Hne. unfold scale_column. rewrite Qsum_centred, Qlen_mean by exact Hne.
  unfold Qdiv. ring.
Qed.

Lemma Qsum_risk_index_of (c0 c1 c2 : list Q) :
  List.length c1 = List.length c0 -> List.length c2 = List.length c0 ->
  Qsum (map risk_index_of (combine (combine c0 c1) c2))
  == (5 # 10) * Qsum c0 + (3 # 10) * Qsum c1 + (2 # 10) * Qsum c2.
Proof.
  revert c1 c2. induction c0 as [|x c0 IH]; intros [|y c1] [|z c2] H1 H2;
    try discriminate.
  - simpl. ring.
  - cbn [combine map Qsum fold_right].
    fold (Qsum (map risk_index_of (combine (combine c0 c1) c2))).
    fold (Qsum c0). fold (Qsum c1). fold (Qsum c2).
    rewrite IH by (simpl in *; congruence).
    unfold risk_index_of. cbn [fst snd]. ring.
Qed.

Lemma fit_transform_inv (fsqrt : Q -> Q) (X : list (cell * cell * cell))
      (zs : list (Q * Q * Q)) :
  fit_transform fsqrt X = Ok zs ->
  exists c0 c1 c2,
    X <> [] /\
    List.length c0 = List.length X /\ List.length c1 = List.length X /\
    List.length c2 = List.length X /\
    zs = combine (combine (scale_column fsqrt c0) (scale_column fsqrt c1))
                 (scale_column fsqrt c2).
Proof.
  unfold fit_transform. destruct X as [|x X]; [intros H; discriminate H|].
  destruct (mapM (fun x0 => as_float (fst (fst x0))) (x :: X)) as [c0|] eqn:E0;
    cbn [bind]; [|intros H; discriminate H].
  destruct (mapM (fun x0 => as_float (snd (fst x0))) (x :: X)) as [c1|] eqn:E1;
    cbn [bind]; [|intros H; discriminate H].
  destruct (mapM (fun x0 => as_float (snd x0)) (x :: X)) as [c2|] eqn:E2;
    cbn [bind]; [|intros H; discriminate H].
  intros H. injection H as <-.
  apply mapM_length in E0, E1, E2.
  exists c0, c1, c2. repeat split; auto. discriminate.
Qed.

Lemma Qsum_fit_transform (fsqrt : Q -> Q) (X : list (cell * cell * cell))
      (zs : list (Q * Q * Q)) :
  fit_transform fsqrt X = Ok zs -> Qsum (map risk_index_of zs) == 0.
Proof.
  intros H. apply fit_transform_inv in H.
  destruct H as [c0 [c1 [c2 [Hne [H0 [H1 [H2 ->]]]]]]].
  assert (Hn : forall c : list Q, List.length c = List.length X -> c <> []).
  { intros c Hc ->. destruct X; [contradiction|discriminate]. }
  rewrite Qsum_risk_index_of by (rewrite !scale_column_length; congruence).
  rewrite !Qsum_scale_column by auto. ring.
Qed.

Lemma Qsum_positive (l : list Q) :
  l <> [] -> Forall (fun x => 0 < x) l -> 0 < Qsum l.
Proof.
  intros Hne H. induction H as [|x l Hx Hl IH]; [contradiction|].
  cbn [Qsum fold_right]. fold (Qsum l).
  destruct l as [|y l].
  - simpl. lra.
  - assert (0 < Qsum (y :: l)) by (apply IH; discriminate). lra.
Qed.

Lemma Qsum_negative (l : list Q) :
  l <> [] -> Forall (fun x => x < 0) l -> Qsum l < 0.
Proof.
  intros Hne H. induction H as [|x l Hx Hl IH]; [contradiction|].
  cbn [Qsum fold_right]. fold (Qsum l).
  destruct l as [|y l].
  - simpl. lra.
  - assert (Qsum (y :: l) < 0) by (apply IH; discriminate). lra.
Qed.

Lemma Qsum_zero_sides (l : list Q) :
  l <> [] -> Qsum l == 0 ->
  (exists x, In x l /\ x <= 0) /\ (exists x, In x l /\ 0 <= x).
Proof.
  intros Hne Hsum. split.
  - assert (H : (exists x, In x l /\ x <= 0) \/ Forall (fun x => 0 < x) l).
    { clear. induction l as [|x l [[y [Hy Hle]]|IH]].
      - right. constructor.
      - left. exists y. split; [now right|exact Hle].
      - destruct (Qlt_le_dec 0 x) as [Hx|Hx].
        + right. now constructor.
        + left. exists x. split; [now left|exact Hx]. }
    destruct H as [H|H]; [exact H|].
    apply Qsum_positive in H; [|exact Hne]. lra.
  - assert (H : (exists x, In x l /\ 0 <= x) \/ Forall (fun x => x < 0) l).
    { clear. induction l as [|x l [[y [Hy Hle]]|IH]].
      - right. constructor.
      - left. exists y. split; [now right|exact Hle].
      - destruct (Qlt_le_dec x 0) as [Hx|Hx].
        + right. now constructor.
        + left. exists x. split; [now left|exact Hx]. }
    destruct H as [H|H]; [exact H|].
    apply Qsum_negative in H; [|exact Hne]. lra.
Qed.

Lemma scored_risk_indices (fsqrt : Q -> Q) (data scored : DataFrame) :
  snd (risk_metrics_body fsqrt data) = Ok scored ->
  exists zs,
    rows scored <> [] /\
    Qsum (map risk_index_of zs) == 0 /\
    map risk_index (rows scored) = map risk_index_of zs /\
    Forall (fun r => get r "risk_index" = Num (risk_index r) /\
                     get r "risk_category" = risk_category_of (Num (risk_index r)))
           (rows scored).
Proof.
  intros H. apply risk_metrics_body_scored in H.
  destruct H as [zs [Hfit [Hlen [Hrows _]]]]. exists zs.
  assert (Hne : filter complete (rows data) <> []).
  { apply fit_transform_inv in Hfit. destruct Hfit as [_ [_ [_ [Hne _]]]].
    intros E. rewrite E in Hne. now apply Hne. }
  split; [|split; [|split]].
  - rewrite Hrows. destruct (filter complete (rows data)) as [|r0 l]; [contradiction|].
    destruct zs; [discriminate|discriminate].
  - eapply Qsum_fit_transform. exact Hfit.
  - rewrite Hrows, map_map.
    rewrite <- (map_snd_combine_eq (filter complete (rows data)) zs) at 2 by congruence.
    rewrite map_map. apply map_ext. intros [r0 z]. unfold risk_index. cbn [fst snd].
    now rewrite get_set_other, get_set_same by discriminate.
  - rewrite Hrows. apply Forall_forall. intros r Hr.
    apply in_map_iff in Hr. destruct Hr as [[r0 z] [<- _]]. unfold risk_index.
    cbn [fst snd]. rewrite get_set_same, get_set_other, get_set_same by discriminate.
    cbn [key_value]. auto.
Qed.

(** X2: the risk indices of a scored table sum to zero, since each
    standardized column does.  So a scored table always has a row at or
    below zero, labeled "Très Bas" or "Bas", and a row at or above zero,
    not labeled "Très Bas": the categories rank the rows against each
    other, whatever their absolute values. *)
Theorem risk_indices_balance (fsqrt : Q -> Q) (data scored : DataFrame) :
  calculate_risk_metrics fsqrt data
  = (scored, ["Risk metrics added to the dataset successfully."]) ->
  Qsum (map risk_index (rows scored)) == 0 /\
  (exists r, In r (rows scored) /\ risk_index r <= 0 /\
             (get r "risk_category" = Str "Très Bas" \/
              get r "risk_category" = Str "Bas")) /\
  (exists r, In r (rows scored) /\ 0 <= risk_index r /\
             get r "risk_category" <> Str "Très Bas").
Proof.
  intros H. apply calculate_risk_metrics_scored in H.
  apply scored_risk_indices in H.
  destruct H as [zs [Hne [Hsum [Hmap Hcat]]]].
  rewrite <- Hmap in Hsum. split; [exact Hsum|].
  rewrite Forall_forall in Hcat.
  destruct (Qsum_zero_sides (map risk_index (rows scored))) as [[x [Hx Hle]] [y [Hy Hge]]].
  { destruct (rows scored); [contradiction|discriminate]. }
  { exact Hsum. }
  apply in_map_iff in Hx, Hy.
  destruct Hx as [r [<- Hr]]. destruct Hy as [r' [<- Hr']]. split.
  - exists r. split; [exact Hr|]. split; [exact Hle|].
    destruct (Hcat r Hr) as [_ ->]. rewrite risk_category_cases.
    destruct (Qle_bool (risk_index r) (-1)); [now left|].
    apply Qle_bool_iff in Hle. rewrite Hle. now right.
  - exists r'. split; [exact Hr'|]. split; [exact Hge|].
    destruct (Hcat r' Hr') as [_ ->]. rewrite risk_category_cases.
    destruct (Qle_bool (risk_index r') (-1)) eqn:E.
    + apply Qle_bool_iff in E. lra.
    + destruct (Qle_bool (risk_index r') 0), (Qle_bool (risk_index r') 1); discriminate.
Qed.

(** ** Scoring a scored table *)

Lemma set_get_id (r : row) (c : string) : In c (map fst r) -> set r c (get r c) = r.
Proof.
  induction r as [|[k w] r IH]; simpl; [contradiction|].
  destruct (String.eqb k c) eqn:E; [reflexivity|].
  intros [H|H]; [subst k; rewrite String.eqb_refl in E; discriminate|].
  now rewrite IH.
Qed.

Lemma set_keys (r : row) (c c' : string) (v : cell) :
  In c (map fst (set r c' v)) <-> c = c' \/ In c (map fst r).
Proof.
  induction r as [|[k w] r IH]; simpl.
  - intuition.
  - destruct (String.eqb k c') eqn:E; simpl.
    + apply String.eqb_eq in E. subst k. intuition.
    + rewrite IH. intuition.
Qed.

Lemma scored_row_fixed (r : row) (a b : cell) :
  let r' := set (set r "risk_index" a) "risk_category" b in
  set (set r' "risk_index" a) "risk_category" b = r'.
Proof.
  intros r'. assert (Ha : get r' "risk_index" = a).
  { unfold r'. now rewrite get_set_other, get_set_same by discriminate. }
  assert (Hb : get r' "risk_category" = b).
  { unfold r'. now rewrite get_set_same. }
  rewrite <- Ha at 1. rewrite set_get_id.
  - rewrite <- Hb at 1. apply set_get_id. unfold r'. apply set_keys. now left.
  - unfold r'. apply set_keys. right. apply set_keys. now left.
Qed.

Lemma map_fst_combine_eq {A B} (l : list A) (l' : list B) :
  List.length l' = List.length l -> map fst (combine l l') = l.
Proof.
  revert l'. induction l as [|a l IH]; intros [|c l']; simpl; try discriminate; auto.
  intros H. injection H as H. now rewrite IH.
Qed.

Lemma complete_set (r : row) (c : string) (v : cell) :
  ~ In c required_columns -> complete (set r c v) = complete r.
Proof.
  intros Hc. unfold complete. apply forallb_ext_In.
  intros c' Hc'. rewrite get_set_other; [reflexivity|]. intros ->. contradiction.
Qed.

Lemma rescoring (fsqrt : Q -> Q) (data scored : DataFrame) :
  snd (risk_metrics_body fsqrt data) = Ok scored ->
  snd (risk_metrics_body fsqrt scored) = Ok scored.
Proof.
  intros H. destruct (scored_table_of_body fsqrt data scored H) as [_ [_ [Hin _]]].
  apply risk_metrics_body_scored in H.
  destruct H as [zs [Hfit [Hlen [Hrows [_ Hreq]]]]].
  set (l := filter complete (rows data)) in *.
  set (F := fun rz : row * (Q * Q * Q) =>
              set (set (fst rz) "risk_index" (Num (risk_index_of (snd rz))))
                  "risk_category" (risk_category_of (Num (risk_index_of (snd rz))))) in *.
  assert (Hri : has_column scored "risk_index" = true).
  { apply has_column_In, Hin. auto. }
  assert (Hrc : has_column scored "risk_category" = true).
  { apply has_column_In, Hin. auto. }
  assert (Hall : filter complete (rows scored) = rows scored).
  { apply filter_all. rewrite Hrows. apply Forall_forall. intros r Hr.
    apply in_map_iff in Hr. destruct Hr as [[r0 z] [<- Hr0]]. unfold F. cbn [fst snd].
    rewrite !complete_set by (simpl; intuition discriminate).
    apply in_combine_l in Hr0. unfold l in Hr0. apply filter_In in Hr0. tauto. }
  assert (Htriples :
            map (fun r => (get r "rendement", get r "ph", get r "matiere_organique"))
                (rows scored)
            = map (fun r => (get r "rendement", get r "ph", get r "matiere_organique")) l).
  { rewrite Hrows, map_map.
    rewrite <- (map_fst_combine_eq l zs Hlen) at 2. rewrite map_map.
    apply map_ext. intros [r0 z]. unfold F. cbn [fst snd].
    now rewrite !get_set_other by discriminate. }
  unfold risk_metrics_body.
  destruct (find (fun col => negb (has_column scored col)) required_columns)
    as [col|] eqn:Hfind.
  { apply find_some in Hfind. destruct Hfind as [Hc Hneg].
    assert (Hhas : has_column scored col = true).
    { apply has_column_In, Hin. left. apply has_column_In. now apply Hreq. }
    rewrite Hhas in Hneg. discriminate. }
  change (dropna required_columns scored)
    with {| columns := columns scored; rows := filter complete (rows scored) |}.
  cbn [rows]. rewrite Hall, Htriples, Hfit. cbn [snd]. f_equal.
  unfold setitem at 1. f_equal.
  unfold setitem, has_column. cbn [columns rows].
  fold (has_column scored "risk_index"). rewrite Hri.
  fold (has_column scored "risk_category"). rewrite Hrc.
  rewrite (combine_map_combine
             (fun rv : row * cell => set (fst rv) "risk_index" (snd rv))
             risk_category_of).
  rewrite combine_map_r, !map_map.
  destruct scored as [cols rs]. cbn [columns rows] in *. f_equal.
  rewrite Hrows at 2. rewrite Hrows.
  assert (Hc : combine (map F (combine l zs)) zs
               = map (fun p => (F p, snd p)) (combine l zs)).
  { rewrite <- (combine_map_combine F (fun z => z)), map_id. reflexivity. }
  rewrite Hc, map_map. apply map_ext. intros [r0 z]. cbn [fst snd]. unfold F. cbn [fst snd].
  apply scored_row_fixed.
Qed.

(** X3: scoring a table the scorer returned gives the same table again,
    with the success line: the rows are complete, the three scored columns
    are the same, so are the indices and categories, and the two risk
    columns are overwritten in place.  The script of [__main__] scores the
    features a second time; this does not change them. *)
Theorem scoring_twice (fsqrt : Q -> Q) (data scored : DataFrame) :
  calculate_risk_metrics fsqrt data
  = (scored, ["Risk metrics added to the dataset successfully."]) ->
  calculate_risk_metrics fsqrt scored
  = (scored, ["Risk metrics added to the dataset successfully."]).
Proof.
  intros H. apply calculate_risk_metrics_scored.
  apply calculate_risk_metrics_scored in H. now apply rescoring in H.
Qed.

Lemma scored_table_witness :
  exists scored,
    calculate_risk_metrics Qsqrt three_parcels
    = (scored, ["Risk metrics added to the dataset successfully."]) /\
    map (fun r => get r "parcelle_id") (rows scored) = [Str "P001"; Str "P003"].
Proof.
  destruct (scored_table Qsqrt three_parcels) as [scored [Hrun [Hrows _]]].
  - intros c Hc. exact Hc.
  - vm_compute. discriminate.
  - vm_compute. repeat constructor.
  - exists scored. split; [exact Hrun|].
    change (filter complete (rows three_parcels))
      with [nth 0 (rows three_parcels) []; nth 2 (rows three_parcels) []] in Hrows.
    inversion Hrows as [|r r0 l l0 [Hr _] Hrest]; subst.
    inversion Hrest as [|r' r0' l' l0' [Hr' _] Hrest']; subst.
    inversion Hrest'; subst. cbn [map].
    rewrite Hr, Hr' by discriminate. reflexivity.
Defined.

Lemma risk_indices_balance_witness :
  map (fun r => get r "risk_category")
      (rows (fst (calculate_risk_metrics Qsqrt three_parcels)))
  = [Str "Bas"; Str "Modéré"] /\
  Qsum (map risk_index (rows (fst (calculate_risk_metrics Qsqrt three_parcels)))) == 0.
Proof.
  split; [vm_compute; reflexivity|].
  apply (risk_indices_balance Qsqrt three_parcels
           (fst (calculate_risk_metrics Qsqrt three_parcels))).
  vm_compute. reflexivity.
Defined.

Lemma scoring_twice_witness :
  calculate_risk_metrics Qsqrt (fst (calculate_risk_metrics Qsqrt three_parcels))
  = (fst (calculate_risk_metrics Qsqrt three_parcels),
     ["Risk metrics added to the dataset successfully."]).
Proof.
  apply (scoring_twice Qsqrt three_parcels). vm_compute. reflexivity.
Defined.

(** ** Loading, file by file *)

(** X4: [load_data] reads the four files in order and stops at the first
    one it cannot read.  It never raises and never writes to the disk.
    With [n] the number of files read: the first [n] sources hold the
    frames read, the others keep the value they had; when all four were
    read nothing is printed, otherwise one line is printed, for the
    exception of the file of rank [n]. *)
Theorem load_data_stops_at_first_failure (w : world) :
  exists n,
    (n <= 4)%nat /\
    fst (load_data w) = Ok tt /\
    disk (snd (load_data w)) = disk w /\
    (forall s, (source_rank s < n)%nat ->
               exists df, read_csv (disk w) (source_path s) (source_dates s) = Ok df /\
                          table_of (self (snd (load_data w))) s = Some df) /\
    (forall s, (n <= source_rank s)%nat ->
               table_of (self (snd (load_data w))) s = table_of (self w) s) /\
    (n = 4%nat -> stdout (snd (load_data w)) = stdout w) /\
    (forall s, source_rank s = n ->
               exists e, read_csv (disk w) (source_path s) (source_dates s) = Raise e /\
                         stdout (snd (load_data w)) = stdout w ++ [load_error_line e]).
Proof.
  unfold load_data, try_except, bindM, pd_read_csv, lift, get_disk,
    set_monitoring_data, set_weather_data, set_soil_data, set_yield_history,
    get_self, put_self, print, load_error_line; simpl.
  destruct (read_csv (disk w) "data/monitoring_cultures.csv" ["date"]) as [m|e] eqn:Hm;
    simpl.
  2:{ exists 0%nat. destruct (is_file_not_found e) eqn:He; simpl;
      (split; [lia|]); (split; [reflexivity|]); (split; [reflexivity|]);
      (split; [intros s Hs; lia|]); (split; [intros [] _; reflexivity|]);
      (split; [discriminate|]);
      intros [] Hs; try discriminate Hs; simpl; rewrite Hm;
      eexists; (split; [reflexivity|]); rewrite He; reflexivity. }
  destruct (read_csv (disk w) "data/meteo_detaillee.csv" ["date"]) as [x|e] eqn:Hx;
    simpl.
  2:{ exists 1%nat. destruct (is_file_not_found e) eqn:He; simpl;
      (split; [lia|]); (split; [reflexivity|]); (split; [reflexivity|]);
      (split; [intros [] Hs; simpl in Hs; try lia; simpl; eauto|]);
      (split; [intros [] Hs; simpl in Hs; try lia; reflexivity|]);
      (split; [discriminate|]);
      intros [] Hs; try discriminate Hs; simpl; rewrite Hx;
      eexists; (split; [reflexivity|]); rewrite He; reflexivity. }
  destruct (read_csv (disk w) "data/sols.csv" []) as [so|e] eqn:Hso; simpl.
  2:{ exists 2%nat. destruct (is_file_not_found e) eqn:He; simpl;
      (split; [lia|]); (split; [reflexivity|]); (split; [reflexivity|]);
      (split; [intros [] Hs; simpl in Hs; try lia; simpl; eauto|]);
      (split; [intros [] Hs; simpl in Hs; try lia; reflexivity|]);
      (split; [discriminate|]);
      intros [] Hs; try discriminate Hs; simpl; rewrite Hso;
      eexists; (split; [reflexivity|]); rewrite He; reflexivity. }
  destruct (read_csv (disk w) "data/historique_rendements.csv" ["annee"]) as [y|e] eqn:Hy;
    simpl.
  2:{ exists 3%nat. destruct (is_file_not_found e) eqn:He; simpl;
      (split; [lia|]); (split; [reflexivity|]); (split; [reflexivity|]);
      (split; [intros [] Hs; simpl in Hs; try lia; simpl; eauto|]);
      (split; [intros [] Hs; simpl in Hs; try lia; reflexivity|]);
      (split; [discriminate|]);
      intros [] Hs; try discriminate Hs; simpl; rewrite Hy;
      eexists; (split; [reflexivity|]); rewrite He; reflexivity. }
  exists 4%nat.
  (split; [lia|]); (split; [reflexivity|]); (split; [reflexivity|]);
  (split; [intros [] Hs; simpl; eauto|]);
  (split; [intros [] Hs; simpl in Hs; lia|]);
  (split; [reflexivity|]).
  intros [] Hs; discriminate Hs.
Qed.

(** ** The year filter and the sign correction *)

Lemma filter_year_dated (df : DataFrame) (c : string) (y : Z) :
  has_column df c = true ->
  Forall (fun r => dated_in c y r = true) (rows df) ->
  filter_year df c y = Ok {| columns := columns df; rows := rows df |}.
Proof.
  intros Hc Hall. unfold filter_year, getitem. rewrite Hc. simpl. rewrite mapM_map.
  rewrite (mapM_ok _ (fun _ => true)).
  - simpl. f_equal. f_equal. clear.
    induction (rows df) as [|r rs IH]; simpl; [reflexivity|]. now rewrite IH.
  - eapply Forall_impl; [|exact Hall]. intros r Hr. unfold dated_in in Hr.
    destruct (get r c); try discriminate. simpl. now rewrite Hr.
Qed.

Lemma clean_data_eq (w : world) (weather : DataFrame) (fixed : list cell) :
  weather_data (self w) = Some weather ->
  filter_year weather "date" 2024
  = Ok {| columns := columns weather; rows := rows weather |} ->
  has_column weather "rayonnement_solaire" = true ->
  mapM (fun r => abs_cell (get r "rayonnement_solaire")) (rows weather) = Ok fixed ->
  clean_data w
  = (Ok tt,
     {| self := with_weather
                  (self w)
                  (Some (setitem {| columns := columns weather; rows := rows weather |}
                                 "rayonnement_solaire" fixed));
        disk := disk w; stdout := stdout w |}).
Proof.
  intros Hw Hyear Hrad Hfix.
  unfold clean_data, bindM, get_self, the_frame, lift, set_weather_data, put_self,
    ret, raise. simpl. rewrite Hw. simpl. rewrite Hyear. simpl.
  unfold getitem, has_column. cbn [columns rows].
  fold (has_column weather "rayonnement_solaire"). rewrite Hrad. simpl.
  rewrite mapM_map, Hfix. reflexivity.
Qed.

(** X5: what [clean_data] leaves when it returns: the weather table holds
    exactly the rows dated in 2024, in their order, each with the absolute
    value of its radiation and every other cell as it was; the columns, the
    other tables, the disk and the output are unchanged. *)
Theorem clean_data_result (w w' : world) :
  clean_data w = (Ok tt, w') ->
  exists weather cleaned,
    weather_data (self w) = Some weather /\
    w' = {| self := with_weather (self w) (Some cleaned);
            disk := disk w; stdout := stdout w |} /\
    columns cleaned = columns weather /\
    Forall2 (fun r r0 =>
               (forall c, c <> "rayonnement_solaire" -> get r c = get r0 c) /\
               abs_cell (get r0 "rayonnement_solaire")
               = Ok (get r "rayonnement_solaire"))
            (rows cleaned) (filter (dated_in "date" 2024) (rows weather)).
Proof.
  intros H. apply clean_data_run in H.
  destruct H as [weather [fixed [Hw [_ [Hrad [Hfix ->]]]]]].
  do 2 eexists. split; [exact Hw|]. split; [reflexivity|]. split.
  - unfold setitem, has_column. cbn [columns].
    fold (has_column weather "rayonnement_solaire"). now rewrite Hrad.
  - cbn [rows setitem]. apply Forall2_map_combine.
    + now apply mapM_length in Hfix.
    + intros r0 v Hin. cbn [fst snd]. split.
      * intros c Hc. apply get_set_other. congruence.
      * rewrite get_set_same. apply mapM_Forall2 in Hfix.
        apply (in_combine_Forall2 _ _ _ _ _ Hfix Hin).
Qed.

Lemma abs_cell_fixed (c c' : cell) : abs_cell c = Ok c' -> abs_cell c' = Ok c'.
Proof.
  destruct c as [|q| |]; simpl; intros H; try discriminate; injection H as <-; simpl;
    [reflexivity|].
  destruct q as [n d]. simpl. now rewrite Z.abs_idemp.
Qed.

(** X6: cleaning a cleaned table changes nothing: a second [clean_data]
    returns and leaves the world of the first. *)
Theorem clean_data_twice (w w' : world) :
  clean_data w = (Ok tt, w') -> clean_data w' = (Ok tt, w').
Proof.
  intros H. apply clean_data_run in H.
  destruct H as [weather [fixed [Hw [Hdate [Hrad [Hfix ->]]]]]].
  set (kept := filter (dated_in "date" 2024) (rows weather)) in *.
  set (cleaned := setitem {| columns := columns weather; rows := kept |}
                          "rayonnement_solaire" fixed).
  assert (Hcols : columns cleaned = columns weather).
  { unfold cleaned, setitem, has_column. cbn [columns].
    fold (has_column weather "rayonnement_solaire"). now rewrite Hrad. }
  assert (Hrows : Forall (fun r => dated_in "date" 2024 r = true /\
                                   In "rayonnement_solaire" (map fst r) /\
                                   abs_cell (get r "rayonnement_solaire")
                                   = Ok (get r "rayonnement_solaire"))
                         (rows cleaned)).
  { apply Forall_forall. intros r Hr. unfold cleaned in Hr. cbn [rows setitem] in Hr.
    apply in_map_iff in Hr. destruct Hr as [[r0 v] [<- Hin]]. cbn [fst snd].
    split; [|split].
    - unfold dated_in. rewrite get_set_other by discriminate.
      apply in_combine_l in Hin. unfold kept in Hin. apply filter_In in Hin.
      apply (proj2 Hin).
    - apply set_keys. now left.
    - rewrite get_set_same. apply mapM_Forall2 in Hfix.
      apply (in_combine_Forall2 _ _ _ _ _ Hfix) in Hin.
      now apply abs_cell_fixed in Hin. }
  rewrite (clean_data_eq _ cleaned (map (fun r => get r "rayonnement_solaire")
                                        (rows cleaned))).
  - f_equal. cbn [self disk stdout]. f_equal. unfold with_weather.
    cbn [monitoring_data soil_data yield_history]. f_equal. f_equal.
    unfold setitem at 1. unfold has_column. cbn [columns rows]. rewrite Hcols.
    fold (has_column weather "rayonnement_solaire"). rewrite Hrad.
    rewrite <- Hcols. destruct cleaned as [cols rs]. cbn [columns rows] in *. f_equal.
    rewrite combine_map_r. clear - Hrows.
    induction Hrows as [|r rs [_ [Hkey _]] _ IH]; simpl; [reflexivity|].
    rewrite IH. f_equal. now apply set_get_id.
  - reflexivity.
  - apply filter_year_dated.
    + unfold has_column. rewrite Hcols. exact Hdate.
    + eapply Forall_impl; [|exact Hrows]. intros r (H0 & _); exact H0.
  - unfold has_column. rewrite Hcols. exact Hrad.
  - apply mapM_ok. eapply Forall_impl; [|exact Hrows]. intros r (_ & _ & H0); exact H0.
Qed.

(** X7: [clean_data] has no handler and is not atomic.  When it raises,
    nothing is printed and the disk and the other tables are untouched, but
    the weather table may already be cut down to its rows of 2024: this is
    what remains when the radiation column is missing or holds text. *)
Theorem clean_data_failure (w w' : world) (e : exn) :
  clean_data w = (Raise e, w') ->
  disk w' = disk w /\ stdout w' = stdout w /\
  (self w' = self w \/
   exists weather,
     weather_data (self w) = Some weather /\
     has_column weather "date" = true /\
     self w' = with_weather (self w)
                 (Some {| columns := columns weather;
                          rows := filter (dated_in "date" 2024) (rows weather) |})).
Proof.
  unfold clean_data, bindM, get_self, the_frame, lift, set_weather_data, put_self,
    ret, raise. simpl.
  destruct (weather_data (self w)) as [weather|] eqn:Hw; simpl.
  2:{ intros H. injection H as _ <-. auto. }
  destruct (filter_year weather "date" 2024) as [kept|e0] eqn:Hkept; simpl.
  2:{ intros H. injection H as _ <-. auto. }
  apply filter_year_rows in Hkept. destruct Hkept as [Hdate ->].
  destruct (getitem _ "rayonnement_solaire") as [col|e0]; simpl.
  2:{ intros H. injection H as _ <-. simpl. repeat split. right. eauto. }
  destruct (mapM abs_cell col) as [fixed|e0]; simpl.
  2:{ intros H. injection H as _ <-. simpl. repeat split. right. eauto. }
  discriminate.
Qed.

Lemma clean_data_result_witness :
  exists weather cleaned,
    weather_data (self (world_with_weather scenario_weather)) = Some weather /\
    snd (clean_data (world_with_weather scenario_weather))
    = {| self := with_weather (self (world_with_weather scenario_weather)) (Some cleaned);
         disk := disk (world_with_weather scenario_weather);
         stdout := stdout (world_with_weather scenario_weather) |} /\
    columns cleaned = columns weather /\
    Forall2 (fun r r0 =>
               (forall c, c <> "rayonnement_solaire" -> get r c = get r0 c) /\
               abs_cell (get r0 "rayonnement_solaire")
               = Ok (get r "rayonnement_solaire"))
            (rows cleaned) (filter (dated_in "date" 2024) (rows weather)).
Proof.
  apply (clean_data_result (world_with_weather scenario_weather)).
  vm_compute. reflexivity.
Defined.

Lemma clean_data_twice_witness :
  clean_data (snd (clean_data (world_with_weather scenario_weather)))
  = (Ok tt, snd (clean_data (world_with_weather scenario_weather))).
Proof.
  apply (clean_data_twice (world_with_weather scenario_weather)).
  vm_compute. reflexivity.
Defined.

Lemma clean_data_failure_witness :
  fst (clean_data (world_with_weather weather_without_radiation))
  = Raise (KeyError "rayonnement_solaire") /\
  List.length (rows weather_without_radiation) = 2%nat /\
  (exists kept,
      weather_data (self (snd (clean_data (world_with_weather weather_without_radiation))))
      = Some kept /\ List.length (rows kept) = 1%nat) /\
  disk (snd (clean_data (world_with_weather weather_without_radiation)))
  = disk (world_with_weather weather_without_radiation).
Proof.
  split; [vm_compute; reflexivity|]. split; [reflexivity|].
  split; [eexists; split; vm_compute; reflexivity|].
  apply (clean_data_failure (world_with_weather weather_without_radiation)
           (snd (clean_data (world_with_weather weather_without_radiation)))
           (KeyError "rayonnement_solaire")).
  vm_compute. reflexivity.
Defined.

(** ** The frame of [prepare_features] *)

Section Preparation.

Variable S : Sorter.
Variable fsqrt : Q -> Q.

Ltac no_features :=
  unfold raise, bindM, print, ret; simpl;
  do 2 eexists; (split; [reflexivity|]); simpl; (split; [reflexivity|]); left;
  (split; [reflexivity|]); (split; [reflexivity|]);
  first [eexists; reflexivity | eexists (TypeError _); reflexivity].

(** [prepare_features] always returns.  Without a result it printed one
    line and wrote nothing; with a result it wrote it to the feature
    file, and the three tables it joins were set. *)
Lemma prepare_features_cases (w : world) :
  exists res w',
    prepare_features S fsqrt w = (Ok res, w') /\
    soil_data (self w') = soil_data (self w) /\
    ((res = None /\ disk w' = disk w /\
      exists e, stdout w' = stdout w ++ [("error preparing data: " ++ show_exn e)%string]) \/
     (exists data,
         res = Some data /\
         disk w' = fs_write (disk w) "data/features_daily.csv" (CsvFile data) /\
         monitoring_data (self w) <> None /\ weather_data (self w) <> None /\
         soil_data (self w) <> None)).
Proof.
  unfold prepare_features, try_except.
  unfold bindM at 1. unfold get_self.
  unfold bindM at 1. unfold the_frame.
  destruct (monitoring_data (self w)) as [monitoring|] eqn:Hmon;
    [|no_features].
  unfold ret at 1. unfold bindM at 1. unfold lift at 1.
  destruct (sort_values S monitoring "date") as [ms|e] eqn:Hms;
    [|no_features].
  unfold bindM at 1. unfold set_monitoring_data, bindM at 1, get_self, put_self.
  unfold bindM at 1.
  destruct (weather_data (self w)) as [weather|] eqn:Hwea;
    [|no_features].
  unfold ret at 1. unfold bindM at 1. unfold lift at 1.
  destruct (sort_values S weather "date") as [ws|e] eqn:Hws;
    [|no_features].
  unfold bindM at 1. unfold set_weather_data, bindM at 1, get_self, put_self.
  unfold bindM at 1. unfold lift at 1.
  destruct (merge_asof ms ws "date") as [joined|e] eqn:Hjoin;
    [|no_features].
  unfold bindM at 1.
  destruct (soil_data (self w)) as [soil|] eqn:Hsoil;
    [|no_features].
  unfold ret at 1. unfold bindM at 1. unfold lift at 1.
  destruct (merge_left joined soil "parcelle_id") as [merged|e] eqn:Hmerged;
    [|no_features].
  unfold bindM at 1.
  match goal with
  | |- context [enrich_with_yield_history merged ?w0] =>
      destruct (enrich_with_yield_history_cases merged w0)
        as [enriched [w1 [Hrun [Hdisk [Hm [Hw [Hs Hcase]]]]]]];
      rewrite Hrun
  end.
  unfold bindM at 1. unfold risk_metrics.
  destruct (calculate_risk_metrics fsqrt _) as [scored lines] eqn:Hscore.
  unfold bindM, to_csv, get_disk, put_disk, ret. simpl.
  do 2 eexists. split; [reflexivity|]. simpl. split; [rewrite Hs; reflexivity|].
  right. exists scored. rewrite Hdisk. simpl.
  repeat split; discriminate.
Qed.

(** X8: [prepare_features] never raises, never changes the soil table and
    writes to no file but [data/features_daily.csv]; that file holds the
    table returned, and is left alone when there is none. *)
Theorem prepare_features_frame (w : world) :
  exists res w',
    prepare_features S fsqrt w = (Ok res, w') /\
    soil_data (self w') = soil_data (self w) /\
    (forall p, p <> "data/features_daily.csv" -> disk w' p = disk w p) /\
    match res with
    | Some data => disk w' "data/features_daily.csv" = Some (CsvFile data)
    | None => disk w' = disk w
    end.
Proof.
  destruct (prepare_features_cases w) as [res [w' [Hrun [Hsoil Hcase]]]].
  exists res, w'. split; [exact Hrun|]. split; [exact Hsoil|].
  destruct Hcase as [[-> [Hdisk _]]|[data [-> [Hdisk _]]]]; rewrite Hdisk.
  - split; reflexivity.
  - unfold fs_write. split.
    + intros p Hp. apply String.eqb_neq in Hp. now rewrite Hp.
    + now rewrite String.eqb_refl.
Qed.

Lemma load_data_unreadable (w : world) (s : source) (e : exn) :
  read_csv (disk w) (source_path s) (source_dates s) = Raise e ->
  exists w',
    load_data w = (Ok tt, w') /\ disk w' = disk w /\
    table_of (self w') s = table_of (self w) s /\
    exists line, stdout w' = stdout w ++ [line].
Proof.
  intros Hread.
  unfold load_data, try_except, bindM, pd_read_csv, lift, get_disk,
    set_monitoring_data, set_weather_data, set_soil_data, set_yield_history,
    get_self, put_self, print; simpl.
  destruct s; simpl in Hread;
    repeat match goal with
           | |- context [read_csv ?d ?p ?l] =>
               first [rewrite Hread | destruct (read_csv d p l)]; simpl
           | |- context [is_file_not_found ?e] => destruct (is_file_not_found e); simpl
           end;
    eexists; (split; [reflexivity|]); simpl; eauto.
Qed.

(** X9: on a new manager, when one of the monitoring, weather and soil
    files cannot be read, loading and preparing the features gives no
    table: both calls return, each prints one line, and nothing is written
    to the disk. *)
Theorem unreadable_source_no_features (w : world) (s : source) (e : exn) :
  self w = init ->
  s <> Yields ->
  read_csv (disk w) (source_path s) (source_dates s) = Raise e ->
  exists w',
    (load_data ;;; prepare_features S fsqrt) w = (Ok None, w') /\
    disk w' = disk w /\
    exists line line', stdout w' = stdout w ++ [line; line'].
Proof.
  intros Hinit Hs Hread.
  destruct (load_data_unreadable w s e Hread) as [w1 [Hload [Hdisk1 [Htab [l1 Hout1]]]]].
  rewrite Hinit in Htab.
  destruct (prepare_features_cases w1) as [res [w' [Hrun [_ Hcase]]]].
  exists w'. unfold bindM. rewrite Hload, Hrun.
  destruct Hcase as [[-> [Hdisk [e' Hout]]]|[data [_ [_ [Hm [Hx Hso]]]]]].
  - split; [reflexivity|]. split; [congruence|].
    exists l1. eexists. rewrite Hout, Hout1, <- app_assoc. reflexivity.
  - destruct s; simpl in Htab; congruence.
Qed.

End Preparation.

Lemma unreadable_source_no_features_witness :
  exists w',
    (load_data ;;; prepare_features insertion_sorter Qsqrt) world_without_monitoring
    = (Ok None, w') /\
    disk w' = disk world_without_monitoring /\
    exists line line', stdout w' = stdout world_without_monitoring ++ [line; line'].
Proof.
  apply (unreadable_source_no_features insertion_sorter Qsqrt world_without_monitoring
           Monitoring (FileNotFoundError "data/monitoring_cultures.csv")).
  - reflexivity.
  - discriminate.
  - reflexivity.
Defined.


(** ** Computations that only print *)

Lemma read_only_pure {A} (r : result A) : read_only (fun w => (r, w)).
Proof.
  intros w. simpl. repeat split. exists []. now rewrite app_nil_r.
Qed.

Lemma read_only_ret {A} (a : A) : read_only (ret a).
Proof. apply read_only_pure. Qed.

Lemma read_only_raise {A} (e : exn) : read_only (@raise A e).
Proof. apply read_only_pure. Qed.

Lemma read_only_lift {A} (r : result A) : read_only (lift r).
Proof. apply read_only_pure. Qed.

Lemma read_only_print (line : string) : read_only (print line).
Proof. intros w. simpl. repeat split. now exists [line]. Qed.

Lemma read_only_get_self : read_only get_self.
Proof. intros w. simpl. repeat split. exists []. now rewrite app_nil_r. Qed.

Lemma read_only_the_frame (what : string) (v : option DataFrame) :
  read_only (the_frame what v).
Proof. destruct v; [apply read_only_ret|apply read_only_raise]. Qed.

Lemma read_only_pd_read_csv (path : string) (parse_dates : list string) :
  read_only (pd_read_csv path parse_dates).
Proof.
  intros w. unfold pd_read_csv, bindM, get_disk, lift. simpl. repeat split.
  exists []. now rewrite app_nil_r.
Qed.

Lemma read_only_bind {A B} (m : M A) (k : A -> M B) :
  read_only m -> (forall a, read_only (k a)) -> read_only (bindM m k).
Proof.
  intros Hm Hk w. unfold bindM. destruct (Hm w) as [Hs [Hd [l Hl]]].
  destruct (m w) as [[a|e] w1]; simpl in *.
  - destruct (Hk a w1) as [Hs' [Hd' [l' Hl']]].
    split; [congruence|]. split; [congruence|].
    exists (l ++ l'). now rewrite Hl', Hl, app_assoc.
  - repeat split; auto. now exists l.
Qed.

Lemma read_only_try {A} (m : M A) (h : exn -> M A) :
  read_only m -> (forall e, read_only (h e)) -> read_only (try_except m h).
Proof.
  intros Hm Hh w. unfold try_except. destruct (Hm w) as [Hs [Hd [l Hl]]].
  destruct (m w) as [[a|e] w1]; simpl in *.
  - repeat split; auto. now exists l.
  - destruct (Hh e w1) as [Hs' [Hd' [l' Hl']]].
    split; [congruence|]. split; [congruence|].
    exists (l ++ l'). now rewrite Hl', Hl, app_assoc.
Qed.

Lemma returns_try {A} (m : M A) (h : exn -> M A) :
  (forall e, returns (h e)) -> returns (try_except m h).
Proof.
  intros Hh w. unfold try_except. destruct (m w) as [[a|e] w1]; simpl; [eauto|].
  apply Hh.
Qed.

Lemma returns_print_ret {A} (line : string) (a : A) : returns (print line ;;; ret a).
Proof. intros w. now exists a. Qed.

Ltac read_only :=
  repeat first
    [ apply read_only_ret | apply read_only_raise | apply read_only_lift
    | apply read_only_print | apply read_only_get_self | apply read_only_the_frame
    | apply read_only_pd_read_csv
    | apply read_only_bind; [|intros ?]
    | apply read_only_try; [|intros ?]
    | match goal with |- read_only (if ?b then _ else _) => destruct b end
    | progress cbv zeta ].

Section ReadOnly.

Variable S : Sorter.
Variable fsqrt : Q -> Q.
Variable seasonal_decompose : list (cell * Q) -> nat -> result Decomposition.
Variable noise : nat -> Q.

Lemma get_temporal_patterns_read_only (pid : cell) :
  read_only (get_temporal_patterns S fsqrt seasonal_decompose pid).
Proof. unfold get_temporal_patterns. read_only. Qed.

Lemma analyze_yield_patterns_read_only (pid : cell) :
  read_only (analyze_yield_patterns S fsqrt noise pid).
Proof. unfold analyze_yield_patterns. read_only. Qed.

(** X10: the two analyses only read.  [get_temporal_patterns] and
    [analyze_yield_patterns] never raise, and they leave the manager's
    tables and the disk as they were: all they do to the world is print. *)
Theorem analyses_only_read (pid : cell) (w : world) :
  (exists res w',
      get_temporal_patterns S fsqrt seasonal_decompose pid w = (Ok res, w') /\
      self w' = self w /\ disk w' = disk w /\
      exists lines, stdout w' = stdout w ++ lines) /\
  (exists res w',
      analyze_yield_patterns S fsqrt noise pid w = (Ok res, w') /\
      self w' = self w /\ disk w' = disk w /\
      exists lines, stdout w' = stdout w ++ lines).
Proof.
  split.
  - destruct (get_temporal_patterns_read_only pid w) as [Hs [Hd Hl]].
    assert (Hr : returns (get_temporal_patterns S fsqrt seasonal_decompose pid)).
    { apply returns_try. intros e. apply returns_print_ret. }
    destruct (Hr w) as [res Hres].
    destruct (get_temporal_patterns S fsqrt seasonal_decompose pid w) as [r w'].
    simpl in *. subst r. eauto 10.
  - destruct (analyze_yield_patterns_read_only pid w) as [Hs [Hd Hl]].
    assert (Hr : returns (analyze_yield_patterns S fsqrt noise pid)).
    { apply returns_try. intros e. apply returns_print_ret. }
    destruct (Hr w) as [res Hres].
    destruct (analyze_yield_patterns S fsqrt noise pid w) as [r w'].
    simpl in *. subst r. eauto 10.
Qed.

End ReadOnly.

(** ** The vegetation-index analysis, step by step *)

Lemma filter_eq_rows (df out : DataFrame) (c : string) (v : cell) :
  filter_eq df c v = Ok out ->
  has_column df c = true /\
  out = {| columns := columns df;
           rows := filter (fun r => cell_eqb (get r c) v) (rows df) |}.
Proof.
  unfold filter_eq, getitem. destruct (has_column df c); simpl; [|discriminate].
  intros H. injection H as <-. split; [reflexivity|]. f_equal.
  apply (filter_combine_map (fun r => get r c) (fun x => cell_eqb x v)).
Qed.

Lemma filter_length_all {A} (p : A -> bool) (l : list A) :
  List.length (filter p l) = List.length l -> Forall (fun a => p a = true) l.
Proof.
  induction l as [|a l IH]; simpl; [constructor|].
  destruct (p a) eqn:E; simpl; intros H.
  - constructor; [exact E|]. apply IH. congruence.
  - pose proof (filter_length_le p l). lia.
Qed.

Lemma linear_regression_inv (xs ys : list Q) (slope icpt : Q) :
  linear_regression xs ys = Ok (slope, icpt) ->
  List.length xs = List.length ys /\ xs <> [] /\
  icpt = (Qmean ys - slope * Qmean xs)%Q.
Proof.
  unfold linear_regression.
  destruct (Nat.eqb (List.length xs) (List.length ys)) eqn:E; simpl; [|discriminate].
  apply Nat.eqb_eq in E. destruct xs as [|x xs]; [discriminate|].
  intros H. injection H as <- <-. repeat split; auto. discriminate.
Qed.

Section TemporalPatterns.

Variable S : Sorter.
Variable fsqrt : Q -> Q.
Variable seasonal_decompose : list (cell * Q) -> nat -> result Decomposition.

(** What a run of [get_temporal_patterns] that gives a result went
    through. *)
Lemma get_temporal_patterns_run (pid : cell) (w w' : world) (t : Trend)
      (oh : option History) :
  get_temporal_patterns S fsqrt seasonal_decompose pid w = (Ok (oh, Some t), w') ->
  exists features sorted vals ords h,
    oh = Some h /\ w' = w /\
    read_csv (disk w) "data/features_daily.csv" ["date"] = Ok features /\
    Permutation (parcel_features features pid) sorted /\
    mapM as_float
         (map snd (filter (fun iv : cell * cell => notna (snd iv))
                          (map (fun r => (get r "date", get r "ndvi")) sorted))) = Ok vals /\
    mapM ordinal_of (map (fun r => get r "date") sorted) = Ok ords /\
    linear_regression ords vals = Ok (pente t, intercept t) /\
    (12 <= List.length vals)%nat /\
    ndvi_moving_avg h = rolling_mean 30 vals /\
    mean_ndvi (summary_stats h) = Qmean vals /\
    min_ndvi (summary_stats h) = Qminimum (hd 0%Q vals) vals /\
    max_ndvi (summary_stats h) = Qmaximum (hd 0%Q vals) vals.
Proof.
  unfold get_temporal_patterns, try_except, bindM, pd_read_csv, lift, get_disk,
    raise, ret, print. simpl.
  destruct (read_csv (disk w) _ _) as [features|e] eqn:Hread; simpl; [|fails].
  destruct (filter_eq features "parcelle_id" pid) as [pdata|e] eqn:Hfilter; simpl;
    [|fails].
  destruct (has_column pdata "ndvi"); simpl; [|fails].
  destruct (empty pdata); simpl; [fails|].
  destruct (sort_values S pdata "date") as [sorted|e] eqn:Hsort; simpl; [|fails].
  destruct (Nat.ltb _ 12) eqn:Hlen; simpl; [fails|].
  destruct (mapM as_float _) as [vals|e] eqn:Hvals; simpl; [|fails].
  destruct (seasonal_decompose _ _) as [dec|e]; simpl; [|fails].
  destruct (mapM ordinal_of _) as [ords|e] eqn:Hords; simpl; [|fails].
  destruct (linear_regression ords vals) as [[slope icpt]|e] eqn:Hreg; simpl; [|fails].
  destruct (variation slope (Qmean vals)) as [v|e] eqn:Hv; simpl; [|fails].
  intros H; injection H as <- <- <-.
  apply filter_eq_rows in Hfilter. destruct Hfilter as [_ ->].
  apply sort_values_ok in Hsort. destruct Hsort as [_ Hperm]. cbn [rows] in Hperm.
  exists features, (rows sorted), vals, ords. eexists.
  split; [reflexivity|]. split; [reflexivity|]. split; [reflexivity|].
  split; [exact Hperm|]. split; [exact Hvals|]. split; [exact Hords|].
  split; [exact Hreg|]. split; [|simpl; auto].
  apply Nat.ltb_ge in Hlen. apply mapM_length in Hvals.
  rewrite Hvals, length_map. exact Hlen.
Qed.

(** X11: a missing vegetation index stops the whole analysis.  When the
    feature file has a row of the parcel without [ndvi],
    [get_temporal_patterns] gives (None, None): the regression gets one
    ordinal per row but one value per non-missing index, and refuses the
    unequal lengths (when nothing fails before). *)
Theorem get_temporal_patterns_missing_ndvi (pid : cell) (w : world)
        (features : DataFrame) (r : row) :
  read_csv (disk w) "data/features_daily.csv" ["date"] = Ok features ->
  In r (rows features) ->
  cell_eqb (get r "parcelle_id") pid = true ->
  get r "ndvi" = NA ->
  exists line,
    get_temporal_patterns S fsqrt seasonal_decompose pid w
    = (Ok (None, None),
       {| self := self w; disk := disk w; stdout := stdout w ++ [line] |}).
Proof.
  intros Hread Hin Hpid Hna.
  destruct (get_temporal_patterns S fsqrt seasonal_decompose pid w)
    as [[[h t]|e] w'] eqn:Hrun.
  - destruct t as [t|].
    + exfalso. apply get_temporal_patterns_run in Hrun.
      destruct Hrun as [features' [sorted [vals [ords [h' H]]]]].
      destruct H as [_ [_ [Hread' [Hperm [Hvals [Hords [Hreg _]]]]]]].
      rewrite Hread in Hread'. injection Hread' as <-.
      apply linear_regression_inv in Hreg. destruct Hreg as [Hlen _].
      apply mapM_length in Hvals, Hords.
      rewrite Hvals, Hords, !length_map in Hlen.
      rewrite filter_map_length in Hlen. symmetry in Hlen.
      apply filter_length_all in Hlen. rewrite Forall_forall in Hlen.
      assert (Hr : In r sorted).
      { eapply Permutation_in; [exact Hperm|].
        unfold parcel_features. apply filter_In. auto. }
      apply Hlen in Hr. cbn [snd] in Hr. rewrite Hna in Hr. discriminate.
    + apply get_temporal_patterns_success in Hrun.
      destruct Hrun as [[-> [_ [line ->]]]|[f [h' [t' [_ [Ht _]]]]]];
        [now exists line|discriminate].
  - exfalso. revert Hrun. unfold get_temporal_patterns.
    apply try_except_no_raise. intros e0 w0 e1 w1. discriminate.
Qed.

End TemporalPatterns.

Lemma get_temporal_patterns_missing_ndvi_witness :
  ndvi_observations gapped_features (Str "P001") = 12%nat /\
  exists line,
    get_temporal_patterns insertion_sorter Qsqrt flat_decompose (Str "P001")
                          (world_with_features gapped_features)
    = (Ok (None, None),
       {| self := self (world_with_features gapped_features);
          disk := disk (world_with_features gapped_features);
          stdout := stdout (world_with_features gapped_features) ++ [line] |}).
Proof.
  split; [reflexivity|].
  apply (get_temporal_patterns_missing_ndvi
           insertion_sorter Qsqrt flat_decompose (Str "P001")
           (world_with_features gapped_features) gapped_features
           (feature_row "P001" 19722 NA)).
  - reflexivity.
  - now left.
  - reflexivity.
  - reflexivity.
Defined.

(** ** The yield analysis, step by step *)

Lemma residuals_swap (g : Q -> Q) (xs ys : list Q) :
  map (fun yp : Q * Q => (fst yp - snd yp)%Q) (combine ys (map g xs))
  = map (fun xy : Q * Q => (snd xy - g (fst xy))%Q) (combine xs ys).
Proof.
  revert ys. induction xs as [|x xs IH]; intros [|y ys]; simpl; auto.
  now rewrite IH.
Qed.

Lemma Qsum_combine_affine (s b : Q) (xs ys : list Q) :
  List.length xs = List.length ys ->
  Qsum (map (fun xy : Q * Q => snd xy - (s * fst xy + b)) (combine xs ys))
  == Qsum ys - s * Qsum xs - Qlen xs * b.
Proof.
  revert ys. induction xs as [|x xs IH]; intros [|y ys] Hlen; try discriminate.
  - unfold Qlen. simpl. ring.
  - cbn [combine map Qsum fold_right fst snd].
    fold (Qsum (map (fun xy : Q * Q => snd xy - (s * fst xy + b)) (combine xs ys))).
    fold (Qsum xs). fold (Qsum ys).
    rewrite IH by (simpl in Hlen; congruence). rewrite Qlen_cons. ring.
Qed.

(** The residuals of a least-squares line with an intercept sum to zero. *)
Lemma Qsum_residuals (s b : Q) (xs ys : list Q) :
  List.length xs = List.length ys -> xs <> [] ->
  b = (Qmean ys - s * Qmean xs)%Q ->
  Qsum (map (fun xy : Q * Q => snd xy - (s * fst xy + b)) (combine xs ys)) == 0.
Proof.
  intros Hlen Hne ->. rewrite Qsum_combine_affine by exact Hlen.
  assert (Hy : ys <> []) by (intros ->; destruct xs; [contradiction|discriminate]).
  assert (E1 : Qlen xs * Qmean xs == Qsum xs) by now apply Qlen_mean.
  assert (E2 : Qlen xs * Qmean ys == Qsum ys).
  { unfold Qlen. rewrite Hlen. now apply Qlen_mean. }
  rewrite <- E1, <- E2. ring.
Qed.

Section YieldPatterns.

Variable S : Sorter.
Variable fsqrt : Q -> Q.
Variable noise : nat -> Q.

(** What a run of [analyze_yield_patterns] that gives a result went
    through: a regression of the values [ys] on the ordinals [xs] of the
    parcel's rows. *)
Lemma analyze_yield_patterns_run (pid : cell) (w w' : world) (r : YieldAnalysis) :
  analyze_yield_patterns S fsqrt noise pid w = (Ok (Some r), w') ->
  exists yields xs ys,
    yield_history (self w) = Some yields /\
    List.length xs = List.length (parcel_yields yields pid) /\
    linear_regression xs ys = Ok (pente (tendance r), intercept (tendance r)) /\
    map snd (residus r)
    = map (fun xy : Q * Q =>
             (snd xy - (pente (tendance r) * fst xy + intercept (tendance r)))%Q)
          (combine xs ys) /\
    List.length (residus r) = List.length xs /\
    moyenne (statistiques_resume r) = Qmean ys /\
    minimum (statistiques_resume r) = Qminimum (hd 0%Q ys) ys /\
    maximum (statistiques_resume r) = Qmaximum (hd 0%Q ys) ys.
Proof.
  unfold analyze_yield_patterns, try_except, bindM, lift, get_self, the_frame,
    raise, ret, print. simpl.
  destruct (yield_history (self w)) as [yields|] eqn:Hy; simpl; [|fails].
  destruct (filter_eq yields "parcelle_id" pid) as [pdata|e] eqn:Hfilter; simpl;
    [|fails].
  apply filter_eq_rows in Hfilter. destruct Hfilter as [_ ->].
  match goal with |- context [empty ?a] => split_on (empty a) end.
  destruct (sort_values S _ "annee") as [sorted|e] eqn:Hsort; simpl; [|fails].
  apply sort_values_ok in Hsort. destruct Hsort as [_ Hperm]. cbn [rows] in Hperm.
  match goal with |- context [getitem ?a ?b] => split_on (getitem a b) end.
  match goal with |- context [existsb ?a ?b] => split_on (existsb a b) end.
  1: match goal with |- context [interpolate ?a] => split_on (interpolate a) end.
  all: match goal with |- context [Nat.eqb ?a ?b] => split_on (Nat.eqb a b) end.
  all: try match goal with
           | |- context [mapM (fun ci => add_cell (fst ci) (noise (snd ci))) ?a] =>
               split_on (mapM (fun ci => add_cell (fst ci) (noise (snd ci))) a)
           end.
  all: match goal with
       | |- context [mapM ordinal_of ?a] =>
           destruct (mapM ordinal_of a) as [xs|] eqn:Hxs; simpl; try fails
       end.
  all: match goal with
       | |- context [mapM as_float ?a] =>
           destruct (mapM as_float a) as [ys|] eqn:Hys; simpl; try fails
       end.
  all: destruct (linear_regression xs ys) as [[slope icpt]|] eqn:Hreg; simpl; try fails.
  all: match goal with |- context [variation ?a ?b] => split_on (variation a b) end.
  all: intros H; injection H as <- <-; simpl.
  all: exists yields, xs, ys.
  all: pose proof (linear_regression_inv _ _ _ _ Hreg) as [Hlen _].
  all: pose proof (mapM_length _ _ _ Hxs) as Hlx; rewrite length_map in Hlx.
  all: assert (Hv : List.length
                      (map (fun yp : Q * Q => (fst yp - snd yp)%Q)
                           (combine ys (map (fun x => (slope * x + icpt)%Q) xs)))
                    = List.length xs)
    by (rewrite length_map, length_combine, length_map; lia).
  all: split; [reflexivity|].
  all: split; [rewrite Hlx; symmetry; apply Permutation_length; exact Hperm|].
  all: split; [exact Hreg|].
  all: split; [rewrite map_snd_combine_eq, residuals_swap;
               [reflexivity|rewrite length_map; congruence]|].
  all: split; [rewrite length_combine, length_map, Hv; lia|].
  all: repeat split.
Qed.

(** X12: the residuals [analyze_yield_patterns] returns sum to zero (the
    fitted line goes through the mean point), and there is one residual per
    row of the parcel in the yield history. *)
Theorem yield_residuals_balance (pid : cell) (w w' : world) (r : YieldAnalysis) :
  analyze_yield_patterns S fsqrt noise pid w = (Ok (Some r), w') ->
  Qsum (map snd (residus r)) == 0 /\
  exists yields,
    yield_history (self w) = Some yields /\
    List.length (residus r) = List.length (parcel_yields yields pid).
Proof.
  intros H. apply analyze_yield_patterns_run in H.
  destruct H as [yields [xs [ys [Hy [Hrows [Hreg [Hres [Hlen _]]]]]]]].
  split; [|exists yields; split; [exact Hy|congruence]].
  rewrite Hres. apply linear_regression_inv in Hreg.
  destruct Hreg as [Hxy [Hne Hicpt]].
  now apply Qsum_residuals.
Qed.

(** X13: a parcel without a row in the yield history, or a manager without
    a yield history, gets no analysis: [analyze_yield_patterns] returns
    None, prints one line and changes nothing else. *)
Theorem analyze_yield_patterns_unknown_parcel (pid : cell) (w : world) :
  (forall yields, yield_history (self w) = Some yields -> parcel_yields yields pid = []) ->
  exists line,
    analyze_yield_patterns S fsqrt noise pid w
    = (Ok None, {| self := self w; disk := disk w; stdout := stdout w ++ [line] |}).
Proof.
  intros Hnone.
  unfold analyze_yield_patterns, try_except, bindM, lift, get_self, the_frame,
    raise, ret, print. simpl.
  destruct (yield_history (self w)) as [yields|] eqn:Hy; simpl;
    [|eexists; reflexivity].
  destruct (filter_eq yields "parcelle_id" pid) as [pdata|e] eqn:Hfilter; simpl;
    [|eexists; reflexivity].
  apply filter_eq_rows in Hfilter. destruct Hfilter as [_ ->].
  specialize (Hnone yields eq_refl). unfold parcel_yields in Hnone.
  rewrite Hnone. unfold empty. cbn [columns rows].
  destruct (columns yields); simpl; eexists; reflexivity.
Qed.

End YieldPatterns.

Lemma yield_residuals_balance_witness :
  exists r w',
    analyze_yield_patterns insertion_sorter Qsqrt small_noise (Str "P003")
                           (world_with_yields centred_yields) = (Ok (Some r), w') /\
    List.length (residus r) = 3%nat /\
    Qsum (map snd (residus r)) == 0.
Proof.
  destruct (analyze_yield_patterns insertion_sorter Qsqrt small_noise (Str "P003")
              (world_with_yields centred_yields)) as [res w'] eqn:Hrun.
  assert (Hres : res = fst (analyze_yield_patterns insertion_sorter Qsqrt small_noise
                              (Str "P003") (world_with_yields centred_yields)))
    by now rewrite Hrun.
  vm_compute in Hres. subst res.
  do 2 eexists. split; [reflexivity|]. split; [reflexivity|].
  apply (yield_residuals_balance insertion_sorter Qsqrt small_noise (Str "P003")
           (world_with_yields centred_yields) w' _ Hrun).
Defined.

Lemma analyze_yield_patterns_unknown_parcel_witness :
  exists line,
    analyze_yield_patterns insertion_sorter Qsqrt small_noise (Str "P009")
                           (world_with_yields constant_yields)
    = (Ok None,
       {| self := self (world_with_yields constant_yields);
          disk := disk (world_with_yields constant_yields);
          stdout := stdout (world_with_yields constant_yields) ++ [line] |}).
Proof.
  apply (analyze_yield_patterns_unknown_parcel insertion_sorter Qsqrt small_noise
           (Str "P009") (world_with_yields constant_yields)).
  intros yields H. injection H as <-. reflexivity.
Defined.

(** ** The shape of the history *)

Lemma rolling_mean_length (w : nat) (xs : list Q) :
  (1 <= w)%nat -> List.length (rolling_mean w xs) = (List.length xs + 1 - w)%nat.
Proof.
  intros Hw. induction xs as [|x xs IH]; [cbn [rolling_mean List.length]; lia|].
  cbn [rolling_mean]. destruct (Nat.leb w (List.length (x :: xs))) eqn:E.
  - apply Nat.leb_le in E. cbn [List.length] in *. rewrite IH. lia.
  - apply Nat.leb_gt in E. cbn [List.length] in *. lia.
Qed.

Section Summaries.

Variable S : Sorter.
Variable fsqrt : Q -> Q.
Variable seasonal_decompose : list (cell * Q) -> nat -> result Decomposition.
Variable noise : nat -> Q.

(** X15: when [get_temporal_patterns] gives a history, every row of the
    parcel in the feature file has a vegetation index and there are at
    least 12 of them; the moving average holds one mean per full window of
    30 observations, so it is empty below 30. *)
Theorem ndvi_history_shape (pid : cell) (w w' : world) (h : History) (t : Trend) :
  get_temporal_patterns S fsqrt seasonal_decompose pid w = (Ok (Some h, Some t), w') ->
  exists features,
    read_csv (disk w) "data/features_daily.csv" ["date"] = Ok features /\
    ndvi_observations features pid = List.length (parcel_features features pid) /\
    (12 <= ndvi_observations features pid)%nat /\
    List.length (ndvi_moving_avg h) = (ndvi_observations features pid - 29)%nat.
Proof.
  intros H. apply get_temporal_patterns_run in H.
  destruct H as [features [sorted [vals [ords [h' H]]]]].
  destruct H as [Hh [_ [Hread [Hperm [Hvals [Hords [Hreg [H12 [Hma _]]]]]]]]].
  injection Hh as <-. exists features. split; [exact Hread|].
  apply linear_regression_inv in Hreg. destruct Hreg as [Hlen [Hne _]].
  pose proof (mapM_length _ _ _ Hvals) as Hlv.
  pose proof (mapM_length _ _ _ Hords) as Hlo.
  rewrite length_map, filter_map_length in Hlv. rewrite length_map in Hlo.
  cbn [snd] in Hlv.
  assert (Hobs : ndvi_observations features pid = List.length vals).
  { unfold ndvi_observations. rewrite <- filter_andb.
    fold (parcel_features features pid).
    rewrite (filter_length_perm _ _ _ Hperm). now symmetry. }
  assert (Hall : List.length vals = List.length (parcel_features features pid)).
  { rewrite (Permutation_length Hperm). congruence. }
  split; [congruence|]. split; [lia|].
  rewrite Hma, rolling_mean_length by lia. lia.
Qed.

End Summaries.

Lemma ndvi_history_shape_witness :
  exists h t w',
    get_temporal_patterns insertion_sorter Qsqrt flat_decompose (Str "P001")
                          (world_with_features full_features)
    = (Ok (Some h, Some t), w') /\
    ndvi_observations full_features (Str "P001") = 30%nat /\
    List.length (ndvi_moving_avg h) = 1%nat.
Proof.
  assert (H : exists h t,
             fst (get_temporal_patterns insertion_sorter Qsqrt flat_decompose (Str "P001")
                    (world_with_features full_features)) = Ok (Some h, Some t)).
  { vm_compute. do 2 eexists. reflexivity. }
  destruct H as [h [t H]].
  destruct (get_temporal_patterns insertion_sorter Qsqrt flat_decompose (Str "P001")
              (world_with_features full_features)) as [res w'] eqn:Hrun.
  cbn [fst] in H. subst res. exists h, t, w'. split; [reflexivity|].
  destruct (ndvi_history_shape insertion_sorter Qsqrt flat_decompose (Str "P001")
              (world_with_features full_features) w' h t Hrun)
    as [features [Hread [_ [_ Hma]]]].
  change (Ok full_features = Ok features) in Hread. injection Hread as <-.
  split; [vm_compute; reflexivity|]. rewrite Hma. vm_compute. reflexivity.
Defined.

(** ** The yield of 2024 *)

Lemma mapM_total {A B} (f : A -> result B) (l : list A) :
  Forall (fun a => exists b, f a = Ok b) l -> exists bs, mapM f l = Ok bs.
Proof.
  induction 1 as [|a l [b Hb] _ [bs IH]]; simpl; [eauto|].
  rewrite Hb, IH. simpl. eauto.
Qed.

Lemma filter_year_total (df : DataFrame) (c : string) (y : Z) :
  has_column df c = true ->
  Forall (fun r => is_datetime (get r c) = true) (rows df) ->
  filter_year df c y
  = Ok {| columns := columns df; rows := filter (dated_in c y) (rows df) |}.
Proof.
  intros Hc Hall.
  destruct (filter_year df c y) as [out|e] eqn:E.
  - apply filter_year_rows in E. destruct E as [_ ->]. reflexivity.
  - exfalso. unfold filter_year, getitem in E. rewrite Hc in E. simpl in E.
    rewrite mapM_map in E.
    destruct (mapM_total (fun r => year_is y (get r c)) (rows df)) as [mask Hmask].
    + eapply Forall_impl; [|exact Hall]. intros r Hr. simpl in Hr.
      destruct (get r c); try discriminate Hr; simpl; eauto.
    + rewrite Hmask in E. discriminate.
Qed.

Lemma to_datetime_year_datetime (c c' : cell) :
  to_datetime_year c = Ok c' -> is_datetime c' = true.
Proof.
  destruct c as [|q|s|t]; simpl.
  - intros H. injection H as <-. reflexivity.
  - destruct (andb _ _); [|discriminate]. intros H. injection H as <-. reflexivity.
  - destruct (parse_year s); [|discriminate]. intros H. injection H as <-. reflexivity.
  - intros H. injection H as <-. reflexivity.
Qed.

Lemma merge_left_in (left right out : DataFrame) (on : string) :
  merge_left left right on = Ok out ->
  forall r,
    In r (rows out) <->
    exists l,
      In l (rows left) /\
      (((forall m, In m (rows right) -> key_eqb (get m on) (get l on) = false) /\
        r = merged_row on (columns left) (columns right) l None) \/
       exists m, In m (rows right) /\ key_eqb (get m on) (get l on) = true /\
                 r = merged_row on (columns left) (columns right) l (Some m)).
Proof.
  unfold merge_left, getitem.
  destruct (has_column left on); simpl; [|discriminate].
  destruct (has_column right on); simpl; [|discriminate].
  destruct (mergeable _ _); simpl; [|discriminate].
  intros H. injection H as <-. cbn [rows]. intros r. rewrite in_flat_map.
  split; intros [l [Hl Hr]]; exists l; (split; [exact Hl|]).
  - destruct (filter _ (rows right)) as [|m0 ms] eqn:Hf.
    + destruct Hr as [<-|[]]. left. split; [|reflexivity].
      intros m Hm. destruct (key_eqb (get m on) (get l on)) eqn:E; [|reflexivity].
      assert (Hin : In m (filter (fun r0 => key_eqb (get r0 on) (get l on)) (rows right)))
        by (apply filter_In; auto).
      rewrite Hf in Hin. contradiction.
    + right.
      change (In r (map (fun r' => merged_row on (columns left) (columns right) l (Some r'))
                        (m0 :: ms))) in Hr.
      rewrite <- Hf in Hr. apply in_map_iff in Hr.
      destruct Hr as [m [<- Hm]]. apply filter_In in Hm. exists m. tauto.
  - destruct Hr as [[Hnone ->]|[m [Hm [Hkey ->]]]].
    + destruct (filter _ (rows right)) as [|m0 ms] eqn:Hf; [now left|].
      assert (Hin : In m0 (filter (fun r0 => key_eqb (get r0 on) (get l on)) (rows right)))
        by (rewrite Hf; now left).
      apply filter_In in Hin. destruct Hin as [Hin Hkey].
      rewrite (Hnone m0 Hin) in Hkey. discriminate.
    + assert (Hin : In m (filter (fun r0 => key_eqb (get r0 on) (get l on)) (rows right)))
        by (apply filter_In; auto).
      destruct (filter _ (rows right)) as [|m0 ms] eqn:Hf; [contradiction|].
      change (In (merged_row on (columns left) (columns right) l (Some m))
                 (map (fun r' => merged_row on (columns left) (columns right) l (Some r'))
                      (m0 :: ms))).
      apply in_map_iff. exists m. split; [reflexivity|exact Hin].
Qed.

Lemma key_kind_of_texts (col : list cell) :
  Forall (fun c => is_text c = true) col ->
  key_kind_of col = None \/ key_kind_of col = Some Texts.
Proof.
  intros H. unfold key_kind_of.
  assert (Hf : Forall (fun c => is_text c = true) (filter notna col)).
  { apply Forall_forall. intros c Hc. apply filter_In in Hc.
    rewrite Forall_forall in H. now apply H. }
  destruct (filter notna col) as [|c cs]; [now left|]. right.
  inversion Hf as [|? ? Hc Hcs]; subst.
  destruct c; try discriminate Hc. cbn [forallb is_num is_date is_text andb].
  assert (E : forallb is_text cs = true)
    by (apply forallb_forall; now apply Forall_forall).
  now rewrite E.
Qed.

Lemma texts_mergeable (left right : list cell) :
  Forall (fun c => is_text c = true) left ->
  Forall (fun c => is_text c = true) right ->
  mergeable left right = true.
Proof.
  intros Hl Hr. unfold mergeable.
  destruct (key_kind_of_texts left Hl) as [->| ->]; [reflexivity|].
  destruct (key_kind_of_texts right Hr) as [->| ->]; reflexivity.
Qed.

Lemma merge_left_ok (left right : DataFrame) (on : string) :
  has_column left on = true -> has_column right on = true ->
  mergeable (map (fun r => get r on) (rows left))
            (map (fun r => get r on) (rows right)) = true ->
  merge_left left right on
  = Ok {| columns := merged_columns on (columns left) (columns right);
          rows := flat_map
                    (fun l =>
                       match filter (fun r => key_eqb (get r on) (get l on))
                                    (rows right) with
                       | [] => [merged_row on (columns left) (columns right) l None]
                       | ms => map (fun r => merged_row on (columns left) (columns right)
                                                        l (Some r)) ms
                       end)
                    (rows left) |}.
Proof.
  intros Hl Hr Hm. unfold merge_left, getitem. rewrite Hl, Hr. cbn [bind].
  now rewrite Hm.
Qed.

Lemma select_total (df : DataFrame) (cols : list string) :
  (forall c, In c cols -> has_column df c = true) ->
  select df cols
  = Ok {| columns := cols;
          rows := map (fun r => map (fun c => (c, get r c)) cols) (rows df) |}.
Proof.
  intros H. unfold select.
  destruct (find _ cols) as [c|] eqn:Hfind; [|reflexivity].
  apply find_some in Hfind. destruct Hfind as [Hc Hneg].
  rewrite (H c Hc) in Hneg. discriminate.
Qed.

Lemma filter_map_swap {A B} (p : B -> bool) (f : A -> B) (l : list A) :
  filter p (map f l) = map f (filter (fun a => p (f a)) l).
Proof.
  induction l as [|a l IH]; simpl; [reflexivity|].
  destruct (p (f a)); simpl; now rewrite IH.
Qed.

Lemma filter_ext_In {A} (p q : A -> bool) (l : list A) :
  (forall a, In a l -> p a = q a) -> filter p l = filter q l.
Proof.
  induction l as [|a l IH]; simpl; intros H; [reflexivity|].
  rewrite (H a) by now left. rewrite IH; [reflexivity|].
  intros a' Ha'. apply H. now right.
Qed.

Lemma Forall2_map_both {A B C} (P : B -> C -> Prop) (f : A -> B) (g : A -> C)
      (l : list A) :
  (forall a, In a l -> P (f a) (g a)) -> Forall2 P (map f l) (map g l).
Proof.
  induction l as [|a l IH]; simpl; intros H; constructor.
  - apply H. now left.
  - apply IH. intros a' Ha'. apply H. now right.
Qed.

Lemma dated_in_set (y : row) (c : string) (v : cell) (year : Z) :
  dated_in c year (set y c v)
  = match v with Date t => Z.eqb (dt_year t) year | _ => false end.
Proof. unfold dated_in. now rewrite get_set_same. Qed.

(** The run of the yield enrichment when the history has its three
    columns, every year can be read and the parcels of both tables are
    texts: the rows of 2024, cut down to the three columns, joined to the
    table. *)
Lemma enrich_with_yield_history_run (data yields : DataFrame) (w : world) :
  yield_history (self w) = Some yields ->
  (forall c, In c yield_columns -> In c (columns yields)) ->
  Forall (fun y => exists c, to_datetime_year (get y "annee") = Ok c) (rows yields) ->
  In "parcelle_id" (columns data) ->
  text_parcels data -> text_parcels yields ->
  exists conv picked data' w',
    Forall2 (fun y v => to_datetime_year (get y "annee") = Ok v) (rows yields) conv /\
    columns picked = yield_columns /\
    rows picked
    = map (fun yv : row * cell =>
             [("parcelle_id", get (fst yv) "parcelle_id"); ("annee", snd yv);
              ("rendement", get (fst yv) "rendement")])
          (filter (fun yv : row * cell =>
                     match snd yv with
                     | Date t => Z.eqb (dt_year t) 2024
                     | _ => false
                     end)
                  (combine (rows yields) conv)) /\
    rows data'
    = flat_map
        (fun l =>
           match filter (fun m => key_eqb (get m "parcelle_id") (get l "parcelle_id"))
                        (rows picked) with
           | [] => [merged_row "parcelle_id" (columns data) yield_columns l None]
           | ms => map (fun m => merged_row "parcelle_id" (columns data) yield_columns
                                            l (Some m)) ms
           end)
        (rows data) /\
    enrich_with_yield_history data w = (Ok data', w') /\
    stdout w' = stdout w.
Proof.
  intros Hy Hcols Hyears Hpid Htd Hty.
  destruct (mapM_total _ _ Hyears) as [conv Hconv].
  assert (Hannee : has_column yields "annee" = true).
  { apply has_column_In, Hcols. simpl. auto. }
  set (yields' := setitem yields "annee" conv).
  assert (Hcols' : columns yields' = columns yields).
  { unfold yields', setitem. cbn [columns]. now rewrite Hannee. }
  assert (Hdt : Forall (fun r => is_datetime (get r "annee") = true) (rows yields')).
  { unfold yields', setitem. cbn [rows]. apply Forall_forall. intros r Hr.
    apply in_map_iff in Hr. destruct Hr as [[y v] [<- Hin]]. cbn [fst snd].
    rewrite get_set_same. apply mapM_Forall2 in Hconv.
    apply (in_combine_Forall2 _ _ _ _ _ Hconv) in Hin.
    now apply to_datetime_year_datetime in Hin. }
  set (picked := {| columns := yield_columns;
                    rows := map (fun r => map (fun c => (c, get r c)) yield_columns)
                                (filter (dated_in "annee" 2024) (rows yields')) |}).
  assert (Hrows : rows picked
            = map (fun yv : row * cell =>
                     [("parcelle_id", get (fst yv) "parcelle_id"); ("annee", snd yv);
                      ("rendement", get (fst yv) "rendement")])
                  (filter (fun yv : row * cell =>
                             match snd yv with
                             | Date t => Z.eqb (dt_year t) 2024
                             | _ => false
                             end)
                          (combine (rows yields) conv))).
  { unfold picked, yields', setitem. cbn [rows].
    rewrite filter_map_swap, map_map.
    rewrite (filter_ext_In _ (fun yv : row * cell =>
                                match snd yv with
                                | Date t => Z.eqb (dt_year t) 2024
                                | _ => false
                                end))
      by (intros yv _; apply dated_in_set).
    apply map_ext. intros [y v]. unfold yield_columns. cbn [map fst snd].
    now rewrite get_set_same, !get_set_other by discriminate. }
  assert (Hmergeable : mergeable (map (fun r => get r "parcelle_id") (rows data))
                                 (map (fun r => get r "parcelle_id") (rows picked))
                       = true).
  { apply texts_mergeable.
    - apply Forall_map. exact Htd.
    - apply Forall_map. rewrite Hrows. apply Forall_forall. intros m Hm.
      apply in_map_iff in Hm. destruct Hm as [[y v] [<- Hyv]]. cbn [get fst snd].
      rewrite String.eqb_refl. apply filter_In in Hyv. destruct Hyv as [Hyv _].
      apply in_combine_l in Hyv. unfold text_parcels in Hty.
      rewrite Forall_forall in Hty. now apply Hty. }
  pose proof (merge_left_ok data picked "parcelle_id"
                (proj2 (has_column_In data "parcelle_id") Hpid) eq_refl Hmergeable)
    as Hmerge.
  assert (Hrun : exists w',
             enrich_with_yield_history data w
             = (merge_left data picked "parcelle_id", w') /\ stdout w' = stdout w).
  { unfold enrich_with_yield_history, try_except, bindM, get_self, the_frame, lift,
      set_yield_history, put_self, raise, ret, print. simpl.
    rewrite Hy. simpl. unfold getitem at 1. rewrite Hannee. simpl.
    rewrite mapM_map, Hconv. simpl. fold yields'.
    assert (Hannee' : has_column yields' "annee" = true)
      by (unfold has_column; rewrite Hcols'; exact Hannee).
    rewrite (filter_year_total yields' "annee" 2024 Hannee' Hdt).
    rewrite (select_total _ ["parcelle_id"; "annee"; "rendement"]).
    2:{ intros c Hc. unfold has_column. cbn [columns]. rewrite Hcols'.
        apply has_column_In, Hcols, Hc. }
    cbn [rows columns].
    change {| columns := ["parcelle_id"; "annee"; "rendement"];
              rows := map (fun r => map (fun c => (c, get r c))
                                        ["parcelle_id"; "annee"; "rendement"])
                          (filter (dated_in "annee" 2024) (rows yields')) |}
      with picked.
    rewrite Hmerge. simpl. eexists. split; reflexivity. }
  destruct Hrun as [w' [Hrun Hout]]. rewrite Hmerge in Hrun.
  exists conv, picked. eexists. exists w'.
  split; [now apply mapM_Forall2|]. split; [reflexivity|].
  split; [exact Hrows|]. split; [|split; [exact Hrun|exact Hout]].
  reflexivity.
Qed.

Lemma yield_year_converted (y : row) (v : cell) :
  to_datetime_year (get y "annee") = Ok v ->
  match yield_year y with Some year => Z.eqb year 2024 | None => false end
  = match v with Date t => Z.eqb (dt_year t) 2024 | _ => false end.
Proof.
  intros Hv. unfold yield_year. rewrite Hv. now destruct v.
Qed.

(** X16: the yield enrichment is a left join on the parcel with the rows
    of 2024 of the yield history.  When the history has its three columns
    with readable years, the parcels of both tables are texts and the table
    has no [annee] or [rendement] of its own, it returns without printing.
    The rows returned are, row of the table after row, one block each: for
    a parcel without a yield of 2024 the row once, with its own cells and
    no [annee] and [rendement]; otherwise the row once per yield row of
    2024 of its parcel, in the order of the history, with its own cells
    and the date and the [rendement] of that yield row. *)
Theorem yield_of_2024_attached (data yields : DataFrame) (w : world) :
  yield_history (self w) = Some yields ->
  (forall c, In c yield_columns -> In c (columns yields)) ->
  Forall (fun y => exists c, to_datetime_year (get y "annee") = Ok c) (rows yields) ->
  In "parcelle_id" (columns data) ->
  ~ In "annee" (columns data) -> ~ In "rendement" (columns data) ->
  text_parcels data -> text_parcels yields ->
  exists data' w' blocks,
    enrich_with_yield_history data w = (Ok data', w') /\ stdout w' = stdout w /\
    rows data' = List.concat blocks /\
    Forall2
      (fun block l =>
         let own r := forall c, In c (columns data) -> plain c = true ->
                                get r c = get l c in
         (yields_of_2024 yields l = [] /\
          exists r, block = [r] /\ own r /\
                    get r "annee" = NA /\ get r "rendement" = NA) \/
         (yields_of_2024 yields l <> [] /\
          Forall2 (fun r y => own r /\
                              to_datetime_year (get y "annee") = Ok (get r "annee") /\
                              get r "rendement" = get y "rendement")
                  block (yields_of_2024 yields l)))
      blocks (rows data).
Proof.
  intros Hy Hcols Hyears Hpid Hannee Hrend Htd Hty.
  destruct (enrich_with_yield_history_run data yields w Hy Hcols Hyears Hpid Htd Hty)
    as [conv [picked [data' [w' [Hconv [Hpc [Hpr [Hrows [Hrun Hout]]]]]]]]].
  set (F := fun l : row =>
              match filter (fun m => key_eqb (get m "parcelle_id") (get l "parcelle_id"))
                           (rows picked) with
              | [] => [merged_row "parcelle_id" (columns data) yield_columns l None]
              | ms => map (fun m => merged_row "parcelle_id" (columns data) yield_columns
                                               l (Some m)) ms
              end) in *.
  exists data', w', (map F (rows data)).
  split; [exact Hrun|]. split; [exact Hout|].
  split; [rewrite Hrows; apply flat_map_concat_map|].
  assert (Hleft : forall l p c, In c (columns data) -> plain c = true ->
            get (merged_row "parcelle_id" (columns data) yield_columns l p) c = get l c).
  { intros l p c Hc Hplain. apply merged_row_left; auto.
    destruct (String.eqb c "parcelle_id") eqn:E; [left; now apply String.eqb_eq|].
    right. unfold yield_columns. simpl.
    apply String.eqb_neq in E. intros [H|[H|[H|[]]]]; subst c; auto. }
  assert (Hright : forall l p c, c = "annee" \/ c = "rendement" ->
            get (merged_row "parcelle_id" (columns data) yield_columns l p) c
            = match p with Some m => get m c | None => NA end).
  { intros l p c [-> | ->]; apply merged_row_right; auto;
      try (unfold yield_columns; simpl; now auto); discriminate. }
  rewrite <- (map_id (rows data)) at 2. apply Forall2_map_both.
  intros l _. cbv zeta.
  set (sel := fun yv : row * cell =>
                andb (key_eqb (get (fst yv) "parcelle_id") (get l "parcelle_id"))
                     (match snd yv with
                      | Date t => Z.eqb (dt_year t) 2024
                      | _ => false
                      end)).
  set (pick := fun yv : row * cell =>
                 [("parcelle_id", get (fst yv) "parcelle_id"); ("annee", snd yv);
                  ("rendement", get (fst yv) "rendement")]).
  assert (Hmatch : filter (fun m => key_eqb (get m "parcelle_id") (get l "parcelle_id"))
                          (rows picked)
                   = map pick (filter sel (combine (rows yields) conv))).
  { rewrite Hpr. fold pick. rewrite filter_map_swap, filter_andb. f_equal.
    apply filter_ext_In. intros [y v] _. unfold sel, pick. cbn [get fst snd].
    rewrite String.eqb_refl. apply andb_comm. }
  assert (Hys : yields_of_2024 yields l
                = map fst (filter sel (combine (rows yields) conv))).
  { unfold yields_of_2024.
    rewrite <- (map_fst_combine_eq (rows yields) conv) at 1
      by (symmetry; eapply Forall2_length; exact Hconv).
    rewrite filter_map_swap. f_equal. apply filter_ext_In. intros [y v] Hyv.
    unfold sel. cbn [fst snd]. f_equal.
    apply yield_year_converted. apply (in_combine_Forall2 _ _ _ _ _ Hconv Hyv). }
  assert (Hsel : forall yv, In yv (filter sel (combine (rows yields) conv)) ->
                            to_datetime_year (get (fst yv) "annee") = Ok (snd yv)).
  { intros [y v] Hyv. apply filter_In in Hyv. destruct Hyv as [Hyv _].
    apply (in_combine_Forall2 _ _ _ _ _ Hconv Hyv). }
  unfold F. rewrite Hmatch, Hys.
  destruct (filter sel (combine (rows yields) conv)) as [|z zs].
  - left. split; [reflexivity|]. eexists. split; [reflexivity|].
    split; [intros c Hc Hp; now apply Hleft|].
    split; apply Hright; auto.
  - right. split; [discriminate|].
    change (Forall2
              (fun r y =>
                 (forall c, In c (columns data) -> plain c = true -> get r c = get l c) /\
                 to_datetime_year (get y "annee") = Ok (get r "annee") /\
                 get r "rendement" = get y "rendement")
              (map (fun m => merged_row "parcelle_id" (columns data) yield_columns
                                        l (Some m))
                   (map pick (z :: zs)))
              (map fst (z :: zs))).
    rewrite map_map. apply Forall2_map_both. intros [y v] Hyv.
    split; [intros c Hc Hp; now apply Hleft|].
    rewrite !Hright by auto. unfold pick. cbn [get fst snd].
    split; [|reflexivity]. apply (Hsel (y, v) Hyv).
Qed.

Lemma yield_of_2024_attached_witness :
  yields_of_2024 scenario_yields (hd [] (rows scenario_monitoring))
  = [yield_row "P001" 2024 (Num 4)] /\
  exists data' w',
    enrich_with_yield_history scenario_monitoring (world_with_yields scenario_yields)
    = (Ok data', w') /\
    stdout w' = stdout (world_with_yields scenario_yields) /\
    List.length (rows data') = 2%nat /\
    Forall (fun r => get r "rendement" = Num 4) (rows data').
Proof.
  split; [reflexivity|].
  destruct (yield_of_2024_attached scenario_monitoring scenario_yields
              (world_with_yields scenario_yields))
    as [data' [w' [blocks [Hrun [Hout [Hrows Hblocks]]]]]].
  - reflexivity.
  - intros c Hc. exact Hc.
  - repeat constructor; eexists; reflexivity.
  - simpl. auto.
  - simpl. intuition discriminate.
  - simpl. intuition discriminate.
  - repeat constructor.
  - repeat constructor.
  - exists data', w'. split; [exact Hrun|]. split; [exact Hout|].
    rewrite Hrows.
    inversion Hblocks as [|b1 l1 bs1 ls1 H1 Hrest1]; subst.
    inversion Hrest1 as [|b2 l2 bs2 ls2 H2 Hrest2]; subst.
    inversion Hrest2; subst.
    destruct H1 as [[H1 _]|[_ H1]]; [discriminate H1|].
    destruct H2 as [[H2 _]|[_ H2]]; [discriminate H2|].
    change (yields_of_2024 scenario_yields _) with [yield_row "P001" 2024 (Num 4)]
      in H1, H2.
    inversion H1 as [|r1 y1 t1 u1 [_ [_ Hr1]] Ht1]; subst. inversion Ht1; subst.
    inversion H2 as [|r2 y2 t2 u2 [_ [_ Hr2]] Ht2]; subst. inversion Ht2; subst.
    split; [reflexivity|]. simpl. repeat constructor; assumption.
Defined.

(** ** Features without a yield history *)

Lemma enrich_with_yield_history_unset (data : DataFrame) (w : world) :
  yield_history (self w) = None ->
  exists line,
    enrich_with_yield_history data w
    = (Ok data, {| self := self w; disk := disk w; stdout := stdout w ++ [line] |}).
Proof.
  intros H. unfold enrich_with_yield_history, try_except, bindM, get_self, the_frame,
    raise, ret, print. simpl. rewrite H. simpl. eexists. reflexivity.
Qed.

Lemma calculate_risk_metrics_missing_column (fsqrt : Q -> Q) (data : DataFrame)
      (c : string) :
  In c required_columns -> ~ In c (columns data) ->
  exists line, calculate_risk_metrics fsqrt data = (data, [line]).
Proof.
  intros Hc Hmiss. unfold calculate_risk_metrics, risk_metrics_body.
  destruct (find _ required_columns) as [col|] eqn:Hfind; [eauto|].
  exfalso. apply (find_none _ _ Hfind) in Hc. apply negb_false_iff in Hc.
  now apply has_column_In in Hc.
Qed.

Lemma renamed_features_absent (df : DataFrame) (c : string) :
  plain c = true -> c <> "latitude" -> c <> "longitude" ->
  ~ In c (columns df) ->
  ~ In c (columns (rename (drop df ["latitude_y"; "longitude_y"]) feature_renaming)).
Proof.
  intros Hp H1 H2 Hc Hin. unfold rename, drop in Hin. cbn [columns] in Hin.
  apply in_map_iff in Hin. destruct Hin as [k [Hk Hin]].
  apply filter_In in Hin. destruct Hin as [Hin _].
  apply String.eqb_eq in Hk. rewrite (feature_renaming_keeps k c Hp H1 H2) in Hk.
  apply String.eqb_eq in Hk. subst k. contradiction.
Qed.

Section Unscored.

Variable S : Sorter.
Variable fsqrt : Q -> Q.

(** X17: a manager without a yield history still gets features, unscored.
    When no table has a [rendement] column, the enrichment fails, then the
    scorer: [prepare_features] prints their two lines and returns and
    writes the joined table as it is, without [rendement]; scoring it again
    returns it unchanged. *)
Theorem features_without_yield_history (w w' : world) (data : DataFrame) :
  yield_history (self w) = None ->
  (forall t, monitoring_data (self w) = Some t \/ weather_data (self w) = Some t \/
             soil_data (self w) = Some t -> ~ In "rendement" (columns t)) ->
  prepare_features S fsqrt w = (Ok (Some data), w') ->
  ~ In "rendement" (columns data) /\
  (exists line line', stdout w' = stdout w ++ [line; line']) /\
  disk w' "data/features_daily.csv" = Some (CsvFile data) /\
  fst (calculate_risk_metrics fsqrt data) = data.
Proof.
  intros Hy Hnone.
  unfold prepare_features, try_except.
  unfold bindM at 1. unfold get_self.
  unfold bindM at 1. unfold the_frame.
  destruct (monitoring_data (self w)) as [monitoring|] eqn:Hmon;
    [|unfold raise, bindM, print, ret; simpl; fails].
  unfold ret at 1. unfold bindM at 1. unfold lift at 1.
  destruct (sort_values S monitoring "date") as [ms|e] eqn:Hms;
    [|unfold raise, bindM, print, ret; simpl; fails].
  unfold bindM at 1. unfold set_monitoring_data, bindM at 1, get_self, put_self.
  unfold bindM at 1.
  destruct (weather_data (self w)) as [weather|] eqn:Hwea;
    [|unfold raise, bindM, print, ret; simpl; fails].
  unfold ret at 1. unfold bindM at 1. unfold lift at 1.
  destruct (sort_values S weather "date") as [ws|e] eqn:Hws;
    [|unfold raise, bindM, print, ret; simpl; fails].
  unfold bindM at 1. unfold set_weather_data, bindM at 1, get_self, put_self.
  unfold bindM at 1. unfold lift at 1.
  destruct (merge_asof ms ws "date") as [joined|e] eqn:Hjoin;
    [|unfold raise, bindM, print, ret; simpl; fails].
  unfold bindM at 1.
  destruct (soil_data (self w)) as [soil|] eqn:Hsoil;
    [|unfold raise, bindM, print, ret; simpl; fails].
  unfold ret at 1. unfold bindM at 1. unfold lift at 1.
  destruct (merge_left joined soil "parcelle_id") as [merged|e] eqn:Hmerged;
    [|unfold raise, bindM, print, ret; simpl; fails].
  unfold bindM at 1.
  match goal with
  | |- context [enrich_with_yield_history merged ?w0] =>
      destruct (enrich_with_yield_history_unset merged w0) as [line Hrun];
      [exact Hy|rewrite Hrun]
  end.
  assert (Hcols : ~ In "rendement" (columns merged)).
  { apply sort_values_ok in Hms, Hws. destruct Hms as [Hmc _], Hws as [Hwc _].
    apply merge_asof_rows in Hjoin. destruct Hjoin as [Hjc _].
    apply merge_left_rows in Hmerged. destruct Hmerged as [Hgc _].
    rewrite Hgc, Hjc, Hmc, Hwc.
    apply merged_columns_absent; [reflexivity| |now apply Hnone; auto].
    apply merged_columns_absent; [reflexivity| |]; apply Hnone; auto. }
  apply (renamed_features_absent merged "rendement") in Hcols;
    [|reflexivity|discriminate|discriminate].
  destruct (calculate_risk_metrics_missing_column
              fsqrt (rename (drop merged ["latitude_y"; "longitude_y"]) feature_renaming)
              "rendement") as [line' Hscore]; [simpl; auto|exact Hcols|].
  unfold bindM at 1. unfold risk_metrics. unfold feature_renaming in Hscore.
  rewrite Hscore.
  unfold bindM, to_csv, get_disk, put_disk, ret. simpl.
  intros H. injection H as <- <-. simpl.
  split; [exact Hcols|]. split.
  { exists line, line'. now rewrite <- app_assoc. }
  split.
  { unfold fs_write. now rewrite String.eqb_refl. }
  fold feature_renaming. unfold feature_renaming at 1. now rewrite Hscore.
Qed.

End Unscored.

Lemma features_without_yield_history_witness :
  exists data w',
    prepare_features insertion_sorter Qsqrt world_without_yields = (Ok (Some data), w') /\
    ~ In "rendement" (columns data) /\
    (exists line line', stdout w' = [line; line']) /\
    fst (calculate_risk_metrics Qsqrt data) = data.
Proof.
  assert (H : exists data,
             fst (prepare_features insertion_sorter Qsqrt world_without_yields)
             = Ok (Some data)).
  { vm_compute. eexists. reflexivity. }
  destruct H as [data H].
  destruct (prepare_features insertion_sorter Qsqrt world_without_yields)
    as [res w'] eqn:Hrun.
  cbn [fst] in H. subst res. exists data, w'. split; [reflexivity|].
  destruct (features_without_yield_history insertion_sorter Qsqrt
              world_without_yields w' data) as [Hcols [Hout [_ Hfix]]].
  - reflexivity.
  - intros t [H|[H|H]]; injection H as <-; simpl; intuition discriminate.
  - exact Hrun.
  - auto.
Defined.


(** ** The script *)

Lemma bindM_ok {A B} (m : M A) (k : A -> M B) (w w' : world) (a : A) :
  m w = (Ok a, w') -> bindM m k w = k a w'.
Proof. intros H. unfold bindM. now rewrite H. Qed.

Section ScriptRun.

Variable S : Sorter.
Variable fsqrt : Q -> Q.
Variable seasonal_decompose : list (cell * Q) -> nat -> result Decomposition.
Variable noise : nat -> Q.
Variable show_head : DataFrame -> string.
Variable format4 : Q -> string.
Variable format2 : Q -> string.
Variable show_residuals : list (cell * Q) -> string.

Lemma get_temporal_patterns_returns (pid : cell) :
  returns (get_temporal_patterns S fsqrt seasonal_decompose pid).
Proof. apply returns_try. intros e. apply returns_print_ret. Qed.

Lemma analyze_yield_patterns_returns (pid : cell) :
  returns (analyze_yield_patterns S fsqrt noise pid).
Proof. apply returns_try. intros e. apply returns_print_ret. Qed.

Lemma returns_run {A} (m : M A) (w : world) :
  returns m -> exists a w', m w = (Ok a, w').
Proof.
  intros H. destruct (H w) as [a Ha]. destruct (m w) as [r w'].
  simpl in Ha. subst r. eauto.
Qed.

Lemma calculate_risk_metrics_of_run (features : option DataFrame) (w : world) :
  exists risk_metric w',
    calculate_risk_metrics_of fsqrt features w = (Ok risk_metric, w') /\
    (risk_metric = None <-> features = None).
Proof.
  destruct features as [data|]; unfold calculate_risk_metrics_of.
  - unfold bindM, risk_metrics, ret.
    destruct (calculate_risk_metrics fsqrt data) as [scored lines].
    do 2 eexists. split; [reflexivity|]. split; discriminate.
  - do 2 eexists. split; [reflexivity|]. tauto.
Qed.

(** X18: how the script ends.  Loading, preparing and the analyses never
    raise, but the script uses their results unguarded: without features it
    stops on [risk_metric.head()], with features but without a trend it
    stops on [trend['pente']], and it runs to its end exactly when
    [prepare_features] returned a table and [get_temporal_patterns] a
    trend. *)
Theorem main_outcome (w : world) :
  exists features w1 history_trend w2,
    (load_data ;;; prepare_features S fsqrt)
      {| self := init; disk := disk w; stdout := stdout w |} = (Ok features, w1) /\
    get_temporal_patterns S fsqrt seasonal_decompose (Str "P001") w1
    = (Ok history_trend, w2) /\
    fst (main S fsqrt seasonal_decompose noise show_head format4 format2 show_residuals w)
    = match features, snd history_trend with
      | None, _ => Raise (AttributeError "'NoneType' object has no attribute 'head'")
      | Some _, None => Raise (TypeError "'NoneType' object is not subscriptable")
      | Some _, Some _ => Ok tt
      end.
Proof.
  set (w0 := {| self := init; disk := disk w; stdout := stdout w |}).
  destruct (load_data w0) as [r wl] eqn:Hload.
  assert (Hr : r = Ok tt) by (pose proof (load_data_returns w0) as H; now rewrite Hload in H).
  subst r.
  destruct (prepare_features_cases S fsqrt wl) as [features [w1 [Hprep _]]].
  destruct (returns_run _ w1 (get_temporal_patterns_returns (Str "P001")))
    as [ht [w2 Hgtp]].
  destruct (calculate_risk_metrics_of_run features w2) as [rm [w3 [Hcalc Hrm]]].
  destruct (returns_run _ w3 (analyze_yield_patterns_returns (Str "P001")))
    as [ya [w4 Hayp]].
  exists features, w1, ht, w2. split; [|split; [exact Hgtp|]].
  { unfold bindM. now rewrite Hload. }
  unfold main.
  rewrite (bindM_ok (put_self init) _ w w0 tt eq_refl).
  rewrite (bindM_ok load_data _ w0 wl tt Hload).
  rewrite (bindM_ok _ _ wl w1 features Hprep).
  rewrite (bindM_ok _ _ w1 w2 ht Hgtp).
  rewrite (bindM_ok _ _ w2 w3 rm Hcalc).
  rewrite (bindM_ok _ _ w3 w4 ya Hayp).
  destruct features as [data|].
  - destruct rm as [scored|]; [|discriminate (proj1 Hrm eq_refl)].
    destruct (snd ht) as [t|]; [|reflexivity].
    destruct ya; reflexivity.
  - destruct rm as [scored|]; [discriminate (proj2 Hrm eq_refl)|reflexivity].
Qed.

(** X19: the script does not survive a missing source.  When one of the
    monitoring, weather and soil files cannot be read, it raises the
    attribute error of [risk_metric.head()], uncaught. *)
Theorem main_without_source (w : world) (s : source) (e : exn) :
  s <> Yields ->
  read_csv (disk w) (source_path s) (source_dates s) = Raise e ->
  fst (main S fsqrt seasonal_decompose noise show_head format4 format2 show_residuals w)
  = Raise (AttributeError "'NoneType' object has no attribute 'head'").
Proof.
  intros Hs Hread.
  set (w0 := {| self := init; disk := disk w; stdout := stdout w |}).
  destruct (load_data_unreadable w0 s e Hread) as [wl [Hload [_ [Htab _]]]].
  destruct (prepare_features_cases S fsqrt wl) as [features [w1 [Hprep [_ Hcase]]]].
  assert (Hnone : features = None).
  { destruct Hcase as [[-> _]|[data [_ [_ [Hm [Hx Hso]]]]]]; [reflexivity|].
    destruct s; simpl in Htab; congruence. }
  subst features.
  destruct (returns_run _ w1 (get_temporal_patterns_returns (Str "P001")))
    as [ht [w2 Hgtp]].
  destruct (calculate_risk_metrics_of_run None w2) as [rm [w3 [Hcalc Hrm]]].
  assert (rm = None) by now apply Hrm. subst rm.
  destruct (returns_run _ w3 (analyze_yield_patterns_returns (Str "P001")))
    as [ya [w4 Hayp]].
  unfold main.
  rewrite (bindM_ok (put_self init) _ w w0 tt eq_refl).
  rewrite (bindM_ok load_data _ w0 wl tt Hload).
  rewrite (bindM_ok _ _ wl w1 None Hprep).
  rewrite (bindM_ok _ _ w1 w2 ht Hgtp).
  rewrite (bindM_ok _ _ w2 w3 None Hcalc).
  rewrite (bindM_ok _ _ w3 w4 ya Hayp).
  reflexivity.
Qed.

End ScriptRun.

Lemma main_without_source_witness :
  fst (main insertion_sorter Qsqrt flat_decompose small_noise
            (fun _ => "") (fun _ => "") (fun _ => "") (fun _ => "")
            world_without_monitoring)
  = Raise (AttributeError "'NoneType' object has no attribute 'head'").
Proof.
  apply (main_without_source insertion_sorter Qsqrt flat_decompose small_noise
           (fun _ => "") (fun _ => "") (fun _ => "") (fun _ => "")
           world_without_monitoring Monitoring
           (FileNotFoundError "data/monitoring_cultures.csv")).
  - discriminate.
  - reflexivity.
Defined.

(** ** The sources of the dashboard *)

Lemma filter_map_shift (p : nat -> bool) (l : list nat) :
  filter p (map Datatypes.S l) = map Datatypes.S (filter (fun i => p (Datatypes.S i)) l).
Proof.
  induction l as [|i l IH]; simpl; [reflexivity|].
  destruct (p (Datatypes.S i)); simpl; now rewrite IH.
Qed.

(** Reading a column at the selected positions gives its restriction. *)
Lemma items_selected (selected : string) (ids column : list cell) :
  List.length column = List.length ids ->
  mapM (item column) (selected_positions selected ids) = Ok (restrict selected ids column).
Proof.
  unfold selected_positions, restrict.
  revert column. induction ids as [|a ids IH]; intros [|c column] Hlen;
    try discriminate; [reflexivity|].
  cbn [List.length]. rewrite <- cons_seq, <- seq_shift. cbn [filter combine nth fst].
  rewrite filter_map_shift. cbn [nth].
  assert (Htail : mapM (item (c :: column))
                       (map Datatypes.S
                            (filter (fun i => is_selected selected (nth i ids NA))
                                    (seq 0 (List.length ids))))
                  = Ok (map snd (filter (fun p : cell * cell => is_selected selected (fst p))
                                        (combine ids column)))).
  { rewrite mapM_map. rewrite <- (IH column) by (simpl in Hlen; congruence).
    reflexivity. }
  destruct (is_selected selected a); cbn [mapM map snd].
  - change (item (c :: column) 0) with (Ok c). cbn [bind]. now rewrite Htail.
  - exact Htail.
Qed.

Lemma filter_parcelle_aligned (d : column_data) (ids : list cell) (selected : string) :
  aligned d ids ->
  filter_parcelle d selected
  = Ok (map (fun kv => (fst kv, restrict selected ids (snd kv))) d).
Proof.
  intros [Hids Hlen]. unfold filter_parcelle. rewrite Hids.
  apply mapM_ok. apply Forall_forall. intros kv Hkv.
  now rewrite (items_selected selected ids (snd kv) (Hlen kv Hkv)).
Qed.

Lemma lookup_map (f : list cell -> list cell) (d : column_data) (k : string) :
  lookup (map (fun kv => (fst kv, f (snd kv))) d) k
  = match lookup d k with Some v => Some (f v) | None => None end.
Proof.
  induction d as [|[k' v] d IH]; simpl; [reflexivity|].
  destruct (String.eqb k' k); auto.
Qed.

Lemma restrict_length (selected : string) (ids column : list cell) :
  List.length column = List.length ids ->
  List.length (restrict selected ids column)
  = List.length (restrict selected ids ids).
Proof.
  unfold restrict. rewrite !length_map.
  revert column. induction ids as [|a ids IH]; intros [|c column] Hlen;
    try discriminate; [reflexivity|].
  cbn [combine filter fst]. destruct (is_selected selected a); cbn [List.length];
    rewrite (IH column) by (simpl in Hlen; congruence); reflexivity.
Qed.

Lemma restrict_ids (selected : string) (ids : list cell) :
  Forall (fun c => c = Str selected) (restrict selected ids ids).
Proof.
  unfold restrict. induction ids as [|a ids IH]; cbn [combine filter fst]; [constructor|].
  destruct (is_selected selected a) eqn:E; cbn [map snd]; [|exact IH].
  constructor; [|exact IH].
  destruct a; try discriminate E. simpl in E. apply String.eqb_eq in E. now subst.
Qed.

Lemma restrict_same (selected : string) (ids column : list cell) :
  Forall (fun c => c = Str selected) ids ->
  List.length column = List.length ids ->
  restrict selected ids column = column.
Proof.
  intros Hall. unfold restrict. revert column.
  induction Hall as [|a ids Ha _ IH]; intros [|c column] Hlen; try discriminate;
    [reflexivity|].
  subst a. cbn [combine filter fst is_selected]. rewrite String.eqb_refl.
  cbn [map snd]. rewrite IH by (simpl in Hlen; congruence). reflexivity.
Qed.

Lemma restrict_other (selected other : string) (ids column : list cell) :
  selected <> other ->
  Forall (fun c => c = Str selected) ids ->
  restrict other ids column = [].
Proof.
  intros Hne Hall. unfold restrict. revert column.
  induction Hall as [|a ids Ha _ IH]; intros [|c column]; try reflexivity.
  subst a. cbn [combine filter fst is_selected].
  apply String.eqb_neq in Hne. rewrite Hne. apply IH.
Qed.

Lemma aligned_restrict (d : column_data) (ids : list cell) (selected : string) :
  aligned d ids ->
  aligned (map (fun kv => (fst kv, restrict selected ids (snd kv))) d)
          (restrict selected ids ids).
Proof.
  intros [Hids Hlen]. split.
  - now rewrite lookup_map, Hids.
  - intros kv Hkv. apply in_map_iff in Hkv. destruct Hkv as [kv0 [<- Hkv0]].
    cbn [snd]. apply restrict_length. now apply Hlen.
Qed.

(** Filtering a filtered source: the same parcel changes nothing, another
    parcel empties every column. *)
Lemma filter_parcelle_twice (d d1 : column_data) (ids : list cell)
      (selected other : string) :
  aligned d ids ->
  filter_parcelle d selected = Ok d1 ->
  filter_parcelle d1 selected = Ok d1 /\
  (selected <> other ->
   filter_parcelle d1 other = Ok (map (fun kv => (fst kv, [])) d)).
Proof.
  intros Hal H1. rewrite (filter_parcelle_aligned d ids selected Hal) in H1.
  injection H1 as <-.
  pose proof (aligned_restrict d ids selected Hal) as Hal1.
  pose proof (restrict_ids selected ids) as Hsel.
  split.
  - rewrite (filter_parcelle_aligned _ _ selected Hal1). apply f_equal.
    rewrite map_map. apply map_ext_in. intros kv Hkv. cbn [fst snd]. f_equal.
    apply restrict_same; [exact Hsel|]. apply restrict_length. now apply Hal.
  - intros Hne. rewrite (filter_parcelle_aligned _ _ other Hal1). apply f_equal.
    rewrite map_map. apply map_ext. intros kv. cbn [fst snd]. f_equal.
    now apply (restrict_other selected).
Qed.

Section DashboardRun.

Variable prepare_stress_data : M (option column_data).

Lemma update_plots_hist (new : string) (d : dashboard) (w : world) :
  exists d' w',
    update_plots prepare_stress_data new d w = (Ok d', w') /\
    hist_source d' = match filter_parcelle (hist_source d) new with
                     | Ok filtered => filtered
                     | Raise _ => hist_source d
                     end.
Proof.
  unfold update_plots.
  destruct (filter_parcelle (hist_source d) new) as [hist|e].
  2:{ do 2 eexists. split; reflexivity. }
  cbn [feature_source hist_source].
  destruct (filter_parcelle (feature_source d) new) as [ndvi|e].
  2:{ do 2 eexists. split; reflexivity. }
  unfold try_except, bindM.
  destruct (prepare_stress_data w) as [[stress|e] w1];
    do 2 eexists; split; reflexivity.
Qed.

(** X20: [update_plots] never raises, and it always leaves in the yield
    source the rows of the selected parcel: when the columns of the source
    are as long as its parcel column, every column is cut down to the
    positions of the selected parcel, whatever happens to the other
    source. *)
Theorem update_plots_keeps_selected (new : string) (d : dashboard) (w : world)
        (ids : list cell) :
  aligned (hist_source d) ids ->
  exists d' w',
    update_plots prepare_stress_data new d w = (Ok d', w') /\
    hist_source d' = map (fun kv => (fst kv, restrict new ids (snd kv))) (hist_source d) /\
    aligned (hist_source d') (restrict new ids ids) /\
    Forall (fun c => c = Str new) (restrict new ids ids).
Proof.
  intros Hal. destruct (update_plots_hist new d w) as [d' [w' [Hrun Hh]]].
  exists d', w'. split; [exact Hrun|].
  rewrite (filter_parcelle_aligned _ ids new Hal) in Hh. rewrite Hh.
  split; [reflexivity|]. split; [now apply aligned_restrict|apply restrict_ids].
Qed.

(** X21: the filter of [update_plots] is destructive.  It replaces the
    yield source by the rows of the selected parcel, so selecting the same
    parcel again changes nothing, but selecting another parcel afterwards
    leaves every column of the yield source empty, whatever rows the
    original data had for it. *)
Theorem update_plots_second_selection (first second : string) (d : dashboard)
        (w : world) (ids : list cell) :
  aligned (hist_source d) ids ->
  exists d1 w1 d2 w2,
    update_plots prepare_stress_data first d w = (Ok d1, w1) /\
    update_plots prepare_stress_data second d1 w1 = (Ok d2, w2) /\
    (second = first -> hist_source d2 = hist_source d1) /\
    (second <> first ->
     hist_source d2 = map (fun kv => (fst kv, [])) (hist_source d)).
Proof.
  intros Hal.
  destruct (update_plots_hist first d w) as [d1 [w1 [Hrun1 Hh1]]].
  destruct (update_plots_hist second d1 w1) as [d2 [w2 [Hrun2 Hh2]]].
  exists d1, w1, d2, w2. split; [exact Hrun1|]. split; [exact Hrun2|].
  pose proof (filter_parcelle_aligned _ ids first Hal) as Hf1.
  rewrite Hf1 in Hh1. rewrite <- Hh1 in Hf1.
  destruct (filter_parcelle_twice _ _ ids first second Hal Hf1) as [Hsame Hother].
  split.
  - intros ->. now rewrite Hsame in Hh2.
  - intros Hne. rewrite Hother in Hh2 by congruence. exact Hh2.
Qed.

End DashboardRun.

Lemma update_plots_keeps_selected_witness :
  exists d' w',
    update_plots (ret None) "P001"
                 {| hist_source := two_parcel_source; feature_source := [] |}
                 world_without_monitoring = (Ok d', w') /\
    hist_source d'
    = [("parcelle_id", [Str "P001"; Str "P001"]);
       ("annee", [Num 2022; Num 2023]);
       ("rendement", [Num 3; Num 5])].
Proof.
  destruct (update_plots_keeps_selected
              (ret None) "P001"
              {| hist_source := two_parcel_source; feature_source := [] |}
              world_without_monitoring [Str "P001"; Str "P002"; Str "P001"])
    as [d' [w' [Hrun [Hh _]]]].
  - split; [reflexivity|]. intros kv [<-|[<-|[<-|[]]]]; reflexivity.
  - exists d', w'. split; [exact Hrun|]. rewrite Hh. reflexivity.
Defined.

Lemma update_plots_second_selection_witness :
  exists d1 w1 d2 w2,
    update_plots (ret None) "P001"
                 {| hist_source := two_parcel_source; feature_source := two_parcel_source |}
                 world_without_monitoring = (Ok d1, w1) /\
    update_plots (ret None) "P002" d1 w1 = (Ok d2, w2) /\
    lookup two_parcel_source "rendement" = Some [Num 3; Num 4; Num 5] /\
    hist_source d2 = [("parcelle_id", []); ("annee", []); ("rendement", [])].
Proof.
  destruct (update_plots_second_selection
              (ret None) "P001" "P002"
              {| hist_source := two_parcel_source; feature_source := two_parcel_source |}
              world_without_monitoring [Str "P001"; Str "P002"; Str "P001"])
    as [d1 [w1 [d2 [w2 [Hrun1 [Hrun2 [_ Hother]]]]]]].
  - split; [reflexivity|]. intros kv [<-|[<-|[<-|[]]]]; reflexivity.
  - exists d1, w1, d2, w2. split; [exact Hrun1|]. split; [exact Hrun2|].
    split; [reflexivity|]. rewrite Hother by discriminate. reflexivity.
Defined.


(** ** A yield series that starts with a gap *)

Lemma interpolate_leading_gap (cs out : list cell) :
  interpolate (NA :: cs) = Ok out -> exists out', out = NA :: out'.
Proof.
  unfold interpolate. destruct (forallb is_numeric (NA :: cs)); [|discriminate].
  intros H. injection H as <-. simpl. eauto.
Qed.

Section LeadingGap.

Variable S : Sorter.
Variable fsqrt : Q -> Q.
Variable noise : nat -> Q.

(** The first row of a parcel sorted by year is one of its earliest
    rows. *)
Lemma sorted_head_earliest (l : list row) :
  (forall r, In r l -> exists t, get r "annee" = Date t) ->
  l <> [] ->
  exists h tl,
    sort_rows S (fun r => get r "annee") l = h :: tl /\
    In h l /\ forall r, In r l -> (year_key h <= year_key r)%Z.
Proof.
  intros Hdated Hne.
  pose proof (sort_rows_perm S (fun r => get r "annee") l) as Hperm.
  assert (Hsorted : StronglySorted
                      (fun a b : row => cell_leb (get a "annee") (get b "annee") = true)
                      (sort_rows S (fun r => get r "annee") l)).
  { apply sort_rows_sorted. unfold orderable. apply orb_true_iff. right.
    apply forallb_forall. intros c Hc. apply in_map_iff in Hc.
    destruct Hc as [r [<- Hr]]. destruct (Hdated r Hr) as [t ->]. reflexivity. }
  destruct (sort_rows S (fun r => get r "annee") l) as [|h tl] eqn:Hs.
  { apply Permutation_sym, Permutation_nil in Hperm. contradiction. }
  exists h, tl. split; [reflexivity|].
  assert (Hh : In h l).
  { eapply Permutation_in; [apply Permutation_sym; exact Hperm|now left]. }
  split; [exact Hh|]. intros r Hr.
  apply (Permutation_in _ Hperm) in Hr.
  destruct (Hdated h Hh) as [th Hth]. unfold year_key. rewrite Hth.
  destruct Hr as [<-|Hr]; [rewrite Hth; lia|].
  apply StronglySorted_inv in Hsorted. destruct Hsorted as [_ Hall].
  rewrite Forall_forall in Hall. specialize (Hall r Hr).
  assert (Hrl : In r l).
  { eapply Permutation_in; [apply Permutation_sym; exact Hperm|now right]. }
  destruct (Hdated r Hrl) as [tr Htr]. rewrite Hth, Htr in Hall. rewrite Htr.
  simpl in Hall. now apply Z.leb_le.
Qed.

(** X22: a gap at the start of a yield series stops the analysis.  When
    the rows of the parcel are dated and its earliest rows have no yield,
    [analyze_yield_patterns] returns None: the interpolation fills no gap
    before the first value, and the regression refuses the missing
    value. *)
Theorem analyze_yield_patterns_leading_gap (pid : cell) (w : world) (yields : DataFrame) :
  yield_history (self w) = Some yields ->
  parcel_yields yields pid <> [] ->
  (forall r, In r (parcel_yields yields pid) -> exists t, get r "annee" = Date t) ->
  (forall r, In r (parcel_yields yields pid) ->
             (forall r', In r' (parcel_yields yields pid) ->
                         (year_key r <= year_key r')%Z) ->
             get r "rendement" = NA) ->
  exists w', analyze_yield_patterns S fsqrt noise pid w = (Ok None, w').
Proof.
  intros Hy Hne Hdated Hgap.
  destruct (sorted_head_earliest _ Hdated Hne) as [h [tl [Hsorted [Hh Hmin]]]].
  specialize (Hgap h Hh Hmin).
  unfold analyze_yield_patterns, try_except, bindM, lift, get_self, the_frame,
    raise, ret, print. simpl. rewrite Hy. simpl.
  destruct (filter_eq yields "parcelle_id" pid) as [pdata|e] eqn:Hfilter; simpl;
    [|eexists; reflexivity].
  apply filter_eq_rows in Hfilter. destruct Hfilter as [_ ->].
  match goal with |- context [empty ?a] => destruct (empty a) end; simpl;
    [eexists; reflexivity|].
  destruct (sort_values S _ "annee") as [sorted|e] eqn:Hsort; simpl;
    [|eexists; reflexivity].
  unfold sort_values, getitem in Hsort. cbn [columns rows] in Hsort.
  destruct (has_column _ "annee"); simpl in Hsort; [|discriminate].
  destruct (comparable _); [|discriminate].
  injection Hsort as <-. fold (parcel_yields yields pid). rewrite Hsorted.
  unfold getitem. cbn [columns rows].
  destruct (has_column _ "rendement"); simpl; [|eexists; reflexivity].
  rewrite Hgap. simpl.
  destruct (interpolate _) as [filled|e] eqn:Hfill; simpl; [|eexists; reflexivity].
  apply interpolate_leading_gap in Hfill. destruct Hfill as [filled' ->].
  destruct (Nat.eqb _ 1); simpl.
  - destruct (mapM (fun ci => add_cell (fst ci) (noise (snd ci))) _) as [noisy|e];
      simpl; [|eexists; reflexivity].
    destruct (ordinal_of _) as [x|e]; simpl; [|eexists; reflexivity].
    destruct (mapM ordinal_of _) as [xs|e]; simpl; eexists; reflexivity.
  - destruct (ordinal_of _) as [x|e]; simpl; [|eexists; reflexivity].
    destruct (mapM ordinal_of _) as [xs|e]; simpl; eexists; reflexivity.
Qed.

End LeadingGap.

Lemma analyze_yield_patterns_leading_gap_witness :
  exists w',
    analyze_yield_patterns insertion_sorter Qsqrt small_noise (Str "P004")
                           (world_with_yields late_start_yields) = (Ok None, w').
Proof.
  apply (analyze_yield_patterns_leading_gap insertion_sorter Qsqrt small_noise
           (Str "P004") (world_with_yields late_start_yields) late_start_yields).
  - reflexivity.
  - discriminate.
  - intros r [<-|[<-|[<-|[]]]]; eexists; reflexivity.
  - intros r [<-|[<-|[<-|[]]]] Hmin; try reflexivity.
    + specialize (Hmin (yield_row "P004" 2020 NA)). vm_compute in Hmin.
      exfalso. apply Hmin; [auto|reflexivity].
    + specialize (Hmin (yield_row "P004" 2020 NA)). vm_compute in Hmin.
      exfalso. apply Hmin; [auto|reflexivity].
Defined.
